(** * ArXiv metadata extractor: a shallow embedding and its properties

    This development embeds [ArXivMetadataExtractor] of
    [iSearch_metadata_extraction.py] and proves properties of its URL
    normaliser, identifier resolver, license classifier, version
    extractor and checkpointing pipeline driver.

    Modelling conventions.
    - A Python [str] is a list of 8-bit characters, read as the code
      points 0..255.  The character predicates below ([isspace],
      [isdigit], [lower_char]) are the ones CPython uses on that range.
    - A Python [int] is a [Z].  [int()] refuses a string of more than
      4300 digits with a [ValueError], as CPython does by default
      ([sys.int_info.default_max_str_digits]).
    - The standard-library regular expressions used by the extractor are
      written in a small regex syntax and run by a backtracking matcher
      with the greedy, leftmost, first-alternative discipline of [re].
    - A parsed page (a [BeautifulSoup] object) is a tree of tags and
      strings; the parser itself is a parameter.
    - Network, clock and file system are an explicit [World] of answers
      and an explicit [State] that records every effect in a trace;
      exceptions are results of the [M] monad. *)

From Stdlib Require Import String.
From Stdlib Require Import List Ascii ZArith Lia Bool Arith DecimalString.
From Stdlib Require Import Sorted Permutation.
Import ListNotations.

Set Implicit Arguments.

Definition str := list ascii.

(** String literals of the source are written [lit "..."]. *)
Definition lit (s : string) : str := list_ascii_of_string s.
Arguments lit s%_string.

(** ** Python string primitives *)

Module Py.

Definition ord (c : ascii) : nat := nat_of_ascii c.

Definition between (lo hi n : nat) : bool := (lo <=? n) && (n <=? hi).

(** [str.isspace] on one character: TAB..CR, FS..US, space, NEL, NBSP. *)
Definition isspace (c : ascii) : bool :=
  between 9 13 (ord c) || between 28 32 (ord c)
  || (ord c =? 133) || (ord c =? 160).

(** Decimal digits ([\d], [str.isdigit] restricted to category Nd). *)
Definition isdigit (c : ascii) : bool := between 48 57 (ord c).

(** The class [[a-z]]. *)
Definition islower_az (c : ascii) : bool := between 97 122 (ord c).

Definition lower_char (c : ascii) : ascii :=
  if between 65 90 (ord c)
     || (between 192 222 (ord c) && negb (ord c =? 215))
  then ascii_of_nat (ord c + 32) else c.

(** [s.lower()] *)
Definition lower (s : str) : str := map lower_char s.

Fixpoint lstrip_by (sp : ascii -> bool) (s : str) : str :=
  match s with
  | c :: s' => if sp c then lstrip_by sp s' else s
  | [] => []
  end.

Definition strip_by (sp : ascii -> bool) (s : str) : str :=
  rev (lstrip_by sp (rev (lstrip_by sp s))).

(** [s.strip()] *)
Definition strip (s : str) : str := strip_by isspace s.

Definition eqb_str (a b : str) : bool :=
  if list_eq_dec ascii_dec a b then true else false.

(** [s.startswith(p)] *)
Fixpoint startswith (s p : str) {struct p} : bool :=
  match p, s with
  | [], _ => true
  | _ :: _, [] => false
  | a :: p', b :: s' => Ascii.eqb a b && startswith s' p'
  end.

(** [p in s] *)
Fixpoint contains (p s : str) : bool :=
  startswith s p ||
  match s with
  | [] => false
  | _ :: s' => contains p s'
  end.

(** [s.replace(old, new)] for a non-empty [old]: occurrences are taken
    left to right and do not overlap.  [skip] counts the characters of
    the occurrence just replaced that are still to be passed over. *)
Fixpoint replace_from (skip : nat) (s old new : str) : str :=
  match s with
  | [] => []
  | c :: s' =>
      match skip with
      | S k => replace_from k s' old new
      | O =>
          if startswith s old
          then new ++ replace_from (length old - 1) s' old new
          else c :: replace_from 0 s' old new
      end
  end.

Definition replace (s old new : str) : str := replace_from 0 s old new.

(** [sep.join(parts)] *)
Fixpoint join (sep : str) (parts : list str) : str :=
  match parts with
  | [] => []
  | [p] => p
  | p :: ps => p ++ sep ++ join sep ps
  end.

(** The pieces of [s.split()]: maximal runs of non-space characters.
    [cur] is the run being read, in reverse. *)
Fixpoint split_from (cur : str) (s : str) : list str :=
  match s with
  | [] => match cur with [] => [] | _ => [rev cur] end
  | c :: s' =>
      if isspace c
      then match cur with
           | [] => split_from [] s'
           | _ => rev cur :: split_from [] s'
           end
      else split_from (c :: cur) s'
  end.

Definition split (s : str) : list str := split_from [] s.

(** *** [int(s)] *)

(** White space accepted around the digits by [int()]: the C-locale
    space characters, and NEL and NBSP above the ASCII range. *)
Definition int_space (c : ascii) : bool :=
  between 9 13 (ord c) || (ord c =? 32) || (ord c =? 133) || (ord c =? 160).

Definition digit_value (c : ascii) : Z := Z.of_nat (ord c - 48).

(** Digits, single underscores allowed between two digits.
    [prev] tells whether the previous character was a digit. *)
Fixpoint int_body (s : str) (acc : Z) (prev : bool) : option Z :=
  match s with
  | [] => if prev then Some acc else None
  | c :: s' =>
      if isdigit c then int_body s' (10 * acc + digit_value c)%Z true
      else if Ascii.eqb c "_" && prev then int_body s' acc false
      else None
  end.

(** The integer a string denotes by the syntax of [int()]: white
    space, a sign, digits.  [None] stands for [ValueError]. *)
Definition int_literal (s : str) : option Z :=
  match strip_by int_space s with
  | [] => None
  | c :: r =>
      if Ascii.eqb c "+" then int_body r 0%Z false
      else if Ascii.eqb c "-" then option_map Z.opp (int_body r 0%Z false)
      else int_body (c :: r) 0%Z false
  end.

(** [sys.int_info.default_max_str_digits] *)
Definition max_str_digits : nat := 4300.

(** [int(s)]: [None] stands for [ValueError], which is raised for a
    string that is not an integer literal and for one of more than
    [max_str_digits] digits (leading zeros count).  A string that has
    more digits than that raises in either case. *)
Definition int (s : str) : option Z :=
  if max_str_digits <? length (filter isdigit s) then None else int_literal s.

(** [max(x :: xs, key=key)]: the first element whose key is maximal.
    The key is computed once for each element, in order; [None] when
    it raises for one of them.  [best] is the maximum so far and
    [best_key] its key. *)
Fixpoint max_by_from (A : Type) (key : A -> option Z) (best : A) (best_key : Z)
    (xs : list A) : option A :=
  match xs with
  | [] => Some best
  | x :: xs' =>
      match key x with
      | Some k =>
          if (best_key <? k)%Z then max_by_from key x k xs'
          else max_by_from key best best_key xs'
      | None => None
      end
  end.

Definition max_by (A : Type) (key : A -> option Z) (x : A) (xs : list A) : option A :=
  match key x with
  | Some k => max_by_from key x k xs
  | None => None
  end.

End Py.

(** ** Regular expressions ([re]) *)

Module Re.

Inductive regex : Type :=
| Eps
| Chr (c : ascii)
| Cls (p : ascii -> bool)
| Cat (r1 r2 : regex)
| Alt (r1 r2 : regex)
| Star (p : ascii -> bool)
| Plus (p : ascii -> bool)
| Opt (r : regex)
| Group (r : regex).

(** A literal string. *)
Fixpoint chars (s : str) : regex :=
  match s with
  | [] => Eps
  | [c] => Chr c
  | c :: s' => Cat (Chr c) (chars s')
  end.

Definition first_some (R : Type) (a b : option R) : option R :=
  match a with Some x => Some x | None => b end.

Section Matcher.
Variable R : Type.

(** Greedy [p*]: take as many characters as possible, give back one at
    a time while the rest of the pattern fails. *)
Fixpoint class_star (p : ascii -> bool) (s : str) (k : str -> option R) : option R :=
  match s with
  | c :: s' =>
      if p c then first_some (class_star p s' k) (k s) else k s
  | [] => k []
  end.

(** [rmatch r s cap k]: match [r] at the head of [s]; [cap] is the text
    of group 1 so far; [k] is the rest of the pattern. *)
Fixpoint rmatch (r : regex) (s : str) (cap : option str)
    (k : str -> option str -> option R) : option R :=
  match r with
  | Eps => k s cap
  | Chr c =>
      match s with
      | x :: s' => if Ascii.eqb x c then k s' cap else None
      | [] => None
      end
  | Cls p =>
      match s with
      | x :: s' => if p x then k s' cap else None
      | [] => None
      end
  | Cat r1 r2 => rmatch r1 s cap (fun s1 cap1 => rmatch r2 s1 cap1 k)
  | Alt r1 r2 => first_some (rmatch r1 s cap k) (rmatch r2 s cap k)
  | Star p => class_star p s (fun s' => k s' cap)
  | Plus p =>
      match s with
      | x :: s' => if p x then class_star p s' (fun s'' => k s'' cap) else None
      | [] => None
      end
  | Opt r1 => first_some (rmatch r1 s cap k) (k s cap)
  | Group r1 =>
      rmatch r1 s cap
        (fun s' _ => k s' (Some (firstn (length s - length s') s)))
  end.

End Matcher.

(** A match object: the matched text, group 1, and the unread rest. *)
Record match_obj : Type := MatchObj {
  group0 : str;
  group1 : option str;
  rest : str
}.

(** [re.match]-like: the pattern at the head of [s]. *)
Definition match_at (r : regex) (s : str) : option match_obj :=
  rmatch r s None
    (fun s' cap => Some (MatchObj (firstn (length s - length s') s) cap s')).

(** [re.search(r, s)]: the leftmost position where the pattern matches. *)
Fixpoint search (r : regex) (s : str) : option match_obj :=
  match match_at r s with
  | Some m => Some m
  | None =>
      match s with
      | [] => None
      | _ :: s' => search r s'
      end
  end.

Fixpoint has_group (r : regex) : bool :=
  match r with
  | Group _ => true
  | Cat r1 r2 | Alt r1 r2 => has_group r1 || has_group r2
  | Opt r1 => has_group r1
  | _ => false
  end.

(** What [findall] reports for one match: group 1 when the pattern has
    a group (the empty string if it took no part), else the match. *)
Definition findall_item (r : regex) (m : match_obj) : str :=
  if has_group r
  then match group1 m with Some g => g | None => [] end
  else group0 m.

(** [re.findall(r, s)]: non-overlapping matches, left to right. *)
Fixpoint findall_from (skip : nat) (r : regex) (s : str) : list str :=
  match s with
  | [] =>
      match skip, match_at r [] with
      | O, Some m => [findall_item r m]
      | _, _ => []
      end
  | _ :: s' =>
      match skip with
      | S k => findall_from k r s'
      | O =>
          match match_at r s with
          | Some m => findall_item r m :: findall_from (length (group0 m) - 1) r s'
          | None => findall_from 0 r s'
          end
      end
  end.

Definition findall (r : regex) (s : str) : list str := findall_from 0 r s.

End Re.

(** ** Parsed pages ([bs4]) *)

Module Bs4.

(** A parsed document: strings and tags with attributes and children.
    The [BeautifulSoup] object is the root tag. *)
#[warnings="-register-all"]
Inductive node : Type :=
| NavigableString (text : str)
| Tag (name : str) (attrs : list (str * str)) (contents : list node).

(** All nodes below [n], in document order. *)
Fixpoint descendants (n : node) : list node :=
  match n with
  | NavigableString _ => []
  | Tag _ _ cs => flat_map (fun c => c :: descendants c) cs
  end.

Fixpoint lookup (key : str) (attrs : list (str * str)) : option str :=
  match attrs with
  | [] => None
  | (k, v) :: attrs' => if Py.eqb_str k key then Some v else lookup key attrs'
  end.

(** [tag.get(key)] *)
Definition get (n : node) (key : str) : option str :=
  match n with
  | Tag _ attrs _ => lookup key attrs
  | NavigableString _ => None
  end.

Definition named (name : str) (n : node) : bool :=
  match n with
  | Tag nm _ _ => Py.eqb_str nm name
  | NavigableString _ => false
  end.

(** [class_=cls]: one of the tag's classes, or all of them as written. *)
Definition has_class (cls : str) (n : node) : bool :=
  match get n (lit "class") with
  | Some v =>
      existsb (Py.eqb_str cls) (Py.split v)
      || Py.eqb_str (Py.join (lit " ") (Py.split v)) cls
  | None => false
  end.

(** [key=value] on a single-valued attribute. *)
Definition has_attr_value (key value : str) (n : node) : bool :=
  match get n key with
  | Some v => Py.eqb_str v value
  | None => false
  end.

(** [key=True] *)
Definition has_attr (key : str) (n : node) : bool :=
  match get n key with Some _ => true | None => false end.

(** The CSS selector [[key="value"]] on a multi-valued attribute. *)
Definition css_attr_equals (key value : str) (n : node) : bool :=
  match get n key with
  | Some v => Py.eqb_str (Py.join (lit " ") (Py.split v)) value
  | None => false
  end.

(** The CSS selector [.cls] *)
Definition css_class (cls : str) (n : node) : bool :=
  match get n (lit "class") with
  | Some v => existsb (Py.eqb_str cls) (Py.split v)
  | None => false
  end.

(** [n.find_all(name, ...)] with the attribute test [p]. *)
Definition find_all (n : node) (name : str) (p : node -> bool) : list node :=
  filter (fun d => named name d && p d) (descendants n).

(** [n.find(name, ...)] and [n.select_one(...)]: the first in document
    order. *)
Definition find (n : node) (name : str) (p : node -> bool) : option node :=
  hd_error (find_all n name p).

Definition strings (n : node) : list str :=
  flat_map (fun d => match d with NavigableString t => [t] | Tag _ _ _ => [] end)
           (descendants n).

(** [n.get_text(separator, strip=...)] *)
Definition get_text (n : node) (separator : str) (strip : bool) : str :=
  if strip
  then Py.join separator
         (filter (fun t => negb (Py.eqb_str t [])) (map Py.strip (strings n)))
  else Py.join separator (strings n).

End Bs4.

(** ** Exceptions *)

(** The exceptions that leave a function of the program;
    [UnicodeDecodeError] and [CsvError] ([csv.Error]) are the ones
    reading the source list can raise besides [OSError]. *)
Inductive exn : Type :=
| OSError
| ZeroDivisionError
| ValueError
| UnicodeDecodeError
| CsvError.

Inductive result (A : Type) : Type :=
| Ok (a : A)
| Raised (e : exn).
Arguments Raised {A} e.

(** ** The extractor *)

(** [LICENSE_MAPPINGS], in declaration order (the order in which the
    dictionary is iterated). *)
Definition LICENSE_MAPPINGS : list (str * str) :=
  [ (lit "creativecommons.org/licenses/by/4.0", lit "CC BY 4.0");
    (lit "creativecommons.org/licenses/by-sa/4.0", lit "CC BY-SA 4.0");
    (lit "creativecommons.org/licenses/by-nc-sa/4.0", lit "CC BY-NC-SA 4.0");
    (lit "creativecommons.org/licenses/by-nc-nd/4.0", lit "CC BY-NC-ND 4.0");
    (lit "arxiv.org/licenses/nonexclusive-distrib/1.0", lit "arXiv Non-exclusive");
    (lit "arxiv.org/licenses/assumed-1991-2003", lit "arXiv Assumed (1991-2003)") ].

Definition CSV_COLUMNS : list str :=
  [ lit "doc_id"; lit "abs_url"; lit "license_url"; lit "license_name";
    lit "version"; lit "title"; lit "authors"; lit "comments";
    lit "subjects"; lit "journal_ref"; lit "related_doi" ].

(** The class [[\d\.]] *)
Definition digit_or_dot (c : ascii) : bool := Py.isdigit c || Ascii.eqb c ".".

(** [[\d\.]+[a-z]*(?:v\d+)?] *)
Definition paper_id_re : Re.regex :=
  Re.Cat (Re.Plus digit_or_dot)
    (Re.Cat (Re.Star Py.islower_az)
       (Re.Opt (Re.Cat (Re.Chr "v") (Re.Plus Py.isdigit)))).

(** [arxiv\.org/(?:abs|pdf)/([\d\.]+[a-z]*(?:v\d+)?)] and
    [arxiv\.org/([\d\.]+[a-z]*(?:v\d+)?)] *)
Definition patterns : list Re.regex :=
  [ Re.Cat (Re.chars (lit "arxiv.org/"))
      (Re.Cat (Re.Alt (Re.chars (lit "abs")) (Re.chars (lit "pdf")))
         (Re.Cat (Re.Chr "/") (Re.Group paper_id_re)));
    Re.Cat (Re.chars (lit "arxiv.org/")) (Re.Group paper_id_re) ].

(** [match.group(1)] inside an f-string. *)
Definition fmt_group1 (m : Re.match_obj) : str :=
  match Re.group1 m with Some g => g | None => lit "None" end.

(** The [for pattern in patterns] loop of [normalize_arxiv_url]. *)
Fixpoint first_pattern (ps : list Re.regex) (url : str) : option str :=
  match ps with
  | [] => None
  | pattern :: ps' =>
      match Re.search pattern url with
      | Some m => Some (lit "https://arxiv.org/abs/" ++ fmt_group1 m)
      | None => first_pattern ps' url
      end
  end.

Definition normalize_arxiv_url (url : str) : option str :=
  match url with
  | [] => None
  | _ =>
      let url := Py.strip (Py.replace url (lit ".pdf") []) in
      first_pattern patterns url
  end.

(** [\d+] *)
Definition digits_re : Re.regex := Re.Plus Py.isdigit.

Definition extract_numeric_id (doc_id : str) : option Z :=
  let prefixed :=
    if Py.startswith doc_id (lit "PN0") && (3 <? length doc_id)
    then Py.int (skipn 3 doc_id)
    else None in
  match prefixed with
  | Some n => Some n
  | None =>
      match Py.int doc_id with
      | Some n => Some n
      | None =>
          match Re.findall digits_re doc_id with
          | [] => None
          | numbers => Py.int (last numbers [])
          end
      end
  end.

(** The [for ... in self.LICENSE_MAPPINGS.items()] loop. *)
Fixpoint first_mapping (table : list (str * str)) (license_url : str) : str :=
  match table with
  | [] => lit "Other/Unmapped"
  | (url_pattern, license_name) :: table' =>
      if Py.contains url_pattern license_url then license_name
      else first_mapping table' license_url
  end.

Definition map_license (license_url : option str) : str :=
  match license_url with
  | Some ((_ :: _) as u) => first_mapping LICENSE_MAPPINGS (Py.strip (Py.lower u))
  | _ => lit "Unknown"
  end.

Definition _normalize_url (url : str) : str :=
  if Py.startswith url (lit "//") then lit "https:" ++ url
  else if Py.startswith url (lit "/") then lit "https://arxiv.org" ++ url
  else url.

Definition _extract_license_url (soup : Bs4.node) : option str :=
  let by_rel :=
    match Bs4.find soup (lit "a") (Bs4.css_attr_equals (lit "rel") (lit "license")) with
    | Some license_link =>
        match Bs4.get license_link (lit "href") with
        | Some ((_ :: _) as href) => Some (_normalize_url href)
        | _ => None
        end
    | None => None
    end in
  match by_rel with
  | Some u => Some u
  | None =>
      let links := Bs4.find_all soup (lit "a") (Bs4.has_attr (lit "href")) in
      match filter (fun link =>
                      match Bs4.get link (lit "href") with
                      | Some href => Py.contains (lit "/licenses/") href
                      | None => false
                      end) links with
      | link :: _ => option_map _normalize_url (Bs4.get link (lit "href"))
      | [] => None
      end
  end.

(** [\[v(\d+)\]] and [v(\d+)] *)
Definition history_version_re : Re.regex :=
  Re.Cat (Re.chars (lit "[v")) (Re.Cat (Re.Group (Re.Plus Py.isdigit)) (Re.Chr "]")).

Definition meta_version_re : Re.regex :=
  Re.Cat (Re.Chr "v") (Re.Group (Re.Plus Py.isdigit)).

(** [max(versions, key=int)] is not guarded: the [ValueError] of [int]
    on a marker of too many digits leaves the function. *)
Definition _extract_version (soup : Bs4.node) : result str :=
  let from_history :=
    match Bs4.find soup (lit "div") (Bs4.has_class (lit "submission-history")) with
    | Some history =>
        match Re.findall history_version_re (Bs4.get_text history [] false) with
        | v :: versions =>
            Some (match Py.max_by Py.int v versions with
                  | Some latest => Ok (lit "v" ++ latest)
                  | None => Raised ValueError
                  end)
        | [] => None
        end
    | None => None
    end in
  match from_history with
  | Some version => version
  | None =>
      match Bs4.find soup (lit "meta")
              (Bs4.has_attr_value (lit "property") (lit "og:url")) with
      | Some meta_url =>
          match Bs4.get meta_url (lit "content") with
          | Some ((_ :: _) as content) =>
              match Re.search meta_version_re content with
              | Some version_match => Ok (lit "v" ++ fmt_group1 version_match)
              | None => Ok []
              end
          | _ => Ok []
          end
      | None => Ok []
      end
  end.

Definition _extract_title (soup : Bs4.node) : str :=
  match Bs4.find soup (lit "h1") (Bs4.css_class (lit "title")) with
  | Some title_tag =>
      let title := Bs4.get_text title_tag [] true in
      if Py.startswith (Py.lower title) (lit "title:")
      then Py.strip (skipn 6 title)
      else title
  | None => []
  end.

Definition _extract_authors (soup : Bs4.node) : str :=
  match Bs4.find soup (lit "div") (Bs4.has_class (lit "authors")) with
  | Some authors_div =>
      Py.join (lit ", ")
        (map (fun a => Bs4.get_text a [] true)
             (Bs4.find_all authors_div (lit "a") (fun _ => true)))
  | None => []
  end.

Definition _extract_comments (soup : Bs4.node) : str :=
  match Bs4.find soup (lit "td") (Bs4.has_class (lit "comments")) with
  | Some comments_td => Bs4.get_text comments_td [] true
  | None => []
  end.

Definition _extract_subjects (soup : Bs4.node) : str :=
  match Bs4.find soup (lit "td") (Bs4.has_class (lit "subjects")) with
  | Some subjects_td => Bs4.get_text subjects_td (lit " ") true
  | None => []
  end.

Definition _extract_journal_ref (soup : Bs4.node) : str :=
  match Bs4.find soup (lit "td") (Bs4.has_class (lit "jref")) with
  | Some jref_td => Bs4.get_text jref_td [] true
  | None => []
  end.

Definition _extract_doi (soup : Bs4.node) : str :=
  match Bs4.find soup (lit "td") (Bs4.has_class (lit "doi")) with
  | Some doi_td =>
      match Bs4.find doi_td (lit "a") (fun _ => true) with
      | Some doi_link => Bs4.get_text doi_link [] true
      | None => []
      end
  | None => []
  end.

(** ** Rows, documents and configuration *)

(** The dictionary returned by [extract_metadata]. *)
Record Metadata : Type := {
  md_license_url : option str;
  md_version : str;
  md_title : str;
  md_authors : str;
  md_comments : str;
  md_subjects : str;
  md_journal_ref : str;
  md_related_doi : str
}.

(** A result tuple, one field per entry of [CSV_COLUMNS]. *)
Record ResultRow : Type := {
  doc_id : str;
  abs_url : str;
  license_url : option str;
  license_name : str;
  version : str;
  title : str;
  authors : str;
  comments : str;
  subjects : str;
  journal_ref : str;
  related_doi : str
}.

(** [(doc_id, abs_url, numeric_id)] *)
Definition Document : Type := (str * str * Z)%type.

(** The class constants that steer the driver. *)
Record Config : Type := {
  DOC_ID_COLUMN : nat;
  ABSTRACT_URL_COLUMN : nat;
  CHECKPOINT_INTERVAL : nat;
  START_DOC_ID : Z;
  END_DOC_ID : Z
}.

(** The values written in the class body. *)
Definition class_config : Config := {|
  DOC_ID_COLUMN := 0;
  ABSTRACT_URL_COLUMN := 3;
  CHECKPOINT_INTERVAL := 50;
  START_DOC_ID := 60987;
  END_DOC_ID := 61041
|}.

Record Stats : Type := {
  processed : nat;
  successful : nat
}.

(** Of the field extractors only [_extract_version] can raise. *)
Definition extract_metadata (BeautifulSoup : str -> Bs4.node) (html_content : str)
    : result Metadata :=
  let soup := BeautifulSoup html_content in
  match _extract_version soup with
  | Ok version =>
      Ok {| md_license_url := _extract_license_url soup;
            md_version := version;
            md_title := _extract_title soup;
            md_authors := _extract_authors soup;
            md_comments := _extract_comments soup;
            md_subjects := _extract_subjects soup;
            md_journal_ref := _extract_journal_ref soup;
            md_related_doi := _extract_doi soup |}
  | Raised e => Raised e
  end.

Definition create_result_row (doc_id abs_url : str) (metadata : Metadata) : ResultRow :=
  let license_name := map_license (md_license_url metadata) in
  {| doc_id := doc_id; abs_url := abs_url;
     license_url := md_license_url metadata; license_name := license_name;
     version := md_version metadata;
     title := md_title metadata; authors := md_authors metadata;
     comments := md_comments metadata;
     subjects := md_subjects metadata; journal_ref := md_journal_ref metadata;
     related_doi := md_related_doi metadata |}.

Definition _create_empty_result (doc_id abs_url : str) : ResultRow :=
  {| doc_id := doc_id; abs_url := abs_url;
     license_url := None; license_name := lit "Unknown";
     version := []; title := []; authors := []; comments := [];
     subjects := []; journal_ref := []; related_doi := [] |}.

(** *** Loading the source list *)

(** [documents.sort(key=lambda x: x[2])]: a stable sort by numeric key. *)
Fixpoint insert_by_key (x : Document) (l : list Document) : list Document :=
  match l with
  | [] => [x]
  | y :: l' =>
      if (snd x <=? snd y)%Z then x :: y :: l'
      else y :: insert_by_key x l'
  end.

Definition sort_by_key (l : list Document) : list Document :=
  fold_right insert_by_key [] l.

(** One pass of the [for row in reader] loop: the document a row
    contributes, if any. *)
Definition row_document (cfg : Config) (row : list str) : option Document :=
  if length row <=? Nat.max (DOC_ID_COLUMN cfg) (ABSTRACT_URL_COLUMN cfg)
  then None
  else
    let doc_id := Py.strip (nth (DOC_ID_COLUMN cfg) row []) in
    let abs_url := Py.strip (nth (ABSTRACT_URL_COLUMN cfg) row []) in
    match abs_url with
    | [] => None
    | _ =>
        match extract_numeric_id doc_id with
        | Some numeric_id =>
            if (START_DOC_ID cfg <=? numeric_id)%Z && (numeric_id <=? END_DOC_ID cfg)%Z
            then Some (doc_id, abs_url, numeric_id)
            else None
        | None => None
        end
    end.

Fixpoint collect_documents (cfg : Config) (rows : list (list str)) : list Document :=
  match rows with
  | [] => []
  | row :: rows' =>
      match row_document cfg row with
      | Some d => d :: collect_documents cfg rows'
      | None => collect_documents cfg rows'
      end
  end.

(** The list [load_documents_to_process] returns for a readable file. *)
Definition loaded_documents (cfg : Config) (rows : list (list str)) : list Document :=
  sort_by_key (collect_documents cfg rows).

(** ** Effects *)

(** What the program prints. *)
Inductive message : Type :=
| MsgFetchFailed (url : str)
| MsgArchiveFailed (doc_id : str)
| MsgNoDocuments
| MsgProcessing (n : nat)
| MsgCheckpoint (i n : nat)
| MsgStarting
| MsgRange (start_id end_id : Z)
| MsgOutput
| MsgCompleted
| MsgProcessed (n : nat)
| MsgSuccessful (n : nat)
| MsgSuccessRate (successful processed : nat).

Inductive event : Type :=
| Request (url : str)
| ArchiveWrite (filename : str)
| LedgerAppend (rows : list ResultRow)
| Sleep
| Print (m : message).

Inductive ledger_line : Type :=
| HeaderLine (columns : list str)
| DataLine (row : ResultRow).

(** The files the program writes, and everything it did so far.
    [ledger = None]: [OUTPUT_CSV_PATH] does not exist. *)
Record State : Type := {
  ledger : option (list ledger_line);
  archive : list (str * str);
  trace : list event
}.

(** The answers of the outside world.
    - [input_rows]: the rows [csv.reader] yields for [INPUT_PATH];
      [None] when reading it raises, and [input_error] is then the
      exception: [OSError] when the file cannot be opened,
      [UnicodeDecodeError] when it is not UTF-8, [CsvError] when a
      line cannot be parsed.
    - [http_get n url]: the body of the [n]-th request of the run
      (counted from 0) when it succeeds with a success status; [None]
      when [requests] raises a [RequestException].
    - [archive_ok filename]: whether the page file can be written.
    - [ledger_ok n]: whether the [n]-th opening of the ledger for
      appending (counted from 0) succeeds. *)
Record World : Type := {
  input_rows : option (list (list str));
  input_error : exn;
  http_get : nat -> str -> option str;
  archive_ok : str -> bool;
  ledger_ok : nat -> bool
}.

Definition M (A : Type) : Type := State -> result A * State.

Definition ret (A : Type) (a : A) : M A := fun s => (Ok a, s).

Definition bind (A B : Type) (m : M A) (k : A -> M B) : M B :=
  fun s =>
    match m s with
    | (Ok a, s') => k a s'
    | (Raised e, s') => (Raised e, s')
    end.

Definition raise (A : Type) (e : exn) : M A := fun s => (Raised e, s).
Arguments raise {A} e.

(** A call of a function that has no effect but may raise. *)
Definition call (A : Type) (r : result A) : M A := fun s => (r, s).

Notation "x <- c1 ;; c2" := (bind c1 (fun x => c2))
  (at level 61, c1 at next level, right associativity).
Notation "c1 ;; c2" := (bind c1 (fun _ => c2))
  (at level 61, right associativity).

Definition get_state : M State := fun s => (Ok s, s).

Definition emit (e : event) : M unit :=
  fun s => (Ok tt, {| ledger := ledger s; archive := archive s;
                      trace := trace s ++ [e] |}).

Definition print (m : message) : M unit := emit (Print m).

Definition is_request (e : event) : bool :=
  match e with Request _ => true | _ => false end.

Definition is_append (e : event) : bool :=
  match e with LedgerAppend _ => true | _ => false end.

Definition is_sleep (e : event) : bool :=
  match e with Sleep => true | _ => false end.

Definition count (p : event -> bool) (t : list event) : nat :=
  length (filter p t).

(** All rows handed to the ledger, in the order written. *)
Definition appended_rows (t : list event) : list ResultRow :=
  flat_map (fun e => match e with LedgerAppend rows => rows | _ => [] end) t.

Definition initial_state : State :=
  {| ledger := None; archive := []; trace := [] |}.

(** ** The pipeline driver *)

Section Driver.

Variable cfg : Config.
Variable BeautifulSoup : str -> Bs4.node.
Variable w : World.

Definition fetch_abstract_page (url : str) : M (option str) :=
  s <- get_state ;;
  emit (Request url) ;;
  match http_get w (count is_request (trace s)) url with
  | Some text => ret (Some text)
  | None => print (MsgFetchFailed url) ;; ret None
  end.

(** The characters [re.sub] replaces by an underscore in the file name:
    less-than, greater-than, colon, double quote (code 34), slash,
    backslash, bar, question mark and star. *)
Definition unsafe_char (c : ascii) : bool :=
  existsb (Ascii.eqb c) (lit "<>:/\|?*") || (Py.ord c =? 34).

Definition safe_filename (doc_id : str) : str :=
  map (fun c => if unsafe_char c then "_"%char else c) doc_id.

Definition write_archive (filename content : str) : M unit :=
  fun s => (Ok tt, {| ledger := ledger s;
                      archive := (filename, content) :: archive s;
                      trace := trace s ++ [ArchiveWrite filename] |}).

Definition save_abstract_page (html_content doc_id : str) : M bool :=
  let filename := safe_filename doc_id ++ lit ".html" in
  if archive_ok w filename
  then write_archive filename html_content ;; ret true
  else print (MsgArchiveFailed doc_id) ;; ret false.

Definition load_documents_to_process : M (list Document) :=
  match input_rows w with
  | Some rows => ret (loaded_documents cfg rows)
  | None => raise (input_error w)
  end.

Definition write_ledger (results : list ResultRow) : M unit :=
  fun s =>
    let old :=
      match ledger s with
      | Some lines => lines
      | None => [HeaderLine CSV_COLUMNS]
      end in
    (Ok tt, {| ledger := Some (old ++ map DataLine results);
               archive := archive s;
               trace := trace s ++ [LedgerAppend results] |}).

(** [checkpoint_name] is received and not used. *)
Definition save_results (results : list ResultRow) (checkpoint_name : str) : M unit :=
  s <- get_state ;;
  if ledger_ok w (count is_append (trace s))
  then write_ledger results
  else raise OSError.

Definition decimal (n : nat) : str :=
  lit (DecimalString.NilEmpty.string_of_uint (Nat.to_uint n)).

(** The [if html_content: ... else: ...] of the loop body: the row of
    a fetched page, or an empty row; the page is archived on the way. *)
Definition record_page (doc_id abs_url : str) (html_content : option str)
    (results : list ResultRow) (stats : Stats) : M (list ResultRow * Stats) :=
  match html_content with
  | Some ((_ :: _) as html) =>
      metadata <- call (extract_metadata BeautifulSoup html) ;;
      save_abstract_page html doc_id ;;
      ret (results ++ [create_result_row doc_id abs_url metadata],
           {| processed := processed stats;
              successful := successful stats + 1 |})
  | _ =>
      ret (results ++ [_create_empty_result doc_id abs_url], stats)
  end.

(** The [if i % self.CHECKPOINT_INTERVAL == 0: ...] of the loop body;
    the result is the buffer afterwards. *)
Definition checkpoint (total i : nat) (results : list ResultRow) : M (list ResultRow) :=
  match CHECKPOINT_INTERVAL cfg with
  | O => raise ZeroDivisionError
  | _ =>
      if i mod CHECKPOINT_INTERVAL cfg =? 0
      then
        save_results results (lit "checkpoint_" ++ decimal i) ;;
        print (MsgCheckpoint i total) ;;
        ret []
      else ret results
  end.

(** The [for] loop of [process_documents], iterated over the documents
    left; [i] is the index [enumerate(documents, 1)] gives to the first
    of them, [total] is [len(documents)].  The first branch is the
    [continue] of a URL that does not normalise. *)
Fixpoint process_loop (total i : nat) (documents : list Document)
    (results : list ResultRow) (stats : Stats) : M (list ResultRow * Stats) :=
  match documents with
  | [] => ret (results, stats)
  | (doc_id, raw_url, numeric_id) :: documents' =>
      match normalize_arxiv_url raw_url with
      | None | Some [] =>
          process_loop total (S i) documents'
            (results ++ [_create_empty_result doc_id raw_url]) stats
      | Some abs_url =>
          html_content <- fetch_abstract_page abs_url ;;
          acc <- record_page doc_id abs_url html_content results stats ;;
          let stats := {| processed := processed (snd acc) + 1;
                          successful := successful (snd acc) |} in
          results <- checkpoint total i (fst acc) ;;
          emit Sleep ;;
          process_loop total (S i) documents' results stats
      end
  end.

Definition process_documents : M Stats :=
  documents <- load_documents_to_process ;;
  match documents with
  | [] =>
      print MsgNoDocuments ;;
      ret {| processed := 0; successful := 0 |}
  | _ =>
      print (MsgProcessing (length documents)) ;;
      acc <- process_loop (length documents) 1 documents []
               {| processed := 0; successful := 0 |} ;;
      match fst acc with
      | [] => ret (snd acc)
      | results => save_results results (lit "final") ;; ret (snd acc)
      end
  end.

(** The last [print] divides by [stats['processed']]. *)
Definition run : M unit :=
  print MsgStarting ;;
  print (MsgRange (START_DOC_ID cfg) (END_DOC_ID cfg)) ;;
  print MsgOutput ;;
  stats <- process_documents ;;
  print MsgCompleted ;;
  print (MsgProcessed (processed stats)) ;;
  print (MsgSuccessful (successful stats)) ;;
  match processed stats with
  | O => raise ZeroDivisionError
  | _ => print (MsgSuccessRate (successful stats) (processed stats))
  end.

End Driver.

(** ** The distribution analyzer *)

Module Analyzer.

(** A cell of the data frame: a string, or [None] for a missing value
    (NaN).  The frames meant are those [read_csv] builds from a ledger,
    whose two columns read here hold strings or nothing. *)
Definition cell : Type := option str.

(** A row of the frame, reduced to the two columns the analyzer reads. *)
Record record : Type := {
  license_name : cell;
  version : cell
}.

(** [series.fillna(value)], on one cell. *)
Definition fillna (value : str) (c : cell) : cell :=
  match c with
  | Some s => Some s
  | None => Some value
  end.

(** [series.replace(to_replace, value)], on one cell. *)
Definition replace (to_replace value : str) (c : cell) : cell :=
  match c with
  | Some s => if Py.eqb_str s to_replace then Some value else Some s
  | None => None
  end.

(** [df['license_name'] = f(df['license_name'])] *)
Definition set_license_name (f : cell -> cell) (rows : list record) : list record :=
  map (fun r => {| license_name := f (license_name r); version := version r |}) rows.

(** [df['version'] = f(df['version'])] *)
Definition set_version (f : cell -> cell) (rows : list record) : list record :=
  map (fun r => {| license_name := license_name r; version := f (version r) |}) rows.

(** [self.df] is [None] until the file is loaded. *)
Definition preprocess_data (df : option (list record)) : option (list record) :=
  match df with
  | None => None
  | Some rows =>
      let rows := set_license_name (fillna (lit "Unknown")) rows in
      let rows := set_license_name (replace [] (lit "Unknown")) rows in
      let rows := set_version (fillna (lit "Unknown")) rows in
      let rows := set_version (replace [] (lit "Unknown")) rows in
      Some rows
  end.

(** [sorted(items, key=key, reverse=reverse)]: a stable sort, also when
    reversed. *)
Section Sorted.

Variable A : Type.
Variable key : A -> Z.
Variable reverse : bool.

Definition goes_first (x y : A) : bool :=
  if reverse then (key y <=? key x)%Z else (key x <=? key y)%Z.

Fixpoint insert (x : A) (l : list A) : list A :=
  match l with
  | [] => [x]
  | y :: l' => if goes_first x y then x :: l else y :: insert x l'
  end.

Definition sorted (l : list A) : list A := fold_right insert [] l.

End Sorted.

(** The keys [sorted] computes before it sorts, one call of the key
    function for each item, in order; [None] when a call raises. *)
Fixpoint keys_of (A : Type) (key : A -> option Z) (l : list A)
    : option (list (A * Z)) :=
  match l with
  | [] => Some []
  | x :: l' =>
      match key x, keys_of key l' with
      | Some k, Some keyed => Some ((x, k) :: keyed)
      | _, _ => None
      end
  end.

(** [sorted(items, key=key, reverse=reverse)] for a key function that
    may raise. *)
Definition sorted_by (A : Type) (key : A -> option Z) (reverse : bool) (l : list A)
    : option (list A) :=
  match keys_of key l with
  | Some keyed => Some (map fst (sorted snd reverse keyed))
  | None => None
  end.

(** The key of the version sort: the first run of digits of the version
    as a number, 0 when there is none; [None] when [int] raises its
    [ValueError].  The group always takes part in the match. *)
Definition version_key (x : str * nat) : option Z :=
  match Re.search (Re.Group digits_re) (fst x) with
  | Some m =>
      match Re.group1 m with
      | Some g => Py.int g
      | None => None
      end
  | None => Some 0%Z
  end.

(** [series != value], on one cell: a missing value differs from every
    string. *)
Definition differs (value : str) (c : cell) : bool :=
  match c with
  | Some s => negb (Py.eqb_str s value)
  | None => true
  end.

(** The counts of the dictionary [generate_summary_statistics] returns;
    its two coverage figures are the floats
    [(valid / total_records) * 100] and are not part of the model. *)
Record summary : Type := {
  total_records : nat;
  records_with_license : nat;
  records_with_version : nat;
  top_licenses : list (str * nat)
}.

Section Distributions.

(** [series.value_counts().to_dict()]: the values of a column, each
    with the number of its rows, in the order pandas gives them. *)
Variable value_counts : list cell -> list (str * nat).

Definition get_license_distribution (df : option (list record)) : list (str * nat) :=
  match df with
  | None => []
  | Some rows =>
      let license_counts := value_counts (map license_name rows) in
      sorted (fun x => Z.of_nat (snd x)) true license_counts
  end.

(** The key function is not guarded. *)
Definition get_version_distribution (df : option (list record))
    : result (list (str * nat)) :=
  match df with
  | None => Ok []
  | Some rows =>
      let version_counts := value_counts (map version rows) in
      match sorted_by version_key false version_counts with
      | Some distribution => Ok distribution
      | None => Raised ValueError
      end
  end.

(** The coverage figures divide by [total_records]. *)
Definition generate_summary_statistics (df : option (list record))
    : result (option summary) :=
  match df with
  | None => Ok None
  | Some rows =>
      let total_records := length rows in
      let valid_licenses :=
        length (filter (fun r => differs (lit "Unknown") (license_name r)) rows) in
      let valid_versions :=
        length (filter (fun r => differs (lit "Unknown") (version r)) rows) in
      let top_licenses := firstn 5 (value_counts (map license_name rows)) in
      match total_records with
      | O => Raised ZeroDivisionError
      | _ =>
          Ok (Some {| total_records := total_records;
                      records_with_license := valid_licenses;
                      records_with_version := valid_versions;
                      top_licenses := top_licenses |})
      end
  end.

End Distributions.

End Analyzer.

(** ** Vocabulary of the statements *)

(** [p] occurs in [s] as a substring. *)
Definition occurs (p s : str) : Prop := exists a b, s = a ++ p ++ b.

(** The number a run of decimal digits denotes. *)
Definition decimal_value (s : str) : Z :=
  fold_left (fun acc c => (10 * acc + Py.digit_value c)%Z) s 0%Z.

Definition all_digits (s : str) : bool := forallb Py.isdigit s.

Definition no_digit (s : str) : bool := forallb (fun c => negb (Py.isdigit c)) s.

Definition all_space (s : str) : bool := forallb Py.isspace s.

(** [s] is empty or ends with a character that is not a digit. *)
Definition ends_without_digit (s : str) : bool :=
  match rev s with
  | [] => true
  | c :: _ => negb (Py.isdigit c)
  end.

(** [s] is empty or starts with a character that is not a digit. *)
Definition starts_without_digit (s : str) : bool :=
  match s with
  | [] => true
  | c :: _ => negb (Py.isdigit c)
  end.

(** Some letter v of [s] is directly followed by a digit. *)
Fixpoint v_then_digit (s : str) : bool :=
  match s with
  | [] => false
  | c :: s' =>
      (Ascii.eqb c "v" && negb (starts_without_digit s')) || v_then_digit s'
  end.

(** The text of a submission-history block: version markers [[vN]],
    each preceded by filler text (sender, dates, sizes, other
    bracketed words), and a last filler. *)
Fixpoint history_text (blocks : list (str * str)) (tail : str) : str :=
  match blocks with
  | [] => tail
  | (filler, digits) :: blocks' =>
      filler ++ lit "[v" ++ digits ++ lit "]" ++ history_text blocks' tail
  end.

(** After the opening of a marker and its first digit: more digits,
    then the closing bracket. *)
Fixpoint closes (s : str) : bool :=
  match s with
  | [] => false
  | c :: s' => if Py.isdigit c then closes s' else Ascii.eqb c "]"
  end.

(** [s] starts with a version marker [[vN]]. *)
Definition marker_at (s : str) : bool :=
  match s with
  | a :: b :: d :: s' =>
      Ascii.eqb a "[" && Ascii.eqb b "v" && Py.isdigit d && closes s'
  | _ => false
  end.

(** No version marker starts anywhere in [s]. *)
Fixpoint marker_free (s : str) : bool :=
  match s with
  | [] => true
  | _ :: s' => negb (marker_at s) && marker_free s'
  end.

(** Every marker holds at least one digit and digits only, and no
    marker starts inside a filler (a filler seen together with the
    opening bracket that follows it) or inside the last filler. *)
Definition well_formed_history (blocks : list (str * str)) (tail : str) : bool :=
  forallb (fun b => marker_free (fst b ++ lit "[") && all_digits (snd b)
                    && negb (Nat.eqb (length (snd b)) 0)) blocks
  && marker_free tail.

(** No marker has more digits than [int] accepts. *)
Definition within_limit (blocks : list (str * str)) : bool :=
  forallb (fun b => length (snd b) <=? Py.max_str_digits) blocks.

(** Whether the URL of a document is one [normalize_arxiv_url] accepts. *)
Definition normalizes (d : Document) : bool :=
  match normalize_arxiv_url (snd (fst d)) with
  | Some _ => true
  | None => false
  end.

(** The number of requests the run has made when it reaches the
    document at position [j] (from 0), having started after [n0]
    requests: one per earlier document whose URL normalizes. *)
Definition requests_before (n0 : nat) (documents : list Document) (j : nat) : nat :=
  n0 + length (filter normalizes (firstn j documents)).

(** The events that matter to the statements: requests, delays and
    appends (not what is printed or archived). *)
Definition significant (e : event) : bool :=
  match e with
  | Print _ | ArchiveWrite _ => false
  | _ => true
  end.

Definition sig (t : list event) : list event := filter significant t.

(** The requests and delays of a trace, in order. *)
Definition pacing (t : list event) : list event :=
  filter (fun e => is_request e || is_sleep e) t.

(** The requests and delays a document list calls for: a request and a
    delay for each document whose URL normalises. *)
Definition paced_requests (documents : list Document) : list event :=
  flat_map (fun d : Document =>
              match normalize_arxiv_url (snd (fst d)) with
              | Some u => [Request u; Sleep]
              | None => []
              end) documents.

(** The data rows of the ledger file. *)
Definition ledger_rows (l : option (list ledger_line)) : list ResultRow :=
  match l with
  | None => []
  | Some lines =>
      flat_map (fun x => match x with DataLine r => [r] | HeaderLine _ => [] end)
               lines
  end.

(** All metadata columns of a row are empty. *)
Definition all_empty (r : ResultRow) : Prop :=
  license_url r = None /\ license_name r = lit "Unknown"
  /\ version r = [] /\ title r = [] /\ authors r = [] /\ comments r = []
  /\ subjects r = [] /\ journal_ref r = [] /\ related_doi r = [].

(** The row [process_documents] builds from the answer to a request:
    the row of the page, or an empty row when there is no page; there
    is none when the extraction raises on the page. *)
Definition page_row (BeautifulSoup : str -> Bs4.node) (doc_id abs_url : str)
    (html_content : option str) : option ResultRow :=
  match html_content with
  | Some ((_ :: _) as html) =>
      match extract_metadata BeautifulSoup html with
      | Ok metadata => Some (create_result_row doc_id abs_url metadata)
      | Raised _ => None
      end
  | _ => Some (_create_empty_result doc_id abs_url)
  end.

(** The row of a document that is reached after [n] requests. *)
Definition document_row (BeautifulSoup : str -> Bs4.node) (w : World)
    (n : nat) (d : Document) : option ResultRow :=
  match normalize_arxiv_url (snd (fst d)) with
  | Some abs_url =>
      page_row BeautifulSoup (fst (fst d)) abs_url (http_get w n abs_url)
  | None => Some (_create_empty_result (fst (fst d)) (snd (fst d)))
  end.

(** The rows of all documents, when each of them has one. *)
Fixpoint document_rows (BeautifulSoup : str -> Bs4.node) (w : World)
    (n : nat) (documents : list Document) : option (list ResultRow) :=
  match documents with
  | [] => Some []
  | d :: documents' =>
      match document_row BeautifulSoup w n d,
            document_rows BeautifulSoup w (if normalizes d then S n else n)
              documents' with
      | Some r, Some rows => Some (r :: rows)
      | _, _ => None
      end
  end.

(** The extraction returns on every page the world serves. *)
Definition pages_extract (BeautifulSoup : str -> Bs4.node) (w : World) : Prop :=
  forall (n : nat) (url html : str),
    http_get w n url = Some html ->
    exists metadata, extract_metadata BeautifulSoup html = Ok metadata.

(** From [s] to [s1] the significant events [evs] happened, and the
    ledger file grew by the rows they appended. *)
Definition obs_step (s s1 : State) (evs : list event) : Prop :=
  sig (trace s1) = sig (trace s) ++ evs
  /\ ledger_rows (ledger s1) = ledger_rows (ledger s) ++ appended_rows evs.

(** A request without a usable answer: an exception, or an empty body. *)
Definition fetch_fails (w : World) (n : nat) (url : str) : Prop :=
  http_get w n url = None \/ http_get w n url = Some [].

(** ** Scenarios *)

(** A page whose submission history holds the markers [[v1]] and
    [[v11...1]], the latter of [digits] digits. *)
Definition marker_page (digits : nat) : Bs4.node :=
  Bs4.Tag (lit "[document]") []
    [Bs4.Tag (lit "div") [(lit "class", lit "submission-history")]
       [Bs4.NavigableString
          (lit "[v1] Mon [v" ++ repeat "1"%char digits ++ lit "] Tue")]].

(** One digit more than [int] accepts. *)
Definition long_marker_page : Bs4.node := marker_page 4301.

(** A parser for runs that never reach a page. *)
Definition empty_page (html : str) : Bs4.node := Bs4.Tag (lit "[document]") [] [].

Definition offline (rows : list (list str)) : World :=
  {| input_rows := Some rows;
     input_error := OSError;
     http_get := fun _ _ => None;
     archive_ok := fun _ => true;
     ledger_ok := fun _ => true |}.

(** The source list cannot be opened. *)
Definition unreadable : World :=
  {| input_rows := None;
     input_error := OSError;
     http_get := fun _ _ => None;
     archive_ok := fun _ => true;
     ledger_ok := fun _ => true |}.

(** The ledger cannot be opened for appending. *)
Definition locked_ledger (rows : list (list str)) : World :=
  {| input_rows := Some rows;
     input_error := OSError;
     http_get := fun _ _ => None;
     archive_ok := fun _ => true;
     ledger_ok := fun _ => false |}.

(** One in-range row whose reference URL is not an arXiv URL. *)
Definition rows_one_foreign_url : list (list str) :=
  [ [lit "PN0060987"; lit "x"; lit "y"; lit "http://example.org/paper.pdf"] ].

(** Row number [k] (from 0) of a source list with consecutive
    identifiers from 60987 on, all with arXiv URLs except number [bad]. *)
#[warnings="-abstract-large-number"]
Definition numbered_row (bad k : nat) : list str :=
  [ lit "PN00" ++ decimal (60987 + k); lit "x"; lit "y";
    if k =? bad then lit "http://example.org/paper.pdf"
    else lit "https://arxiv.org/abs/0704." ++ decimal (1000 + k) ].

(** 51 rows; the 50th has a foreign URL. *)
Definition rows_51_with_foreign_50th : list (list str) :=
  map (numbered_row 49) (seq 0 51).

(** ** Vocabulary of the further properties *)

(** The characters of a paper identifier: digits, dots and lower-case
    letters. *)
Definition id_char (c : ascii) : bool := digit_or_dot c || Py.islower_az c.

(** A paper identifier starts with a digit or a dot and holds digits,
    dots and lower-case letters only. *)
Definition paper_id_shape (paper_id : str) : bool :=
  match paper_id with
  | [] => false
  | c :: _ => digit_or_dot c
  end && forallb id_char paper_id.

(** [s] neither starts nor ends with white space. *)
Definition stripped (s : str) : bool :=
  match s with [] => true | c :: _ => negb (Py.isspace c) end
  && match rev s with [] => true | c :: _ => negb (Py.isspace c) end.

(** The tags the field extractors look for. *)
Definition searched_tags : list str :=
  [lit "a"; lit "div"; lit "meta"; lit "h1"; lit "td"].

(** No node below [soup] is one of the tags the extractors look for. *)
Definition without_searched_tags (soup : Bs4.node) : bool :=
  forallb (fun d => negb (existsb (fun name => Bs4.named name d) searched_tags))
          (Bs4.descendants soup).

(** Order of two documents by numeric key. *)
Definition key_le (a b : Document) : Prop := (snd a <= snd b)%Z.

Definition has_key (k : Z) (d : Document) : bool := (snd d =? k)%Z.

(** The number of documents whose request brings a page that is not
    empty, in a run that has made [n] requests before them. *)
Fixpoint count_fetched (w : World) (n : nat) (documents : list Document) : nat :=
  match documents with
  | [] => 0
  | d :: documents' =>
      match normalize_arxiv_url (snd (fst d)) with
      | Some abs_url =>
          match http_get w n abs_url with
          | Some (_ :: _) => 1
          | _ => 0
          end + count_fetched w (S n) documents'
      | None => count_fetched w n documents'
      end
  end.

(** The ledger file after [rows] were appended to it in one or more
    non-empty batches: created with the header if it did not exist. *)
Definition ledger_after (l : option (list ledger_line)) (rows : list ResultRow)
    : option (list ledger_line) :=
  match rows with
  | [] => l
  | _ =>
      Some (match l with
            | Some lines => lines
            | None => [HeaderLine CSV_COLUMNS]
            end ++ map DataLine rows)
  end.

(** The page file [record_page] leaves for a document: written when
    the page is not empty and the file can be written. *)
Definition archived_page (w : World) (doc_id : str) (html_content : option str)
    : list (str * str) :=
  match html_content with
  | Some ((_ :: _) as html) =>
      if archive_ok w (safe_filename doc_id ++ lit ".html")
      then [(safe_filename doc_id ++ lit ".html", html)]
      else []
  | _ => []
  end.

(** The page files of a run over [documents] that has made [n]
    requests before them, the newest first. *)
Fixpoint archived_pages (w : World) (n : nat) (documents : list Document)
    : list (str * str) :=
  match documents with
  | [] => []
  | d :: documents' =>
      match normalize_arxiv_url (snd (fst d)) with
      | Some abs_url =>
          archived_pages w (S n) documents'
          ++ archived_page w (fst (fst d)) (http_get w n abs_url)
      | None => archived_pages w n documents'
      end
  end.

(** Every request is answered with [page]; page files can be written
    or not. *)
Definition online (page : str) (can_archive : bool) (rows : list (list str)) : World :=
  {| input_rows := Some rows;
     input_error := OSError;
     http_get := fun _ _ => Some page;
     archive_ok := fun _ => can_archive;
     ledger_ok := fun _ => true |}.

(** One in-range row with an arXiv URL. *)
Definition rows_one_arxiv_url : list (list str) := [numbered_row 1 0].

(** 51 rows, all with arXiv URLs. *)
Definition rows_51 : list (list str) := map (numbered_row 51) (seq 0 51).

(** The order of the version sort, on versions that have a key. *)
Definition version_before (a b : str * nat) : Prop :=
  match Analyzer.version_key a, Analyzer.version_key b with
  | Some x, Some y => (x <= y)%Z
  | _, _ => False
  end.

Definition has_version_key (k : Z) (x : str * nat) : bool :=
  match Analyzer.version_key x with
  | Some n => (n =? k)%Z
  | None => false
  end.

(** A cell that holds a string that is not empty. *)
Definition filled (c : Analyzer.cell) : bool :=
  match c with
  | Some (_ :: _) => true
  | _ => false
  end.

(** A cell that says something: a string other than the empty one and
    other than Unknown. *)
Definition informative (c : Analyzer.cell) : bool :=
  filled c && Analyzer.differs (lit "Unknown") c.

(** A frame of two rows: one with a license and a version, one with a
    missing license and an empty version. *)
Definition two_rows_frame : list Analyzer.record :=
  [ {| Analyzer.license_name := Some (lit "CC BY 4.0");
       Analyzer.version := Some (lit "v2") |};
    {| Analyzer.license_name := None;
       Analyzer.version := Some [] |} ].

(** * Properties *)

Unset Implicit Arguments.

(** ** Strings *)

Lemma startswith_spec (s p : str) :
  Py.startswith s p = true <-> exists r, s = p ++ r.
Proof.
  revert s; induction p as [|a p IH]; intros s; simpl.
  - split; [intros _; now exists s | reflexivity].
  - destruct s as [|b s].
    + split; [discriminate | intros [r Hr]; discriminate].
    + rewrite andb_true_iff, Ascii.eqb_eq, IH. split.
      * intros [-> [r ->]]. now exists r.
      * intros [r Hr]. injection Hr as -> ->. split; [reflexivity | now exists r].
Qed.

Lemma startswith_length (s p : str) :
  Py.startswith s p = true -> length p <= length s.
Proof.
  intros H. apply startswith_spec in H as [r ->].
  rewrite length_app. lia.
Qed.

Lemma contains_spec (p s : str) :
  Py.contains p s = true <-> occurs p s.
Proof.
  unfold occurs. induction s as [|c s IH].
  - simpl. rewrite orb_false_r, startswith_spec. split.
    + intros [r Hr]. exists [], r. exact Hr.
    + intros [a [b Hab]]. destruct a; [now exists b | discriminate].
  - simpl. rewrite orb_true_iff, startswith_spec, IH. split.
    + intros [[r Hr] | [a [b Hab]]].
      * exists [], r. exact Hr.
      * exists (c :: a), b. simpl. now rewrite Hab.
    + intros [a [b Hab]]. destruct a as [|x a].
      * left. now exists b.
      * right. injection Hab as -> ->. now exists a, b.
Qed.

Lemma lstrip_by_all (sp : ascii -> bool) (ws : str) :
  forallb sp ws = true -> Py.lstrip_by sp ws = [].
Proof.
  induction ws as [|c ws IH]; simpl; [reflexivity|].
  intros H. apply andb_true_iff in H as [-> H]. auto.
Qed.

Lemma lstrip_by_app (sp : ascii -> bool) (s t : str) :
  Py.lstrip_by sp (s ++ t) =
  match Py.lstrip_by sp s with
  | [] => Py.lstrip_by sp t
  | r => r ++ t
  end.
Proof.
  induction s as [|c s IH]; simpl.
  - reflexivity.
  - destruct (sp c); [exact IH | reflexivity].
Qed.

Lemma lstrip_by_skip (sp : ascii -> bool) (ws s : str) :
  forallb sp ws = true -> Py.lstrip_by sp (ws ++ s) = Py.lstrip_by sp s.
Proof.
  intros H. rewrite lstrip_by_app, lstrip_by_all by exact H. reflexivity.
Qed.

Lemma forallb_rev (A : Type) (p : A -> bool) (l : list A) :
  forallb p (rev l) = forallb p l.
Proof.
  induction l as [|x l IH]; simpl; [reflexivity|].
  rewrite forallb_app, IH. simpl. rewrite andb_true_r. apply andb_comm.
Qed.

(** Stripping forgets surrounding white space. *)
Lemma strip_by_surround (sp : ascii -> bool) (ws1 s ws2 : str) :
  forallb sp ws1 = true -> forallb sp ws2 = true ->
  Py.strip_by sp (ws1 ++ s ++ ws2) = Py.strip_by sp s.
Proof.
  intros H1 H2. unfold Py.strip_by.
  rewrite lstrip_by_skip by exact H1.
  rewrite lstrip_by_app.
  destruct (Py.lstrip_by sp s) as [|c r] eqn:E.
  - rewrite (lstrip_by_all sp ws2 H2). reflexivity.
  - rewrite rev_app_distr, lstrip_by_skip; [reflexivity|].
    now rewrite forallb_rev.
Qed.

(** The stripped string is a segment of the string. *)
Lemma lstrip_by_suffix (sp : ascii -> bool) (s : str) :
  exists a, s = a ++ Py.lstrip_by sp s.
Proof.
  induction s as [|c s [a IH]]; simpl.
  - now exists [].
  - destruct (sp c).
    + exists (c :: a). simpl. now rewrite <- IH.
    + now exists [].
Qed.

Lemma strip_by_segment (sp : ascii -> bool) (s : str) :
  exists a b, s = a ++ Py.strip_by sp s ++ b.
Proof.
  unfold Py.strip_by.
  destruct (lstrip_by_suffix sp s) as [a Ha].
  destruct (lstrip_by_suffix sp (rev (Py.lstrip_by sp s))) as [b Hb].
  exists a, (rev b).
  rewrite <- rev_app_distr, <- Hb, rev_involutive. exact Ha.
Qed.

Lemma strip_by_In (sp : ascii -> bool) (s : str) (c : ascii) :
  In c (Py.strip_by sp s) -> In c s.
Proof.
  destruct (strip_by_segment sp s) as [a [b H]]. intros Hc.
  rewrite H. apply in_or_app. right. apply in_or_app. now left.
Qed.

(** A string that starts and ends with characters that are not white
    space is its own stripped form. *)
Lemma strip_by_id (sp : ascii -> bool) (s : str) :
  match s with [] => true | c :: _ => negb (sp c) end = true ->
  match rev s with [] => true | c :: _ => negb (sp c) end = true ->
  Py.strip_by sp s = s.
Proof.
  intros Hfirst Hlast. unfold Py.strip_by.
  destruct s as [|c s]; [reflexivity|].
  apply negb_true_iff in Hfirst.
  cbn [Py.lstrip_by]. rewrite Hfirst.
  destruct (rev (c :: s)) as [|d q] eqn:E.
  - apply (f_equal (@rev ascii)) in E. rewrite rev_involutive in E. discriminate.
  - apply negb_true_iff in Hlast.
    cbn [Py.lstrip_by]. rewrite Hlast, <- E. apply rev_involutive.
Qed.

(** Stripping keeps an occurrence whose ends are not white space. *)
Lemma lstrip_by_occurs (sp : ascii -> bool) (c : ascii) (a p b : str) :
  sp c = false ->
  exists a', Py.lstrip_by sp (a ++ (c :: p) ++ b) = a' ++ (c :: p) ++ b.
Proof.
  intros Hc. rewrite lstrip_by_app.
  destruct (Py.lstrip_by sp a) as [|x r].
  - exists []. simpl. now rewrite Hc.
  - now exists (x :: r).
Qed.

Lemma strip_by_occurs (sp : ascii -> bool) (p s : str) :
  match p with [] => false | c :: _ => negb (sp c) end = true ->
  match rev p with [] => false | c :: _ => negb (sp c) end = true ->
  occurs p s -> occurs p (Py.strip_by sp s).
Proof.
  intros Hfirst Hlast [a [b ->]]. unfold Py.strip_by.
  destruct p as [|c p]; [discriminate|].
  apply negb_true_iff in Hfirst.
  destruct (lstrip_by_occurs sp c a p b Hfirst) as [a' ->].
  rewrite !rev_app_distr.
  destruct (rev (c :: p)) as [|d q] eqn:E; [discriminate|].
  apply negb_true_iff in Hlast.
  rewrite <- app_assoc.
  destruct (lstrip_by_occurs sp d (rev b) q (rev a') Hlast) as [b' Hb'].
  rewrite Hb'. exists a', (rev b').
  rewrite !rev_app_distr, rev_involutive, <- E, rev_involutive.
  now rewrite <- app_assoc.
Qed.

Lemma lower_occurs (p s : str) :
  Py.lower p = p -> occurs p s -> occurs p (Py.lower s).
Proof.
  intros Hp [a [b ->]]. exists (Py.lower a), (Py.lower b).
  unfold Py.lower in *. now rewrite !map_app, Hp.
Qed.

(** *** [replace] *)

Lemma startswith_app_foreign (old u ws : str) :
  (forall c, In c ws -> ~ In c old) ->
  Py.startswith (u ++ ws) old = Py.startswith u old.
Proof.
  revert u; induction old as [|a old IH]; intros u H; [reflexivity|].
  destruct u as [|b u]; simpl.
  - destruct ws as [|c ws]; [reflexivity|].
    destruct (Ascii.eqb a c) eqn:E; [|reflexivity].
    apply Ascii.eqb_eq in E. subst c.
    exfalso. apply (H a); simpl; auto.
  - rewrite IH; [reflexivity|].
    intros c Hc Hin. apply (H c Hc). now right.
Qed.

Lemma replace_from_foreign_prefix (old new ws x : str) :
  old <> [] -> (forall c, In c ws -> ~ In c old) ->
  Py.replace_from 0 (ws ++ x) old new = ws ++ Py.replace_from 0 x old new.
Proof.
  intros Hold. destruct old as [|a old]; [contradiction|].
  induction ws as [|c ws IH]; intros H; [reflexivity|].
  simpl. destruct (Ascii.eqb a c) eqn:E.
  - apply Ascii.eqb_eq in E. subst c. exfalso. apply (H a); simpl; auto.
  - simpl. f_equal. apply IH. intros d Hd. apply H. now right.
Qed.

Lemma replace_from_foreign_suffix (old new ws u : str) (k : nat) :
  old <> [] -> (forall c, In c ws -> ~ In c old) -> k <= length u ->
  Py.replace_from k (u ++ ws) old new = Py.replace_from k u old new ++ ws.
Proof.
  intros Hold H. revert k. induction u as [|c u IH]; intros k Hk.
  - simpl in Hk. assert (k = 0) by lia. subst k. simpl.
    rewrite <- (app_nil_r ws) at 1.
    rewrite replace_from_foreign_prefix by assumption.
    simpl. now rewrite app_nil_r.
  - simpl app. destruct k as [|k].
    + cbn [Py.replace_from].
      change (c :: u ++ ws) with ((c :: u) ++ ws).
      rewrite startswith_app_foreign by exact H.
      destruct (Py.startswith (c :: u) old) eqn:E.
      * apply startswith_length in E. simpl in E.
        rewrite IH by lia. now rewrite app_assoc.
      * rewrite IH by lia. reflexivity.
    + cbn [Py.replace_from]. apply IH. simpl in Hk. lia.
Qed.

Lemma space_not_in (sp : ascii -> bool) (ws old : str) :
  forallb sp ws = true -> forallb (fun c => negb (sp c)) old = true ->
  forall c, In c ws -> ~ In c old.
Proof.
  intros Hws Hold c Hc Hin.
  rewrite forallb_forall in Hws, Hold.
  specialize (Hws c Hc). specialize (Hold c Hin).
  rewrite Hws in Hold. discriminate.
Qed.

(** Replacing a string free of white space commutes with surrounding
    white space. *)
Lemma replace_surround (old new ws1 u ws2 : str) :
  old <> [] -> forallb (fun c => negb (Py.isspace c)) old = true ->
  all_space ws1 = true -> all_space ws2 = true ->
  Py.replace (ws1 ++ u ++ ws2) old new = ws1 ++ Py.replace u old new ++ ws2.
Proof.
  intros Hold Hfree H1 H2. unfold Py.replace.
  rewrite replace_from_foreign_prefix;
    [|exact Hold | now apply space_not_in with (sp := Py.isspace)].
  rewrite replace_from_foreign_suffix;
    [reflexivity | exact Hold | now apply space_not_in with (sp := Py.isspace) | lia].
Qed.

(** ** Characters *)

(** Closed statements about the program are settled by running it. *)
Ltac evaluate :=
  cbv zeta;
  repeat match goal with |- _ /\ _ => split end;
  vm_compute; reflexivity.

(** Facts about one character are settled by inspecting its code. *)
Ltac by_ascii_cases c :=
  destruct c as [[] [] [] [] [] [] [] []]; vm_compute; intros;
  first [reflexivity | discriminate | congruence].

Lemma digit_not_int_space (c : ascii) :
  Py.isdigit c = true -> Py.int_space c = false.
Proof. by_ascii_cases c. Qed.

Lemma digit_not_sign (c : ascii) :
  Py.isdigit c = true -> Ascii.eqb c "+" = false /\ Ascii.eqb c "-" = false.
Proof.
  intros H. split; revert H; by_ascii_cases c.
Qed.

Lemma digit_not_underscore (c : ascii) :
  Py.isdigit c = true -> Ascii.eqb c "_" = false.
Proof. by_ascii_cases c. Qed.

Lemma sign_not_digit (c : ascii) :
  Ascii.eqb c "+" = true \/ Ascii.eqb c "-" = true -> Py.isdigit c = false.
Proof.
  intros [H | H]; revert H; by_ascii_cases c.
Qed.

(** ** [int] *)

Lemma int_body_digits (s : str) (acc : Z) (prev : bool) :
  all_digits s = true -> s <> [] \/ prev = true ->
  Py.int_body s acc prev =
  Some (fold_left (fun a c => (10 * a + Py.digit_value c)%Z) s acc).
Proof.
  revert acc prev. induction s as [|c s IH]; intros acc prev Hd Hne.
  - destruct Hne as [Hne | ->]; [contradiction | reflexivity].
  - simpl in Hd. apply andb_true_iff in Hd as [Hc Hd].
    simpl. rewrite Hc. apply IH; [exact Hd | now right].
Qed.

Lemma last_digit_of_run (s : str) :
  all_digits s = true ->
  match rev s with [] => true | c :: _ => negb (Py.int_space c) end = true.
Proof.
  intros H. unfold all_digits in H. rewrite <- forallb_rev in H.
  destruct (rev s) as [|c r]; [reflexivity|].
  simpl in H. apply andb_true_iff in H as [Hc _].
  now rewrite digit_not_int_space.
Qed.

Lemma filter_all {A : Type} {p : A -> bool} {l : list A} :
  forallb p l = true -> filter p l = l.
Proof.
  induction l as [|x l IH]; [reflexivity|].
  cbn [forallb filter]. intros H. apply andb_true_iff in H as [-> H].
  now rewrite IH.
Qed.

Lemma int_literal_digits (s : str) :
  all_digits s = true -> s <> [] -> Py.int_literal s = Some (decimal_value s).
Proof.
  intros Hd Hne. unfold Py.int_literal.
  rewrite strip_by_id.
  - destruct s as [|c s]; [contradiction|].
    pose proof Hd as Hd'. simpl in Hd'. apply andb_true_iff in Hd' as [Hc _].
    destruct (digit_not_sign c Hc) as [-> ->].
    apply int_body_digits; [exact Hd | now left].
  - destruct s as [|c s]; [reflexivity|].
    simpl in Hd. apply andb_true_iff in Hd as [Hc _].
    now rewrite digit_not_int_space.
  - now apply last_digit_of_run.
Qed.

(** [int] reads a run of digits as the number it denotes, up to the
    limit on the number of digits. *)
Lemma int_digits (s : str) :
  all_digits s = true -> s <> [] -> length s <= Py.max_str_digits ->
  Py.int s = Some (decimal_value s).
Proof.
  intros Hd Hne Hlen. unfold Py.int. rewrite (filter_all Hd).
  apply Nat.ltb_ge in Hlen. rewrite Hlen. now apply int_literal_digits.
Qed.

(** [int] fails on a string of more digits than the limit. *)
Lemma int_over_limit (s : str) :
  Py.max_str_digits < length (filter Py.isdigit s) -> Py.int s = None.
Proof. intros H. unfold Py.int. apply Nat.ltb_lt in H. now rewrite H. Qed.

Lemma int_digits_over_limit (s : str) :
  all_digits s = true -> Py.max_str_digits < length s -> Py.int s = None.
Proof.
  intros Hd H. apply int_over_limit. now rewrite (filter_all Hd).
Qed.

Lemma int_body_no_leading_digit (s : str) (acc : Z) :
  starts_without_digit s = true -> Py.int_body s acc false = None.
Proof.
  destruct s as [|c s]; [reflexivity|].
  simpl. intros H. apply negb_true_iff in H. rewrite H.
  now rewrite andb_false_r.
Qed.

Lemma no_digit_starts (s : str) :
  no_digit s = true -> starts_without_digit s = true.
Proof.
  destruct s as [|c s]; [reflexivity|].
  simpl. intros H. now apply andb_true_iff in H as [-> _].
Qed.

Lemma no_digit_In (s : str) :
  no_digit s = true <-> forall c, In c s -> Py.isdigit c = false.
Proof.
  unfold no_digit. rewrite forallb_forall. split; intros H c Hc.
  - now apply negb_true_iff, H.
  - now apply negb_true_iff, H.
Qed.

(** [int] fails on a string without digits. *)
Lemma int_no_digit (s : str) :
  no_digit s = true -> Py.int s = None.
Proof.
  intros H. unfold Py.int.
  destruct (Py.max_str_digits <? length (filter Py.isdigit s)); [reflexivity|].
  unfold Py.int_literal.
  assert (Ht : no_digit (Py.strip_by Py.int_space s) = true).
  { apply no_digit_In. intros c Hc. apply strip_by_In in Hc.
    revert c Hc. now apply no_digit_In. }
  destruct (Py.strip_by Py.int_space s) as [|c r]; [reflexivity|].
  pose proof Ht as Ht'. simpl in Ht'. apply andb_true_iff in Ht' as [Hc Hr].
  apply no_digit_starts in Hr.
  destruct (Ascii.eqb c "+").
  - now apply int_body_no_leading_digit.
  - destruct (Ascii.eqb c "-").
    + now rewrite int_body_no_leading_digit.
    + apply int_body_no_leading_digit. simpl. exact Hc.
Qed.

(** [int] fails on a string that starts with a letter. *)
Lemma int_starts_with_letter (c : ascii) (s : str) :
  Py.int_space c = false -> Py.isdigit c = false ->
  Ascii.eqb c "+" = false -> Ascii.eqb c "-" = false ->
  Py.int (c :: s) = None.
Proof.
  intros Hsp Hd Hplus Hminus. unfold Py.int.
  destruct (Py.max_str_digits <? length (filter Py.isdigit (c :: s)));
    [reflexivity|].
  unfold Py.int_literal, Py.strip_by.
  cbn [Py.lstrip_by]. rewrite Hsp.
  destruct (lstrip_by_suffix Py.int_space (rev (c :: s))) as [a Ha].
  destruct (Py.lstrip_by Py.int_space (rev (c :: s))) as [|d q] eqn:E.
  - exfalso. rewrite app_nil_r in Ha. subst a.
    assert (Hall : forallb Py.int_space (rev (c :: s)) = true).
    { clear Hplus Hminus Hd. revert E. generalize (rev (c :: s)).
      induction l as [|x l IH]; simpl; [reflexivity|].
      destruct (Py.int_space x); [intros; now rewrite IH | discriminate]. }
    rewrite forallb_rev in Hall. simpl in Hall. now rewrite Hsp in Hall.
  - apply (f_equal (@rev ascii)) in Ha.
    rewrite rev_involutive, rev_app_distr in Ha.
    destruct (rev (d :: q)) as [|x r] eqn:E2.
    + apply (f_equal (@rev ascii)) in E2. rewrite rev_involutive in E2. discriminate.
    + simpl in Ha. injection Ha as <- _.
      rewrite Hplus, Hminus. simpl. rewrite Hd. now rewrite andb_false_r.
Qed.

(** ** The matcher *)

(** A greedy class repetition stops at the first character outside the
    class when the rest of the pattern accepts from there. *)
Lemma class_star_run (R : Type) (p : ascii -> bool) (run rest : str)
    (k : str -> option R) (r : R) :
  forallb p run = true ->
  match rest with [] => true | c :: _ => negb (p c) end = true ->
  k rest = Some r ->
  Re.class_star p (run ++ rest) k = Some r.
Proof.
  intros Hrun Hrest Hk. induction run as [|c run IH]; simpl.
  - destruct rest as [|c rest]; [exact Hk|].
    apply negb_true_iff in Hrest. simpl. now rewrite Hrest.
  - simpl in Hrun. apply andb_true_iff in Hrun as [-> Hrun].
    now rewrite IH.
Qed.

Lemma firstn_app_exact (A : Type) (a b : list A) :
  firstn (length (a ++ b) - length b) (a ++ b) = a.
Proof.
  rewrite length_app.
  replace (length a + length b - length b) with (length a + 0) by lia.
  rewrite firstn_app_2. simpl. apply app_nil_r.
Qed.

(** Every string splits into its leading digits and a rest. *)
Lemma span_digits (s : str) :
  exists run rest,
    s = run ++ rest /\ all_digits run = true /\ starts_without_digit rest = true.
Proof.
  induction s as [|c s [run [rest [-> [Hrun Hrest]]]]].
  - now exists [], [].
  - destruct (Py.isdigit c) eqn:E.
    + exists (c :: run), rest. simpl. now rewrite E.
    + exists [], (c :: run ++ rest). simpl. now rewrite E.
Qed.

(** *** [\d+] *)

Lemma match_at_digits (run rest : str) :
  run <> [] -> all_digits run = true -> starts_without_digit rest = true ->
  Re.match_at digits_re (run ++ rest) =
  Some (Re.MatchObj run None rest).
Proof.
  intros Hne Hrun Hrest. destruct run as [|c run]; [contradiction|].
  simpl in Hrun. apply andb_true_iff in Hrun as [Hc Hrun].
  unfold Re.match_at, digits_re. cbn [Re.rmatch app]. rewrite Hc.
  erewrite class_star_run; [| exact Hrun | exact Hrest | reflexivity].
  f_equal. f_equal.
  change (c :: run ++ rest) with ((c :: run) ++ rest).
  apply firstn_app_exact.
Qed.

Lemma match_at_digits_none (s : str) :
  starts_without_digit s = true -> Re.match_at digits_re s = None.
Proof.
  destruct s as [|c s]; [reflexivity|].
  simpl. intros H. apply negb_true_iff in H.
  unfold Re.match_at, digits_re. simpl. now rewrite H.
Qed.

(** *** [findall] *)

Lemma findall_from_skip (r : Re.regex) (k : nat) (s : str) :
  k <= length s ->
  Re.findall_from k r s = Re.findall_from 0 r (skipn k s).
Proof.
  revert k. induction s as [|c s IH]; intros k Hk.
  - simpl in Hk. now replace k with 0 by lia.
  - destruct k as [|k]; [reflexivity|].
    simpl in Hk. cbn [Re.findall_from skipn]. apply IH. lia.
Qed.

Lemma findall_digits_none (s : str) :
  no_digit s = true -> Re.findall digits_re s = [].
Proof.
  unfold Re.findall. induction s as [|c s IH]; intros H.
  - reflexivity.
  - cbn [Re.findall_from].
    rewrite match_at_digits_none by now apply no_digit_starts.
    apply IH. simpl in H. now apply andb_true_iff in H.
Qed.

Lemma findall_digits_step (run rest : str) :
  run <> [] -> all_digits run = true -> starts_without_digit rest = true ->
  Re.findall digits_re (run ++ rest) = run :: Re.findall digits_re rest.
Proof.
  intros Hne Hrun Hrest. unfold Re.findall.
  pose proof (match_at_digits run rest Hne Hrun Hrest) as Hm.
  destruct run as [|c run]; [contradiction|].
  cbn [app] in *. cbn [Re.findall_from]. rewrite Hm.
  cbn [Re.group0 Re.findall_item Re.has_group digits_re length].
  replace (S (length run) - 1) with (length run) by lia.
  f_equal. rewrite findall_from_skip by (rewrite length_app; lia).
  now rewrite skipn_app, skipn_all, Nat.sub_diag.
Qed.

Lemma findall_digits_skip (c : ascii) (s : str) :
  Py.isdigit c = false ->
  Re.findall digits_re (c :: s) = Re.findall digits_re s.
Proof.
  intros H. unfold Re.findall. cbn [Re.findall_from].
  rewrite match_at_digits_none; [reflexivity|].
  simpl. now rewrite H.
Qed.

Lemma last_cons_nonempty (A : Type) (x : A) (l : list A) (d : A) :
  l <> [] -> last (x :: l) d = last l d.
Proof. destruct l; [contradiction | reflexivity]. Qed.

Lemma ends_without_digit_app (a b : str) :
  b <> [] -> ends_without_digit (a ++ b) = ends_without_digit b.
Proof.
  intros Hb. unfold ends_without_digit. rewrite rev_app_distr.
  destruct (rev b) as [|c r] eqn:E; [|reflexivity].
  apply (f_equal (@rev ascii)) in E. rewrite rev_involutive in E.
  contradiction.
Qed.

Lemma all_digits_ends (s : str) :
  s <> [] -> all_digits s = true -> ends_without_digit s = false.
Proof.
  intros Hne H. unfold ends_without_digit, all_digits in *.
  rewrite <- forallb_rev in H.
  destruct (rev s) as [|c r] eqn:E.
  - apply (f_equal (@rev ascii)) in E. rewrite rev_involutive in E. contradiction.
  - simpl in H. apply andb_true_iff in H as [-> _]. reflexivity.
Qed.

(** The last digit run of a string is the last match of [\d+]. *)
Lemma findall_digits_last (n : nat) :
  forall pre run post : str,
    length pre <= n ->
    run <> [] -> all_digits run = true -> no_digit post = true ->
    ends_without_digit pre = true ->
    last (Re.findall digits_re (pre ++ run ++ post)) [] = run.
Proof.
  induction n as [|n IH]; intros pre run post Hlen Hne Hrun Hpost Hpre.
  - destruct pre; [|simpl in Hlen; lia]. simpl.
    rewrite findall_digits_step, findall_digits_none;
      auto using no_digit_starts.
  - destruct pre as [|c pre].
    + apply (IH []); auto. simpl. lia.
    + destruct (Py.isdigit c) eqn:Ec.
      * destruct (span_digits (c :: pre)) as [r1 [pre2 [Hsplit [Hr1 Hpre2]]]].
        assert (Hr1ne : r1 <> []).
        { intros ->. simpl in Hsplit. subst pre2. simpl in Hpre2.
          now rewrite Ec in Hpre2. }
        assert (Hpre2ne : pre2 <> []).
        { intros ->. rewrite app_nil_r in Hsplit. subst r1.
          rewrite all_digits_ends in Hpre by assumption. discriminate. }
        assert (Hlen2 : length pre2 <= n).
        { apply (f_equal (@length ascii)) in Hsplit.
          rewrite length_app in Hsplit. simpl in Hsplit, Hlen.
          destruct r1; [contradiction|]. simpl in Hsplit. lia. }
        change ((c :: pre) ++ run ++ post) with ((c :: pre) ++ (run ++ post)).
        rewrite Hsplit, <- app_assoc.
        rewrite findall_digits_step; auto.
        -- rewrite Hsplit, ends_without_digit_app in Hpre by exact Hpre2ne.
           pose proof (IH pre2 run post Hlen2 Hne Hrun Hpost Hpre) as Hlast.
           rewrite last_cons_nonempty; [exact Hlast|].
           intros Hnil. rewrite Hnil in Hlast. simpl in Hlast. now subst run.
        -- destruct pre2 as [|x pre2]; [contradiction|]. exact Hpre2.
      * simpl app. rewrite findall_digits_skip by exact Ec.
        apply IH; auto.
        -- simpl in Hlen. lia.
        -- destruct pre as [|x pre]; [reflexivity|].
           change (c :: x :: pre) with ([c] ++ (x :: pre)) in Hpre.
           rewrite ends_without_digit_app in Hpre; [exact Hpre | discriminate].
Qed.

(** ** The identifier resolver *)

Lemma resolver_prefix_step (r : str) :
  r <> [] ->
  (if Py.startswith (lit "PN0" ++ r) (lit "PN0") && (3 <? length (lit "PN0" ++ r))
   then Py.int (skipn 3 (lit "PN0" ++ r)) else None) = Py.int r.
Proof.
  intros Hne. destruct r as [|c r]; [contradiction|]. reflexivity.
Qed.

Lemma startswith_PN0 (s : str) :
  Py.startswith s (lit "PN0") = true -> exists r, s = lit "PN0" ++ r.
Proof. apply startswith_spec. Qed.

Lemma int_of_prefixed (r : str) : Py.int (lit "PN0" ++ r) = None.
Proof. now apply int_starts_with_letter. Qed.

Lemma resolver_without_prefix (s : str) :
  (forall r, s = lit "PN0" ++ r -> r <> [] -> Py.int r = None) ->
  (if Py.startswith s (lit "PN0") && (3 <? length s)
   then Py.int (skipn 3 s) else None) = None.
Proof.
  intros H. destruct (Py.startswith s (lit "PN0")) eqn:E; [|reflexivity].
  apply startswith_PN0 in E as [r ->].
  destruct r as [|c r]; [reflexivity|].
  simpl. apply (H (c :: r)); [reflexivity | discriminate].
Qed.

(** C9 (identifier resolver).  [extract_numeric_id] sends ["PN0060987"]
    to 60987; more generally it strips the prefix [PN0] and reads the
    remainder as an integer when that succeeds; a string that reads as
    an integer as a whole yields that integer; when both fail and the
    string holds a digit, the result is the number denoted by its last
    digit run, or absence when that run has more digits than [int]
    accepts; and a string without any digit yields absence.  Failure
    is a [None], never an exception: every [ValueError] of [int] is
    caught. *)
Theorem extract_numeric_id_steps :
  extract_numeric_id (lit "PN0060987") = Some 60987%Z
  /\ (forall (r : str) (n : Z),
        r <> [] -> Py.int r = Some n ->
        extract_numeric_id (lit "PN0" ++ r) = Some n)
  /\ (forall (s : str) (n : Z),
        Py.int s = Some n -> extract_numeric_id s = Some n)
  /\ (forall pre run post : str,
        run <> [] -> all_digits run = true -> no_digit post = true ->
        ends_without_digit pre = true ->
        (forall r, pre ++ run ++ post = lit "PN0" ++ r -> r <> [] -> Py.int r = None) ->
        Py.int (pre ++ run ++ post) = None ->
        extract_numeric_id (pre ++ run ++ post)
        = if length run <=? Py.max_str_digits
          then Some (decimal_value run)
          else None)
  /\ (forall s : str, no_digit s = true -> extract_numeric_id s = None).
Proof.
  split; [reflexivity|]. split; [|split; [|split]].
  - intros r n Hne Hr. unfold extract_numeric_id.
    rewrite resolver_prefix_step by exact Hne. now rewrite Hr.
  - intros s n Hs. unfold extract_numeric_id.
    destruct (Py.startswith s (lit "PN0")) eqn:E.
    + apply startswith_PN0 in E as [r ->].
      rewrite int_of_prefixed in Hs. discriminate.
    + simpl. now rewrite Hs.
  - intros pre run post Hne Hrun Hpost Hpre Hstep1 Hstep2.
    unfold extract_numeric_id.
    rewrite resolver_without_prefix by exact Hstep1.
    rewrite Hstep2.
    pose proof (findall_digits_last (length pre) pre run post
                  (Nat.le_refl _) Hne Hrun Hpost Hpre) as Hlast.
    destruct (Re.findall digits_re (pre ++ run ++ post)) as [|x l].
    + simpl in Hlast. now subst run.
    + rewrite Hlast. destruct (length run <=? Py.max_str_digits) eqn:El.
      * apply Nat.leb_le in El. now apply int_digits.
      * apply Nat.leb_gt in El. now apply int_digits_over_limit.
  - intros s Hs. unfold extract_numeric_id.
    destruct (Py.startswith s (lit "PN0")) eqn:E.
    + apply startswith_PN0 in E as [r ->]. discriminate Hs.
    + simpl. rewrite int_no_digit by exact Hs.
      now rewrite findall_digits_none.
Qed.

Lemma extract_numeric_id_steps_witness :
  extract_numeric_id (lit "PN0" ++ lit "12") = Some 12%Z
  /\ extract_numeric_id (lit " 42 ") = Some 42%Z
  /\ extract_numeric_id (lit "doc-" ++ lit "77" ++ lit "x") = Some (decimal_value (lit "77"))
  /\ extract_numeric_id (lit "doc-" ++ repeat "7"%char 4301 ++ lit "x") = None
  /\ extract_numeric_id (lit "abc") = None.
Proof.
  destruct extract_numeric_id_steps as (_ & Hb & Hc & Hd & He).
  split; [|split; [|split; [|split]]].
  - apply Hb; [discriminate | reflexivity].
  - apply Hc. reflexivity.
  - apply (Hd (lit "doc-") (lit "77") (lit "x"));
      try reflexivity; discriminate.
  - apply (Hd (lit "doc-") (repeat "7"%char 4301) (lit "x"));
      try (vm_compute; reflexivity); discriminate.
  - apply He. reflexivity.
Defined.

(** ** The URL normaliser *)

Lemma normalize_arxiv_url_eq (url : str) :
  normalize_arxiv_url url =
  first_pattern patterns (Py.strip (Py.replace url (lit ".pdf") [])).
Proof. destruct url; reflexivity. Qed.

Lemma first_pattern_prefix (ps : list Re.regex) (url u : str) :
  first_pattern ps url = Some u ->
  exists paper_id, u = lit "https://arxiv.org/abs/" ++ paper_id.
Proof.
  induction ps as [|p ps IH]; simpl; [discriminate|].
  destruct (Re.search p url) as [m|].
  - intros H. injection H as <-. now exists (fmt_group1 m).
  - exact IH.
Qed.

(** What the normaliser returns is never the empty string. *)
Lemma normalize_arxiv_url_nonempty (url u : str) :
  normalize_arxiv_url url = Some u -> u <> [].
Proof.
  rewrite normalize_arxiv_url_eq. intros H.
  apply first_pattern_prefix in H as [paper_id ->]. discriminate.
Qed.

(** C4 (URL normaliser, evaluated).  On the two inputs of the claim, and
    on the canonical URL of paper 2301.12345v2 itself, the normaliser
    returns the abstract URL with the digits of the version suffix cut
    off: the letter class of the pattern takes the letter v, and the
    optional version group that follows then matches nothing. *)
Theorem normalize_arxiv_url_cuts_version_digits :
  normalize_arxiv_url (lit "https://arxiv.org/pdf/2301.12345v2.pdf")
    = Some (lit "https://arxiv.org/abs/2301.12345v")
  /\ normalize_arxiv_url (lit "arxiv.org/abs/2301.12345v2")
    = Some (lit "https://arxiv.org/abs/2301.12345v")
  /\ normalize_arxiv_url (lit "https://arxiv.org/abs/2301.12345v2")
    = Some (lit "https://arxiv.org/abs/2301.12345v").
Proof. evaluate. Qed.

Lemma replace_pdf_id (paper_id : str) :
  forallb digit_or_dot paper_id = true ->
  Py.replace_from 0 paper_id (lit ".pdf") [] = paper_id.
Proof.
  induction paper_id as [|c paper_id IH]; [reflexivity|].
  intros H. cbn [forallb] in H. apply andb_true_iff in H as [Hc H].
  cbn [Py.replace_from].
  assert (E : Py.startswith (c :: paper_id) (lit ".pdf") = false).
  { cbn [lit list_ascii_of_string Py.startswith].
    destruct (Ascii.eqb "." c); [|reflexivity].
    destruct paper_id as [|b paper_id]; [reflexivity|].
    cbn [forallb] in H. apply andb_true_iff in H as [Hb _].
    replace (Ascii.eqb "p" b) with false; [reflexivity|].
    revert Hb. clear. by_ascii_cases b. }
  rewrite E. f_equal. now apply IH.
Qed.

Lemma class_star_all (R : Type) (p : ascii -> bool) (run : str)
    (k : str -> option R) (r : R) :
  forallb p run = true -> k [] = Some r -> Re.class_star p run k = Some r.
Proof.
  intros Hrun Hk. rewrite <- (app_nil_r run).
  now apply class_star_run.
Qed.

(** A canonical abstract URL whose paper identifier consists of digits
    and dots only is returned unchanged. *)
Lemma normalize_arxiv_url_canonical_plain (paper_id : str) :
  paper_id <> [] -> forallb digit_or_dot paper_id = true ->
  normalize_arxiv_url (lit "https://arxiv.org/abs/" ++ paper_id)
  = Some (lit "https://arxiv.org/abs/" ++ paper_id).
Proof.
  intros Hne Hid. rewrite normalize_arxiv_url_eq.
  assert (Hrep : Py.replace (lit "https://arxiv.org/abs/" ++ paper_id) (lit ".pdf") []
                 = lit "https://arxiv.org/abs/" ++ paper_id).
  { unfold Py.replace.
    cbn [lit list_ascii_of_string app Py.replace_from Py.startswith
         Ascii.eqb Bool.eqb andb].
    now rewrite replace_pdf_id. }
  rewrite Hrep. unfold Py.strip.
  rewrite strip_by_id.
  - destruct paper_id as [|c paper_id]; [contradiction|].
    cbn [forallb] in Hid. apply andb_true_iff in Hid as [Hc Hid].
    unfold patterns. cbn [first_pattern].
    cbn [lit list_ascii_of_string app Re.search Re.match_at Re.chars Re.rmatch
         Re.first_some Ascii.eqb Bool.eqb paper_id_re].
    rewrite Hc.
    erewrite class_star_all; [| exact Hid | reflexivity].
    cbn [Re.first_some fmt_group1 Re.group1].
    replace (length (c :: paper_id) - length (@nil ascii))
      with (length (c :: paper_id)) by (cbn [length]; lia).
    now rewrite firstn_all.
  - reflexivity.
  - rewrite rev_app_distr.
    destruct (rev paper_id) as [|c r] eqn:E.
    + apply (f_equal (@rev ascii)) in E. rewrite rev_involutive in E. contradiction.
    + cbn [app]. rewrite <- forallb_rev, E in Hid.
      cbn [forallb] in Hid. apply andb_true_iff in Hid as [Hc _].
      revert Hc. clear. by_ascii_cases c.
Qed.

(** C6, counterexample.  Two URLs that differ only in letter case: the
    upper-case one is rejected, the lower-case one is normalised. *)
Lemma normalize_arxiv_url_case_sensitive :
  Py.lower (lit "HTTPS://ARXIV.ORG/ABS/2301.12345")
    = Py.lower (lit "https://arxiv.org/abs/2301.12345")
  /\ normalize_arxiv_url (lit "HTTPS://ARXIV.ORG/ABS/2301.12345") = None
  /\ normalize_arxiv_url (lit "https://arxiv.org/abs/2301.12345")
    = Some (lit "https://arxiv.org/abs/2301.12345").
Proof. evaluate. Qed.

(** C6, amended.  The normaliser does not see white space around its
    input: surrounding an input with white space does not change the
    result.  (It is sensitive to letter case.) *)
Theorem normalize_arxiv_url_surrounding_space (ws1 u ws2 : str) :
  all_space ws1 = true -> all_space ws2 = true ->
  normalize_arxiv_url (ws1 ++ u ++ ws2) = normalize_arxiv_url u.
Proof.
  intros H1 H2. rewrite !normalize_arxiv_url_eq.
  rewrite replace_surround; [| discriminate | reflexivity | exact H1 | exact H2].
  unfold Py.strip. now rewrite strip_by_surround.
Qed.

Lemma normalize_arxiv_url_surrounding_space_witness :
  normalize_arxiv_url (lit "  " ++ lit "arxiv.org/abs/0704.0001" ++ lit " ")
  = normalize_arxiv_url (lit "arxiv.org/abs/0704.0001").
Proof.
  apply normalize_arxiv_url_surrounding_space; reflexivity.
Defined.

(** ** The license classifier *)

Lemma map_license_nonempty (u : str) :
  u <> [] ->
  map_license (Some u) = first_mapping LICENSE_MAPPINGS (Py.strip (Py.lower u)).
Proof. destruct u; [contradiction | reflexivity]. Qed.

Lemma first_mapping_hit (pre post : list (str * str)) (p name x : str) :
  occurs p x ->
  (forall q n, In (q, n) pre -> ~ occurs q x) ->
  first_mapping (pre ++ (p, name) :: post) x = name.
Proof.
  intros Hp. induction pre as [|[q n] pre IH]; intros Hpre; simpl.
  - apply contains_spec in Hp. now rewrite Hp.
  - destruct (Py.contains q x) eqn:E.
    + apply contains_spec in E. exfalso. apply (Hpre q n); simpl; auto.
    + apply IH. intros q' n' Hin. apply (Hpre q' n'). now right.
Qed.

Lemma first_mapping_miss (table : list (str * str)) (x : str) :
  (forall q n, In (q, n) table -> ~ occurs q x) ->
  first_mapping table x = lit "Other/Unmapped".
Proof.
  induction table as [|[q n] table IH]; intros H; simpl; [reflexivity|].
  destruct (Py.contains q x) eqn:E.
  - apply contains_spec in E. exfalso. apply (H q n); simpl; auto.
  - apply IH. intros q' n' Hin. apply (H q' n'). now right.
Qed.

Lemma first_mapping_range (table : list (str * str)) (x : str) :
  first_mapping table x = lit "Other/Unmapped"
  \/ In (first_mapping table x) (map snd table).
Proof.
  induction table as [|[q n] table IH]; simpl; [now left|].
  destruct (Py.contains q x); [right; now left|].
  destruct IH as [IH | IH]; [now left | right; now right].
Qed.

(** C8, counterexample.  A license URL that is present and empty is
    classified like an absent one. *)
Lemma map_license_empty_string :
  map_license (Some []) = lit "Unknown".
Proof. reflexivity. Qed.

(** C8, amended.  [map_license] returns ["Unknown"] exactly when the
    license URL is absent or the empty string.  Otherwise, with the URL
    lower-cased and stripped, it returns the name of the first entry of
    [LICENSE_MAPPINGS], in declaration order, whose substring occurs in
    it; every URL in which ["creativecommons.org/licenses/by/4.0"]
    occurs yields ["CC BY 4.0"]; and when no entry's substring occurs
    the result is ["Other/Unmapped"]. *)
Theorem map_license_first_entry :
  (forall license_url : option str,
      map_license license_url = lit "Unknown"
      <-> license_url = None \/ license_url = Some [])
  /\ (forall (u : str) (pre post : list (str * str)) (p name : str),
        u <> [] ->
        LICENSE_MAPPINGS = pre ++ (p, name) :: post ->
        occurs p (Py.strip (Py.lower u)) ->
        (forall q n, In (q, n) pre -> ~ occurs q (Py.strip (Py.lower u))) ->
        map_license (Some u) = name)
  /\ (forall u : str,
        occurs (lit "creativecommons.org/licenses/by/4.0") u ->
        map_license (Some u) = lit "CC BY 4.0")
  /\ (forall u : str,
        u <> [] ->
        (forall q n, In (q, n) LICENSE_MAPPINGS ->
                     ~ occurs q (Py.strip (Py.lower u))) ->
        map_license (Some u) = lit "Other/Unmapped").
Proof.
  split; [|split; [|split]].
  - intros license_url. split.
    + destruct license_url as [[|c u]|]; [now right | | now left].
      rewrite map_license_nonempty by discriminate.
      intros H. exfalso.
      destruct (first_mapping_range LICENSE_MAPPINGS
                  (Py.strip (Py.lower (c :: u)))) as [R | R];
        rewrite H in R; [discriminate R|].
      simpl in R. repeat (destruct R as [R | R]; [discriminate R|]).
      exact R.
    + intros [-> | ->]; reflexivity.
  - intros u pre post p name Hne Htable Hp Hpre.
    rewrite map_license_nonempty by exact Hne.
    rewrite Htable. now apply first_mapping_hit.
  - intros u Hocc.
    assert (Hne : u <> []).
    { destruct Hocc as [a [b ->]]. destruct a; discriminate. }
    rewrite map_license_nonempty by exact Hne.
    apply (first_mapping_hit []); [|intros q n []].
    apply strip_by_occurs; [reflexivity | reflexivity |].
    now apply lower_occurs.
  - intros u Hne Hmiss.
    rewrite map_license_nonempty by exact Hne.
    now apply first_mapping_miss.
Qed.

Lemma map_license_first_entry_witness :
  map_license (Some (lit " HTTPS://ArXiv.org/licenses/assumed-1991-2003/ "))
    = lit "arXiv Assumed (1991-2003)"
  /\ map_license (Some (lit "http://" ++ lit "creativecommons.org/licenses/by/4.0" ++ lit "/legalcode"))
    = lit "CC BY 4.0"
  /\ map_license (Some (lit "x")) = lit "Other/Unmapped".
Proof.
  destruct map_license_first_entry as (_ & Hfirst & Hby & Hmiss).
  split; [|split].
  - apply (Hfirst _ (firstn 5 LICENSE_MAPPINGS) []
             (lit "arxiv.org/licenses/assumed-1991-2003")).
    + discriminate.
    + reflexivity.
    + apply contains_spec. reflexivity.
    + intros q n Hin Hocc. apply contains_spec in Hocc.
      simpl in Hin.
      repeat (destruct Hin as [Hin | Hin];
              [injection Hin as <- <-; vm_compute in Hocc; discriminate Hocc|]).
      exact Hin.
  - apply Hby. now exists (lit "http://"), (lit "/legalcode").
  - apply Hmiss; [discriminate|].
    intros q n Hin Hocc. apply contains_spec in Hocc.
    simpl in Hin.
    repeat (destruct Hin as [Hin | Hin];
            [injection Hin as <- <-; vm_compute in Hocc; discriminate Hocc|]).
    exact Hin.
Defined.

(** ** The version extractor *)

(** *** Markers of the submission history *)

Lemma match_at_history_marker (d rest : str) :
  d <> [] -> all_digits d = true ->
  Re.match_at history_version_re (lit "[v" ++ d ++ lit "]" ++ rest) =
  Some (Re.MatchObj (lit "[v" ++ d ++ lit "]") (Some d) rest).
Proof.
  intros Hne Hd. destruct d as [|c d]; [contradiction|].
  simpl in Hd. apply andb_true_iff in Hd as [Hc Hd].
  unfold Re.match_at, history_version_re.
  cbn [lit list_ascii_of_string Re.chars app Re.rmatch Ascii.eqb Bool.eqb].
  rewrite Hc.
  erewrite class_star_run; [| exact Hd | reflexivity |].
  2:{ cbn [app Ascii.eqb Bool.eqb]. reflexivity. }
  f_equal. f_equal.
  - replace ("["%char :: "v"%char :: c :: d ++ "]"%char :: rest)
      with (("["%char :: "v"%char :: c :: d ++ ["]"%char]) ++ rest)
      by (simpl; now rewrite <- app_assoc).
    apply firstn_app_exact.
  - f_equal.
    change (c :: d ++ "]"%char :: rest) with ((c :: d) ++ (lit "]" ++ rest)).
    apply firstn_app_exact.
Qed.

Lemma class_star_closes_none (R : Type) (s : str) (k : str -> option R) :
  closes s = false ->
  (forall y, match y with
             | [] => true
             | c :: _ => negb (Ascii.eqb c "]")
             end = true -> k y = None) ->
  Re.class_star Py.isdigit s k = None.
Proof.
  intros Hs Hk. induction s as [|c s IH].
  - now apply Hk.
  - cbn [closes] in Hs. cbn [Re.class_star].
    destruct (Py.isdigit c) eqn:Ec.
    + rewrite IH by exact Hs. cbn [Re.first_some]. apply Hk.
      destruct (Ascii.eqb c "]") eqn:E; [|reflexivity].
      apply Ascii.eqb_eq in E. subst c. discriminate Ec.
    + apply Hk. now rewrite Hs.
Qed.

(** Where no marker starts, the marker pattern does not match. *)
Lemma match_at_history_none (s : str) :
  marker_at s = false -> Re.match_at history_version_re s = None.
Proof.
  intros H. unfold Re.match_at, history_version_re.
  cbn [lit list_ascii_of_string Re.chars Re.rmatch].
  destruct s as [|a [|b [|d s]]]; cbn [marker_at] in H;
    try (destruct (Ascii.eqb a "["); [|reflexivity]);
    try (destruct (Ascii.eqb b "v"); [|reflexivity]);
    try reflexivity.
  destruct (Py.isdigit d); [|reflexivity].
  cbn [andb] in H.
  apply class_star_closes_none; [exact H|].
  intros [|c y] Hy; [reflexivity|].
  apply negb_true_iff in Hy. now rewrite Hy.
Qed.

Lemma closes_before_bracket (x y : str) :
  closes (x ++ "["%char :: y) = closes (x ++ ["["%char]).
Proof.
  induction x as [|c x IH]; [reflexivity|].
  cbn [app closes]. now rewrite IH.
Qed.

(** Whether a marker starts in front of an opening bracket does not
    depend on what follows the bracket. *)
Lemma marker_at_before_bracket (x y : str) :
  x <> [] ->
  marker_at (x ++ "["%char :: y) = marker_at (x ++ ["["%char]).
Proof.
  intros Hx. destruct x as [|a [|b [|d x]]]; [contradiction | | |].
  - destruct y as [|d y]; [reflexivity|].
    cbn [app marker_at]. change (Ascii.eqb "[" "v") with false.
    now rewrite andb_false_r.
  - cbn [app marker_at]. change (Py.isdigit "[") with false.
    now rewrite !andb_false_r.
  - cbn [app marker_at]. now rewrite closes_before_bracket.
Qed.

Lemma findall_history_filler (filler rest : str) :
  marker_free (filler ++ lit "[") = true ->
  Re.findall history_version_re (filler ++ "["%char :: rest) =
  Re.findall history_version_re ("["%char :: rest).
Proof.
  intros H. unfold Re.findall.
  induction filler as [|c filler IH]; [reflexivity|].
  cbn [app marker_free] in H. apply andb_true_iff in H as [Hc H].
  apply negb_true_iff in Hc.
  change (c :: filler ++ lit "[") with ((c :: filler) ++ ["["%char]) in Hc.
  rewrite <- (marker_at_before_bracket (c :: filler) rest) in Hc by discriminate.
  cbn [app Re.findall_from] in *.
  rewrite match_at_history_none by exact Hc. now apply IH.
Qed.

Lemma findall_history_tail (tail : str) :
  marker_free tail = true -> Re.findall history_version_re tail = [].
Proof.
  unfold Re.findall. induction tail as [|c tail IH]; intros H.
  - reflexivity.
  - cbn [marker_free] in H. apply andb_true_iff in H as [Hc H].
    apply negb_true_iff in Hc.
    cbn [Re.findall_from].
    rewrite match_at_history_none by exact Hc. now apply IH.
Qed.

Lemma findall_history_marker (d rest : str) :
  d <> [] -> all_digits d = true ->
  Re.findall history_version_re (lit "[v" ++ d ++ lit "]" ++ rest) =
  d :: Re.findall history_version_re rest.
Proof.
  intros Hne Hd. unfold Re.findall.
  pose proof (match_at_history_marker d rest Hne Hd) as Hm.
  cbn [lit list_ascii_of_string app] in *.
  cbn [Re.findall_from]. rewrite Hm.
  cbn [Re.findall_item Re.has_group history_version_re Re.chars
       lit list_ascii_of_string orb Re.group1 Re.group0].
  f_equal.
  replace (length ("["%char :: "v"%char :: d ++ ["]"%char]) - 1)
    with (S (length (d ++ ["]"%char])))
    by (cbn [length]; rewrite !length_app; simpl; lia).
  cbn [Re.findall_from].
  rewrite findall_from_skip by (rewrite !length_app; simpl; lia).
  replace (d ++ "]"%char :: rest) with ((d ++ ["]"%char]) ++ rest)
    by (now rewrite <- app_assoc).
  now rewrite skipn_app, skipn_all, Nat.sub_diag.
Qed.

(** The markers of a well-formed history text are found in order. *)
Lemma findall_history_text (blocks : list (str * str)) (tail : str) :
  well_formed_history blocks tail = true ->
  Re.findall history_version_re (history_text blocks tail) = map snd blocks.
Proof.
  unfold well_formed_history. intros H.
  apply andb_true_iff in H as [Hblocks Htail].
  induction blocks as [|[filler d] blocks IH].
  - simpl. now apply findall_history_tail.
  - simpl in Hblocks. apply andb_true_iff in Hblocks as [Hb Hblocks].
    apply andb_true_iff in Hb as [Hb Hlen].
    apply andb_true_iff in Hb as [Hfiller Hd].
    assert (Hne : d <> []).
    { intros ->. discriminate Hlen. }
    cbn [history_text map snd].
    change (lit "[v" ++ d ++ lit "]" ++ history_text blocks tail)
      with ("["%char :: "v"%char :: d ++ lit "]" ++ history_text blocks tail).
    rewrite findall_history_filler by exact Hfiller.
    change ("["%char :: "v"%char :: d ++ lit "]" ++ history_text blocks tail)
      with (lit "[v" ++ d ++ lit "]" ++ history_text blocks tail).
    rewrite findall_history_marker by assumption.
    f_equal. now apply IH.
Qed.

(** *** The maximum *)

Lemma max_by_from_spec (A : Type) (key : A -> option Z) (value : A -> Z)
    (xs : list A) :
  (forall x, In x xs -> key x = Some (value x)) ->
  forall best : A,
  exists m,
    Py.max_by_from key best (value best) xs = Some m
    /\ In m (best :: xs)
    /\ forall x, In x (best :: xs) -> (value x <= value m)%Z.
Proof.
  induction xs as [|y xs IH]; intros Hkey best.
  - exists best. cbn [Py.max_by_from]. split; [reflexivity|].
    split; [now left|]. intros x [<- | []]. lia.
  - cbn [Py.max_by_from]. rewrite (Hkey y) by now left.
    assert (Hkey' : forall x, In x xs -> key x = Some (value x)).
    { intros x Hx. apply Hkey. now right. }
    destruct (value best <? value y)%Z eqn:E.
    + destruct (IH Hkey' y) as [m [Hm [Hin Hmax]]].
      exists m. split; [exact Hm|]. split; [now right|].
      intros x [<- | Hx].
      * apply Z.ltb_lt in E. specialize (Hmax y (or_introl eq_refl)). lia.
      * now apply Hmax.
    + destruct (IH Hkey' best) as [m [Hm [Hin Hmax]]].
      exists m. split; [exact Hm|]. split.
      * destruct Hin as [<- | Hin]; [now left | right; now right].
      * intros x [<- | [<- | Hx]].
        -- apply Hmax. now left.
        -- apply Z.ltb_ge in E. specialize (Hmax best (or_introl eq_refl)). lia.
        -- apply Hmax. now right.
Qed.

(** [max] returns an element of largest key when the key function
    returns on every element. *)
Lemma max_by_spec (A : Type) (key : A -> option Z) (value : A -> Z)
    (v : A) (versions : list A) :
  (forall x, In x (v :: versions) -> key x = Some (value x)) ->
  exists m,
    Py.max_by key v versions = Some m
    /\ In m (v :: versions)
    /\ forall x, In x (v :: versions) -> (value x <= value m)%Z.
Proof.
  intros Hkey. unfold Py.max_by. rewrite (Hkey v) by now left.
  apply max_by_from_spec. intros x Hx. apply Hkey. now right.
Qed.

Lemma max_by_from_raises (A : Type) (key : A -> option Z) (xs : list A) (x : A) :
  In x xs -> key x = None ->
  forall (best : A) (best_key : Z), Py.max_by_from key best best_key xs = None.
Proof.
  induction xs as [|y xs IH]; intros Hin Hx best best_key; [contradiction|].
  cbn [Py.max_by_from]. destruct (key y) as [k|] eqn:Ey; [|reflexivity].
  destruct Hin as [-> | Hin]; [congruence|].
  destruct (best_key <? k)%Z; now apply IH.
Qed.

(** [max] raises when the key function raises on some element. *)
Lemma max_by_raises (A : Type) (key : A -> option Z) (v : A) (versions : list A)
    (x : A) :
  In x (v :: versions) -> key x = None -> Py.max_by key v versions = None.
Proof.
  intros Hin Hx. unfold Py.max_by.
  destruct (key v) as [k|] eqn:E; [|reflexivity].
  destruct Hin as [-> | Hin]; [congruence|].
  now apply (max_by_from_raises A key versions x).
Qed.

(** *** The marker of the meta tag *)

Lemma match_at_meta_marker (d post : str) :
  d <> [] -> all_digits d = true -> starts_without_digit post = true ->
  Re.match_at meta_version_re (lit "v" ++ d ++ post) =
  Some (Re.MatchObj (lit "v" ++ d) (Some d) post).
Proof.
  intros Hne Hd Hpost. destruct d as [|c d]; [contradiction|].
  simpl in Hd. apply andb_true_iff in Hd as [Hc Hd].
  unfold Re.match_at, meta_version_re.
  cbn [lit list_ascii_of_string app Re.rmatch Ascii.eqb Bool.eqb].
  rewrite Hc.
  erewrite class_star_run; [| exact Hd | exact Hpost | reflexivity].
  f_equal. f_equal.
  - change ("v"%char :: c :: d ++ post) with ((lit "v" ++ c :: d) ++ post).
    now rewrite firstn_app_exact.
  - f_equal. change (c :: d ++ post) with ((c :: d) ++ post).
    apply firstn_app_exact.
Qed.

Lemma match_at_meta_none (c : ascii) (s : str) :
  Ascii.eqb c "v" && negb (starts_without_digit s) = false ->
  Re.match_at meta_version_re (c :: s) = None.
Proof.
  intros H. unfold Re.match_at, meta_version_re. cbn [Re.rmatch].
  destruct (Ascii.eqb c "v"); [|reflexivity].
  simpl in H. apply negb_false_iff in H.
  destruct s as [|x s]; [reflexivity|].
  simpl in H. apply negb_true_iff in H. now rewrite H.
Qed.

Lemma search_meta_none (s : str) :
  v_then_digit s = false -> Re.search meta_version_re s = None.
Proof.
  induction s as [|c s IH]; [reflexivity|].
  cbn [v_then_digit]. intros H. apply orb_false_iff in H as [Hc Hs].
  cbn [Re.search]. rewrite match_at_meta_none by exact Hc. now apply IH.
Qed.

Lemma starts_without_digit_app (a b : str) :
  a <> [] -> starts_without_digit (a ++ b) = starts_without_digit a.
Proof. destruct a; [contradiction | reflexivity]. Qed.

Lemma search_meta_marker (pre d post : str) :
  v_then_digit (pre ++ lit "v") = false ->
  d <> [] -> all_digits d = true -> starts_without_digit post = true ->
  Re.search meta_version_re (pre ++ lit "v" ++ d ++ post) =
  Some (Re.MatchObj (lit "v" ++ d) (Some d) post).
Proof.
  intros Hpre Hne Hd Hpost. induction pre as [|c pre IH].
  - cbn [app]. cbn [lit list_ascii_of_string app Re.search].
    pose proof (match_at_meta_marker d post Hne Hd Hpost) as Hm.
    cbn [lit list_ascii_of_string app] in Hm. now rewrite Hm.
  - cbn [app v_then_digit] in Hpre.
    apply orb_false_iff in Hpre as [Hc Hpre].
    cbn [app Re.search].
    rewrite match_at_meta_none.
    + now apply IH.
    + rewrite app_assoc, starts_without_digit_app; [exact Hc|].
      destruct pre; discriminate.
Qed.

Lemma well_formed_markers (blocks : list (str * str)) (tail : str) (m : str) :
  well_formed_history blocks tail = true -> In m (map snd blocks) ->
  m <> [] /\ all_digits m = true.
Proof.
  unfold well_formed_history. intros H Hin.
  apply andb_true_iff in H as [H _].
  rewrite forallb_forall in H.
  apply in_map_iff in Hin as [[filler d] [Heq Hin]].
  simpl in Heq. subst d.
  specialize (H _ Hin). simpl in H.
  apply andb_true_iff in H as [H Hlen].
  apply andb_true_iff in H as [_ Hd].
  split; [|exact Hd]. intros ->. discriminate Hlen.
Qed.

Lemma int_marker (blocks : list (str * str)) (tail : str) (m : str) :
  well_formed_history blocks tail = true -> within_limit blocks = true ->
  In m (map snd blocks) -> Py.int m = Some (decimal_value m).
Proof.
  intros Hwf Hlim Hin.
  destruct (well_formed_markers blocks tail m Hwf Hin) as [Hne Hd].
  apply int_digits; [exact Hd | exact Hne|].
  unfold within_limit in Hlim. rewrite forallb_forall in Hlim.
  apply in_map_iff in Hin as [b [<- Hb]].
  now apply Nat.leb_le, Hlim.
Qed.

Lemma marker_over_limit (blocks : list (str * str)) (tail : str) :
  well_formed_history blocks tail = true -> within_limit blocks = false ->
  exists m, In m (map snd blocks) /\ Py.int m = None.
Proof.
  intros Hwf Hlim. unfold within_limit in Hlim.
  assert (H : exists b, In b blocks /\ (length (snd b) <=? Py.max_str_digits) = false).
  { clear Hwf. induction blocks as [|b blocks IH]; [discriminate|].
    cbn [forallb] in Hlim. apply andb_false_iff in Hlim as [Hb | Hrest].
    - exists b. split; [now left | exact Hb].
    - destruct (IH Hrest) as [b' [Hin Hb']]. exists b'. split; [now right | exact Hb']. }
  destruct H as [b [Hin Hb]]. exists (snd b).
  assert (Hm : In (snd b) (map snd blocks)) by now apply in_map.
  split; [exact Hm|].
  destruct (well_formed_markers blocks tail (snd b) Hwf Hm) as [_ Hd].
  apply int_digits_over_limit; [exact Hd | now apply Nat.leb_gt].
Qed.

(** The version extractor.  When the page has a submission-history
    block whose text consists of version markers [[vN]] between filler
    text in which no marker starts, and no marker has more digits than
    [int] accepts, the result is the letter v followed by a marker of
    the block whose number is the largest of all markers, compared as
    numbers and wherever it stands in the block; when some marker has
    more digits, the extractor raises [ValueError].  When the page has
    no such block, the result is the first v-number of the content of
    the [og:url] meta tag, and the empty string when there is no such
    tag, no content, or no v-number in it. *)
Theorem extract_version_latest_marker (soup : Bs4.node) :
  (forall (history : Bs4.node) (blocks : list (str * str)) (tail : str),
      Bs4.find soup (lit "div") (Bs4.has_class (lit "submission-history"))
        = Some history ->
      Bs4.get_text history [] false = history_text blocks tail ->
      blocks <> [] -> well_formed_history blocks tail = true ->
      (within_limit blocks = true ->
       exists m : str,
         In m (map snd blocks)
         /\ (forall m', In m' (map snd blocks) ->
                        (decimal_value m' <= decimal_value m)%Z)
         /\ _extract_version soup = Ok (lit "v" ++ m))
      /\ (within_limit blocks = false ->
          _extract_version soup = Raised ValueError))
  /\ (Bs4.find soup (lit "div") (Bs4.has_class (lit "submission-history")) = None ->
      forall (meta_url : Bs4.node) (pre d post : str),
        Bs4.find soup (lit "meta")
          (Bs4.has_attr_value (lit "property") (lit "og:url")) = Some meta_url ->
        Bs4.get meta_url (lit "content") = Some (pre ++ lit "v" ++ d ++ post) ->
        v_then_digit (pre ++ lit "v") = false ->
        d <> [] -> all_digits d = true -> starts_without_digit post = true ->
        _extract_version soup = Ok (lit "v" ++ d))
  /\ (Bs4.find soup (lit "div") (Bs4.has_class (lit "submission-history")) = None ->
      (Bs4.find soup (lit "meta")
         (Bs4.has_attr_value (lit "property") (lit "og:url")) = None
       \/ exists meta_url : Bs4.node,
            Bs4.find soup (lit "meta")
              (Bs4.has_attr_value (lit "property") (lit "og:url")) = Some meta_url
            /\ (Bs4.get meta_url (lit "content") = None
                \/ exists content : str,
                     Bs4.get meta_url (lit "content") = Some content
                     /\ v_then_digit content = false)) ->
      _extract_version soup = Ok []).
Proof.
  split; [|split].
  - intros history blocks tail Hfind Htext Hne Hwf.
    unfold _extract_version. rewrite Hfind, Htext.
    rewrite findall_history_text by exact Hwf.
    destruct (map snd blocks) as [|v versions] eqn:E.
    { destruct blocks; [contradiction | discriminate]. }
    split.
    + intros Hlim.
      destruct (max_by_spec str Py.int decimal_value v versions)
        as [m [Hm [Hin Hmax]]].
      { intros x Hx. rewrite <- E in Hx.
        now apply (int_marker blocks tail). }
      exists m. split; [exact Hin|]. split; [exact Hmax|]. now rewrite Hm.
    + intros Hlim.
      destruct (marker_over_limit blocks tail Hwf Hlim) as [m [Hin Hm]].
      rewrite E in Hin.
      now rewrite (max_by_raises str Py.int v versions m Hin Hm).
  - intros Hnone meta_url pre d post Hmeta Hcontent Hpre Hne Hd Hpost.
    unfold _extract_version. rewrite Hnone, Hmeta, Hcontent.
    rewrite search_meta_marker by assumption.
    destruct (pre ++ lit "v" ++ d ++ post) eqn:E; [|reflexivity].
    destruct pre; discriminate.
  - intros Hnone H. unfold _extract_version. rewrite Hnone.
    destruct H as [-> | [meta_url [-> [-> | [content [-> Hc]]]]]];
      try reflexivity.
    rewrite search_meta_none by exact Hc. now destruct content.
Qed.

(** A page with the history block [[v9] ... [v10] ... [v2]], markers
    spread over nested tags, and one with only the meta tag. *)
Lemma extract_version_latest_marker_witness :
  _extract_version
    (Bs4.Tag (lit "[document]") []
       [Bs4.Tag (lit "div") [(lit "class", lit "submission-history")]
          [Bs4.NavigableString (lit "From: A [view email] ");
           Bs4.Tag (lit "strong") [] [Bs4.NavigableString (lit "[v9]")];
           Bs4.NavigableString (lit " Mon [v10] Tue ");
           Bs4.NavigableString (lit "[v2] Wed")]])
    = Ok (lit "v10")
  /\ _extract_version
       (Bs4.Tag (lit "[document]") []
          [Bs4.Tag (lit "meta")
             [(lit "property", lit "og:url");
              (lit "content", lit "https://arxiv.org/abs/2301.12345v2")] []])
     = Ok (lit "v2")
  /\ _extract_version (Bs4.Tag (lit "[document]") [] []) = Ok [].
Proof.
  split; [|split].
  - match goal with |- _extract_version ?soup = _ =>
      destruct (proj1 (proj1 (extract_version_latest_marker soup)
                  (Bs4.Tag (lit "div") [(lit "class", lit "submission-history")]
                     [Bs4.NavigableString (lit "From: A [view email] ");
                      Bs4.Tag (lit "strong") [] [Bs4.NavigableString (lit "[v9]")];
                      Bs4.NavigableString (lit " Mon [v10] Tue ");
                      Bs4.NavigableString (lit "[v2] Wed")])
                  [(lit "From: A [view email] ", lit "9"); (lit " Mon ", lit "10");
                   (lit " Tue ", lit "2")]
                  (lit " Wed")
                  eq_refl eq_refl ltac:(discriminate) eq_refl) eq_refl)
        as [m [Hin [Hmax Heq]]]
    end.
    rewrite Heq. simpl in Hin.
    destruct Hin as [<- | [<- | [<- | []]]].
    + specialize (Hmax (lit "10")). simpl in Hmax.
      exfalso. assert (H : (decimal_value (lit "10") <= decimal_value (lit "9"))%Z) by auto.
      vm_compute in H. now apply H.
    + reflexivity.
    + specialize (Hmax (lit "10")). simpl in Hmax.
      exfalso. assert (H : (decimal_value (lit "10") <= decimal_value (lit "2"))%Z) by auto.
      vm_compute in H. now apply H.
  - match goal with |- _extract_version ?soup = _ =>
      apply (proj1 (proj2 (extract_version_latest_marker soup)) eq_refl
               (Bs4.Tag (lit "meta")
                  [(lit "property", lit "og:url");
                   (lit "content", lit "https://arxiv.org/abs/2301.12345v2")] [])
               (lit "https://arxiv.org/abs/2301.12345") (lit "2") [])
    end; try reflexivity; discriminate.
  - match goal with |- _extract_version ?soup = _ =>
      apply (proj2 (proj2 (extract_version_latest_marker soup)) eq_refl)
    end.
    left. reflexivity.
Defined.

(** The examples of the specification, evaluated: the largest marker
    wins, whether it comes last, first or in the middle, and 10 beats
    9. *)
Example extract_version_examples :
  let page text :=
    Bs4.Tag (lit "[document]") []
      [Bs4.Tag (lit "div") [(lit "class", lit "submission-history")]
         [Bs4.NavigableString text]] in
  _extract_version (page (lit "[v1] Mon [v2] Tue [v3] Wed")) = Ok (lit "v3")
  /\ _extract_version (page (lit "[v3] Mon [v1] Tue [v2] Wed")) = Ok (lit "v3")
  /\ _extract_version (page (lit "[v9] Mon [v10] Tue")) = Ok (lit "v10")
  /\ _extract_version (page (lit "[v10] Mon [v9] Tue")) = Ok (lit "v10").
Proof. evaluate. Qed.

(** C7 (version extractor, the defect).  A page whose submission
    history holds the markers [[v1]] and a marker of 4301 digits: the
    block contains version markers, and the extractor does not return
    the largest of them but raises [ValueError], the error of [int] on
    a string of more than 4300 digits, which nothing around
    [max(versions, key=int)] catches.  The error leaves
    [extract_metadata] and ends [run] before the row of the document
    is written.  With one digit less the largest marker is returned;
    and the identifier resolver, which guards each call of [int],
    returns absence on the same digits. *)
Theorem extract_version_raises_on_long_marker :
  Re.findall history_version_re
    (lit "[v1] Mon [v" ++ repeat "1"%char 4301 ++ lit "] Tue")
  = [lit "1"; repeat "1"%char 4301]
  /\ _extract_version (marker_page 4301) = Raised ValueError
  /\ _extract_version (marker_page 4300) = Ok (lit "v" ++ repeat "1"%char 4300)
  /\ extract_metadata (fun _ => marker_page 4301) (lit "<html></html>")
     = Raised ValueError
  /\ fst (run class_config (fun _ => marker_page 4301)
            (online (lit "<html></html>") true rows_one_arxiv_url)
            initial_state)
     = Raised ValueError
  /\ ledger (snd (run class_config (fun _ => marker_page 4301)
                    (online (lit "<html></html>") true rows_one_arxiv_url)
                    initial_state))
     = None
  /\ extract_numeric_id (repeat "1"%char 4301) = None.
Proof. evaluate. Qed.

(** ** The driver *)

(** *** Traces *)

Lemma sig_app (t1 t2 : list event) : sig (t1 ++ t2) = sig t1 ++ sig t2.
Proof. apply filter_app. Qed.

Lemma filter_sig (p : event -> bool) (t : list event) :
  (forall e, p e = true -> significant e = true) ->
  filter p (sig t) = filter p t.
Proof.
  intros H. unfold sig. induction t as [|e t IH]; [reflexivity|].
  simpl. destruct (significant e) eqn:E; simpl.
  - now rewrite IH.
  - destruct (p e) eqn:Ep; [|exact IH].
    apply H in Ep. rewrite Ep in E. discriminate.
Qed.

Lemma count_sig (p : event -> bool) (t : list event) :
  (forall e, p e = true -> significant e = true) ->
  count p (sig t) = count p t.
Proof. intros H. unfold count. now rewrite filter_sig. Qed.

Lemma count_app (p : event -> bool) (t1 t2 : list event) :
  count p (t1 ++ t2) = count p t1 + count p t2.
Proof. unfold count. now rewrite filter_app, length_app. Qed.

Lemma request_significant (e : event) : is_request e = true -> significant e = true.
Proof. now destruct e. Qed.

Lemma sleep_significant (e : event) : is_sleep e = true -> significant e = true.
Proof. now destruct e. Qed.

Lemma append_significant (e : event) : is_append e = true -> significant e = true.
Proof. now destruct e. Qed.

Lemma pace_significant (e : event) :
  is_request e || is_sleep e = true -> significant e = true.
Proof. now destruct e. Qed.

Lemma appended_rows_app (t1 t2 : list event) :
  appended_rows (t1 ++ t2) = appended_rows t1 ++ appended_rows t2.
Proof. apply flat_map_app. Qed.

Lemma appended_rows_sig (t : list event) :
  appended_rows (sig t) = appended_rows t.
Proof.
  unfold sig. induction t as [|e t IH]; [reflexivity|].
  destruct e; simpl; now rewrite IH.
Qed.

Lemma pacing_app (t1 t2 : list event) :
  pacing (t1 ++ t2) = pacing t1 ++ pacing t2.
Proof. apply filter_app. Qed.

Lemma pacing_sig (t : list event) : pacing (sig t) = pacing t.
Proof. apply filter_sig, pace_significant. Qed.

(** *** Steps *)

Lemma obs_step_refl (s : State) : obs_step s s [].
Proof. split; simpl; now rewrite app_nil_r. Qed.

Lemma obs_step_trans (s s1 s2 : State) (e1 e2 : list event) :
  obs_step s s1 e1 -> obs_step s1 s2 e2 -> obs_step s s2 (e1 ++ e2).
Proof.
  intros [Ht1 Hl1] [Ht2 Hl2]. split.
  - now rewrite Ht2, Ht1, app_assoc.
  - now rewrite Hl2, Hl1, appended_rows_app, app_assoc.
Qed.

Lemma obs_step_count (p : event -> bool) (s s1 : State) (evs : list event) :
  (forall e, p e = true -> significant e = true) ->
  obs_step s s1 evs ->
  count p (trace s1) = count p (trace s) + count p evs.
Proof.
  intros Hp [Ht _].
  rewrite <- (count_sig p (trace s1)), <- (count_sig p (trace s)) by exact Hp.
  now rewrite Ht, count_app.
Qed.

Lemma obs_step_appended (s s1 : State) (evs : list event) :
  obs_step s s1 evs ->
  appended_rows (trace s1) = appended_rows (trace s) ++ appended_rows evs.
Proof.
  intros [Ht _].
  rewrite <- (appended_rows_sig (trace s1)), <- (appended_rows_sig (trace s)).
  now rewrite Ht, appended_rows_app.
Qed.

Lemma obs_step_pacing (s s1 : State) (evs : list event) :
  obs_step s s1 evs ->
  pacing (trace s1) = pacing (trace s) ++ pacing evs.
Proof.
  intros [Ht _].
  rewrite <- (pacing_sig (trace s1)), <- (pacing_sig (trace s)).
  now rewrite Ht, pacing_app.
Qed.

Lemma bind_eq {A B : Type} {m : M A} (k : A -> M B) {s s1 : State} {a : A} :
  m s = (Ok a, s1) -> bind m k s = k a s1.
Proof. intros H. unfold bind. now rewrite H. Qed.

Lemma bind_raised {A B : Type} {m : M A} (k : A -> M B) {s s1 : State} {e : exn} :
  m s = (Raised e, s1) -> bind m k s = (Raised e, s1).
Proof. intros H. unfold bind. now rewrite H. Qed.

Lemma bind_ok_inv {A B : Type} {m : M A} {k : A -> M B} {s s' : State} {b : B} :
  bind m k s = (Ok b, s') ->
  exists a s1, m s = (Ok a, s1) /\ k a s1 = (Ok b, s').
Proof.
  unfold bind. destruct (m s) as [[a | e] s1]; [|discriminate].
  intros H. now exists a, s1.
Qed.

Lemma emit_step (e : event) (s : State) :
  is_append e = false ->
  exists s1, emit e s = (Ok tt, s1)
             /\ obs_step s s1 (if significant e then [e] else []).
Proof.
  intros He. eexists. split; [reflexivity|]. split; cbn [trace ledger].
  - rewrite sig_app. cbn [sig filter]. now destruct (significant e).
  - destruct e; try discriminate He; simpl; now rewrite app_nil_r.
Qed.

Section DriverFacts.

Variable cfg : Config.
Variable BeautifulSoup : str -> Bs4.node.
Variable w : World.

Lemma print_step (m : message) (s : State) :
  exists s1, print m s = (Ok tt, s1) /\ obs_step s s1 [].
Proof. apply (emit_step (Print m)). reflexivity. Qed.

Lemma sleep_step (s : State) :
  exists s1, emit Sleep s = (Ok tt, s1) /\ obs_step s s1 [Sleep].
Proof. apply (emit_step Sleep). reflexivity. Qed.

Lemma fetch_abstract_page_step (url : str) (s : State) :
  exists s1,
    fetch_abstract_page w url s
      = (Ok (http_get w (count is_request (trace s)) url), s1)
    /\ obs_step s s1 [Request url].
Proof.
  unfold fetch_abstract_page.
  destruct (emit_step (Request url) s eq_refl) as [s1 [He Ho]].
  cbn [significant] in Ho.
  rewrite (bind_eq _ (eq_refl : get_state s = (Ok s, s))).
  rewrite (bind_eq _ He).
  destruct (http_get w (count is_request (trace s)) url) as [text|].
  - exists s1. now split.
  - destruct (print_step (MsgFetchFailed url) s1) as [s2 [Hp Ho2]].
    rewrite (bind_eq _ Hp). exists s2. split; [reflexivity|].
    apply (obs_step_trans _ _ _ _ _ Ho Ho2).
Qed.

Lemma save_abstract_page_step (html_content doc_id : str) (s : State) :
  exists b s1,
    save_abstract_page w html_content doc_id s = (Ok b, s1)
    /\ obs_step s s1 [].
Proof.
  unfold save_abstract_page.
  destruct (archive_ok w (safe_filename doc_id ++ lit ".html")).
  - eexists true, _. split; [reflexivity|]. split; cbn [trace ledger].
    + rewrite sig_app. simpl. reflexivity.
    + simpl. now rewrite app_nil_r.
  - destruct (print_step (MsgArchiveFailed doc_id) s) as [s1 [Hp Ho]].
    rewrite (bind_eq _ Hp). now exists false, s1.
Qed.

Lemma ledger_rows_write (l : option (list ledger_line)) (results : list ResultRow) :
  ledger_rows
    (Some (match l with
           | Some lines => lines
           | None => [HeaderLine CSV_COLUMNS]
           end ++ map DataLine results))
  = ledger_rows l ++ results.
Proof.
  unfold ledger_rows. rewrite flat_map_app. f_equal.
  - now destruct l.
  - induction results as [|r results IH]; simpl; [reflexivity | now rewrite IH].
Qed.

(** Appending to the ledger raises exactly when the file cannot be
    opened; otherwise the rows are in the file. *)
Lemma save_results_step (results : list ResultRow) (name : str) (s : State) :
  if ledger_ok w (count is_append (trace s))
  then exists s1,
         save_results w results name s = (Ok tt, s1)
         /\ obs_step s s1 [LedgerAppend results]
  else save_results w results name s = (Raised OSError, s).
Proof.
  unfold save_results.
  rewrite (bind_eq _ (eq_refl : get_state s = (Ok s, s))).
  destruct (ledger_ok w (count is_append (trace s))); [|reflexivity].
  eexists. split; [reflexivity|]. split; cbn [trace ledger].
  - now rewrite sig_app.
  - rewrite ledger_rows_write. simpl. now rewrite app_nil_r.
Qed.

Lemma bind_call {A B : Type} (r : result A) (k : A -> M B) (s : State) :
  bind (call r) k s
  = match r with
    | Ok a => k a s
    | Raised e => (Raised e, s)
    end.
Proof. unfold bind, call. now destruct r. Qed.

(** When [record_page] returns, the extraction returned on the page,
    and the row of the answer is at the end of the buffer. *)
Lemma record_page_inv (doc_id abs_url : str) (html_content : option str)
    (results : list ResultRow) (stats : Stats) (s s1 : State)
    (acc : list ResultRow * Stats) :
  record_page BeautifulSoup w doc_id abs_url html_content results stats s
    = (Ok acc, s1) ->
  exists row,
    page_row BeautifulSoup doc_id abs_url html_content = Some row
    /\ fst acc = results ++ [row]
    /\ obs_step s s1 [].
Proof.
  unfold record_page, page_row. destruct html_content as [[|c html]|].
  - cbn [ret]. intros H. injection H as <- <-.
    eexists. split; [reflexivity|]. split; [reflexivity | apply obs_step_refl].
  - rewrite bind_call.
    destruct (extract_metadata BeautifulSoup (c :: html)) as [metadata | e];
      [|discriminate].
    destruct (save_abstract_page_step (c :: html) doc_id s) as [b [s2 [Ha Ho]]].
    rewrite (bind_eq _ Ha). cbn [ret]. intros H. injection H as <- <-.
    eexists. split; [reflexivity|]. split; [reflexivity | exact Ho].
  - cbn [ret]. intros H. injection H as <- <-.
    eexists. split; [reflexivity|]. split; [reflexivity | apply obs_step_refl].
Qed.

(** [record_page] returns when the extraction returns on the page. *)
Lemma record_page_total (doc_id abs_url : str) (html_content : option str)
    (results : list ResultRow) (stats : Stats) (s : State) (row : ResultRow) :
  page_row BeautifulSoup doc_id abs_url html_content = Some row ->
  exists stats1 s1,
    record_page BeautifulSoup w doc_id abs_url html_content results stats s
      = (Ok (results ++ [row], stats1), s1).
Proof.
  unfold record_page, page_row. destruct html_content as [[|c html]|].
  - intros [= <-]. now eexists _, s.
  - rewrite bind_call.
    destruct (extract_metadata BeautifulSoup (c :: html)) as [metadata | e];
      [|discriminate].
    intros [= <-].
    destruct (save_abstract_page_step (c :: html) doc_id s) as [b [s2 [Ha Ho]]].
    rewrite (bind_eq _ Ha). now eexists _, s2.
  - intros [= <-]. now eexists _, s.
Qed.

Lemma page_row_total (doc_id abs_url : str) (n : nat) (url : str) :
  pages_extract BeautifulSoup w ->
  exists row,
    page_row BeautifulSoup doc_id abs_url (http_get w n url) = Some row.
Proof.
  intros Hx. unfold page_row.
  destruct (http_get w n url) as [[|c html]|] eqn:Eg; try now eexists.
  destruct (Hx n url (c :: html) Eg) as [metadata ->]. now eexists.
Qed.

(** A checkpoint either leaves the buffer alone or hands all of it to
    the ledger. *)
Lemma checkpoint_step (total i : nat) (results res : list ResultRow) (s s1 : State) :
  checkpoint cfg w total i results s = (Ok res, s1) ->
  exists evs,
    obs_step s s1 evs /\ pacing evs = []
    /\ appended_rows evs ++ res = results.
Proof.
  unfold checkpoint. destruct (CHECKPOINT_INTERVAL cfg) as [|k]; [discriminate|].
  destruct (i mod S k =? 0).
  - pose proof (save_results_step results (lit "checkpoint_" ++ decimal i) s) as Hs.
    destruct (ledger_ok w (count is_append (trace s))).
    + destruct Hs as [s2 [Hs Ho]]. rewrite (bind_eq _ Hs).
      destruct (print_step (MsgCheckpoint i total) s2) as [s3 [Hp Ho3]].
      rewrite (bind_eq _ Hp). cbn [ret]. intros H. injection H as <- <-.
      exists [LedgerAppend results]. split; [|split].
      * apply (obs_step_trans _ _ _ _ _ Ho Ho3).
      * reflexivity.
      * simpl. now rewrite !app_nil_r.
    + rewrite (bind_raised _ Hs). discriminate.
  - cbn [ret]. intros H. injection H as <- <-.
    exists []. split; [apply obs_step_refl | now split].
Qed.

Lemma checkpoint_total (total i : nat) (results : list ResultRow) (s : State) :
  CHECKPOINT_INTERVAL cfg <> 0 -> (forall n, ledger_ok w n = true) ->
  exists res s1, checkpoint cfg w total i results s = (Ok res, s1).
Proof.
  intros HK Hok. unfold checkpoint.
  destruct (CHECKPOINT_INTERVAL cfg) as [|k]; [contradiction|].
  destruct (i mod S k =? 0).
  - pose proof (save_results_step results (lit "checkpoint_" ++ decimal i) s) as Hs.
    rewrite Hok in Hs. destruct Hs as [s2 [Hs _]]. rewrite (bind_eq _ Hs).
    destruct (print_step (MsgCheckpoint i total) s2) as [s3 [Hp _]].
    rewrite (bind_eq _ Hp). now eexists _, _.
  - now eexists _, _.
Qed.

Lemma pacing_no_request (evs : list event) :
  pacing evs = [] -> count is_request evs = 0.
Proof.
  unfold pacing, count. induction evs as [|e evs IH]; [reflexivity|].
  destruct e; simpl; try discriminate; auto.
Qed.

Lemma normalizes_true (d : Document) (u : str) :
  normalize_arxiv_url (snd (fst d)) = Some u -> normalizes d = true.
Proof. unfold normalizes. now intros ->. Qed.

Lemma normalizes_false (d : Document) :
  normalize_arxiv_url (snd (fst d)) = None -> normalizes d = false.
Proof. unfold normalizes. now intros ->. Qed.

(** The loop, when it returns, has made one request and one delay per
    document whose URL normalises, the extraction returned on every
    page, and every row it built is in the ledger or in the buffer, in
    the order of the documents. *)
Lemma process_loop_spec (documents : list Document) :
  forall (total i : nat) (results res : list ResultRow) (stats st : Stats)
         (s s' : State),
    process_loop cfg BeautifulSoup w total i documents results stats s
      = (Ok (res, st), s') ->
    exists evs rows,
      obs_step s s' evs
      /\ pacing evs = paced_requests documents
      /\ document_rows BeautifulSoup w (count is_request (trace s)) documents
         = Some rows
      /\ appended_rows evs ++ res = results ++ rows.
Proof.
  induction documents as [|[[doc_id raw_url] numeric_id] documents IH];
    intros total i results res stats st s s' H.
  - cbn [process_loop ret] in H. injection H as <- <- <-.
    exists [], []. split; [apply obs_step_refl|]. split; [reflexivity|].
    split; [reflexivity|]. simpl. now rewrite app_nil_r.
  - cbn [process_loop] in H.
    cbn [paced_requests flat_map document_rows fst snd].
    unfold document_row. cbn [fst snd].
    destruct (normalize_arxiv_url raw_url) as [[|c u]|] eqn:En.
    + now apply normalize_arxiv_url_nonempty in En.
    + rewrite (normalizes_true (doc_id, raw_url, numeric_id) (c :: u) En).
      destruct (fetch_abstract_page_step (c :: u) s) as [s1 [Hf Ho1]].
      rewrite (bind_eq _ Hf) in H.
      apply bind_ok_inv in H as [acc [s2 [Hr H]]].
      apply record_page_inv in Hr as [row [Hrow [Hacc Ho2]]].
      rewrite Hrow, Hacc in *.
      apply bind_ok_inv in H as [res1 [s3 [Hc H]]].
      apply checkpoint_step in Hc as [evs3 [Ho3 [Hp3 Ha3]]].
      destruct (sleep_step s3) as [s4 [Hs Ho4]].
      rewrite (bind_eq _ Hs) in H.
      apply IH in H as [evs5 [rows5 [Ho5 [Hp5 [Hrows5 Ha5]]]]].
      pose proof (obs_step_trans _ _ _ _ _ Ho1 Ho2) as Ho12.
      pose proof (obs_step_trans _ _ _ _ _ Ho12 Ho3) as Ho123.
      pose proof (obs_step_trans _ _ _ _ _ Ho123 Ho4) as Ho1234.
      assert (Hn : count is_request (trace s4) = S (count is_request (trace s))).
      { rewrite (obs_step_count is_request _ _ _ request_significant Ho1234).
        rewrite !count_app, (pacing_no_request evs3 Hp3).
        unfold count. simpl. lia. }
      rewrite Hn in Hrows5. rewrite Hrows5.
      exists (((([Request (c :: u)] ++ []) ++ evs3) ++ [Sleep]) ++ evs5),
        (row :: rows5).
      split; [apply (obs_step_trans _ _ _ _ _ Ho1234 Ho5)|]. split.
      * rewrite !pacing_app, Hp3, Hp5. reflexivity.
      * split; [reflexivity|].
        rewrite !appended_rows_app. cbn [appended_rows flat_map app].
        rewrite <- !app_assoc. cbn [app]. rewrite Ha5.
        rewrite app_assoc, Ha3. now rewrite <- app_assoc.
    + rewrite (normalizes_false (doc_id, raw_url, numeric_id) En).
      apply IH in H as [evs [rows [Ho [Hp [Hrows Ha]]]]].
      rewrite Hrows.
      exists evs, (_create_empty_result doc_id raw_url :: rows).
      split; [exact Ho|]. split; [exact Hp|]. split; [reflexivity|].
      rewrite Ha. now rewrite <- app_assoc.
Qed.

(** With a ledger that can always be opened, a checkpoint interval
    that is not zero and pages on which the extraction returns, the
    loop returns. *)
Lemma process_loop_total (documents : list Document) :
  CHECKPOINT_INTERVAL cfg <> 0 -> (forall n, ledger_ok w n = true) ->
  pages_extract BeautifulSoup w ->
  forall (total i : nat) (results : list ResultRow) (stats : Stats) (s : State),
  exists r s',
    process_loop cfg BeautifulSoup w total i documents results stats s
      = (Ok r, s').
Proof.
  intros HK Hok Hx.
  induction documents as [|[[doc_id raw_url] numeric_id] documents IH];
    intros total i results stats s.
  - now eexists _, _.
  - cbn [process_loop].
    destruct (normalize_arxiv_url raw_url) as [[|c u]|]; try apply IH.
    destruct (fetch_abstract_page_step (c :: u) s) as [s1 [Hf _]].
    rewrite (bind_eq _ Hf).
    destruct (page_row_total doc_id (c :: u) (count is_request (trace s))
                (c :: u) Hx) as [row Hrow].
    destruct (record_page_total doc_id (c :: u) _ results stats s1 row Hrow)
      as [stats1 [s2 Hr]].
    rewrite (bind_eq _ Hr). cbn [fst snd].
    destruct (checkpoint_total total i (results ++ [row]) s2 HK Hok)
      as [res [s3 Hc]].
    rewrite (bind_eq _ Hc).
    destruct (sleep_step s3) as [s4 [Hs _]].
    rewrite (bind_eq _ Hs). apply IH.
Qed.

Lemma process_documents_spec (rows : list (list str)) (s s' : State) (stats : Stats) :
  input_rows w = Some rows ->
  process_documents cfg BeautifulSoup w s = (Ok stats, s') ->
  exists evs new,
    obs_step s s' evs
    /\ pacing evs = paced_requests (loaded_documents cfg rows)
    /\ document_rows BeautifulSoup w (count is_request (trace s))
         (loaded_documents cfg rows) = Some new
    /\ appended_rows evs = new.
Proof.
  intros Hin H. unfold process_documents, load_documents_to_process in H.
  rewrite Hin in H. cbn [bind ret] in H.
  destruct (loaded_documents cfg rows) as [|d documents] eqn:E.
  - destruct (print_step MsgNoDocuments s) as [s1 [Hp Ho]].
    rewrite (bind_eq _ Hp) in H. cbn [ret] in H. injection H as <- <-.
    exists [], []. split; [exact Ho|]. split; [reflexivity|].
    split; reflexivity.
  - destruct (print_step (MsgProcessing (length (d :: documents))) s)
      as [s1 [Hp Ho]].
    rewrite (bind_eq _ Hp) in H.
    apply bind_ok_inv in H as [[res st] [s2 [Hl H]]].
    apply process_loop_spec in Hl as [evs [new [Ho2 [Hpace [Hnew Hrows]]]]].
    rewrite (obs_step_count is_request _ _ _ request_significant Ho) in Hnew.
    cbn [count filter length app] in Hnew. rewrite Nat.add_0_r in Hnew.
    cbn [app] in Hrows.
    pose proof (obs_step_trans _ _ _ _ _ Ho Ho2) as Ho12.
    cbn [fst snd] in H. destruct res as [|r res].
    + cbn [ret] in H. injection H as <- <-.
      exists evs, new. split; [exact Ho12|]. split; [exact Hpace|].
      split; [exact Hnew|]. now rewrite app_nil_r in Hrows.
    + pose proof (save_results_step (r :: res) (lit "final") s2) as Hs.
      destruct (ledger_ok w (count is_append (trace s2))).
      * destruct Hs as [s3 [Hs Ho3]]. rewrite (bind_eq _ Hs) in H.
        cbn [ret] in H. injection H as <- <-.
        exists (evs ++ [LedgerAppend (r :: res)]), new.
        split; [apply (obs_step_trans _ _ _ _ _ Ho12 Ho3)|]. split.
        -- rewrite pacing_app. simpl. now rewrite app_nil_r.
        -- split; [exact Hnew|].
           rewrite appended_rows_app. simpl. now rewrite app_nil_r.
      * rewrite (bind_raised _ Hs) in H. discriminate.
Qed.

Lemma process_documents_total (rows : list (list str)) (s : State) :
  input_rows w = Some rows ->
  CHECKPOINT_INTERVAL cfg <> 0 -> (forall n, ledger_ok w n = true) ->
  pages_extract BeautifulSoup w ->
  exists stats s', process_documents cfg BeautifulSoup w s = (Ok stats, s').
Proof.
  intros Hin HK Hok Hx. unfold process_documents, load_documents_to_process.
  rewrite Hin. cbn [bind ret].
  destruct (loaded_documents cfg rows) as [|d documents].
  - now eexists _, _.
  - destruct (print_step (MsgProcessing (length (d :: documents))) s)
      as [s1 [Hp _]].
    rewrite (bind_eq _ Hp).
    destruct (process_loop_total (d :: documents) HK Hok Hx
                (length (d :: documents)) 1 []
                {| processed := 0; successful := 0 |} s1) as [[res st] [s2 Hl]].
    rewrite (bind_eq _ Hl). cbn [fst snd].
    destruct res as [|r res]; [now eexists _, _|].
    pose proof (save_results_step (r :: res) (lit "final") s2) as Hs.
    rewrite Hok in Hs. destruct Hs as [s3 [Hs _]].
    rewrite (bind_eq _ Hs). now eexists _, _.
Qed.

Lemma document_rows_length (documents : list Document) :
  forall (n : nat) (rows : list ResultRow),
    document_rows BeautifulSoup w n documents = Some rows ->
    length rows = length documents.
Proof.
  induction documents as [|d documents IH]; intros n rows.
  - intros [= <-]. reflexivity.
  - cbn [document_rows].
    destruct (document_row BeautifulSoup w n d) as [r|]; [|discriminate].
    destruct (document_rows BeautifulSoup w _ documents) as [rows'|] eqn:E;
      [|discriminate].
    intros [= <-]. cbn [length]. f_equal. now apply (IH _ _ E).
Qed.

Lemma nth_error_document_rows (documents : list Document) :
  forall (n j : nat) (d : Document) (rows : list ResultRow),
    document_rows BeautifulSoup w n documents = Some rows ->
    nth_error documents j = Some d ->
    exists r,
      nth_error rows j = Some r
      /\ document_row BeautifulSoup w (requests_before n documents j) d = Some r.
Proof.
  unfold requests_before.
  induction documents as [|d0 documents IH]; intros n j d rows Hrows Hj.
  - destruct j; discriminate.
  - cbn [document_rows] in Hrows.
    destruct (document_row BeautifulSoup w n d0) as [r0|] eqn:E0; [|discriminate].
    destruct (document_rows BeautifulSoup w _ documents) as [rows'|] eqn:E;
      [|discriminate].
    injection Hrows as <-.
    destruct j as [|j].
    + simpl in Hj. injection Hj as <-. exists r0. split; [reflexivity|].
      simpl. now rewrite Nat.add_0_r.
    + simpl in Hj. destruct (IH _ j d rows' E Hj) as [r [Hr Hd]].
      exists r. split; [exact Hr|].
      cbn [firstn filter]. rewrite <- Hd. f_equal.
      destruct (normalizes d0); simpl; lia.
Qed.

End DriverFacts.

Lemma document_row_unnormalized (P : str -> Bs4.node) (w : World) (n : nat)
    (d : Document) :
  normalize_arxiv_url (snd (fst d)) = None ->
  document_row P w n d
  = Some (_create_empty_result (fst (fst d)) (snd (fst d))).
Proof. unfold document_row. now intros ->. Qed.

Lemma document_row_unfetched (P : str -> Bs4.node) (w : World) (n : nat)
    (d : Document) (u : str) :
  normalize_arxiv_url (snd (fst d)) = Some u -> fetch_fails w n u ->
  document_row P w n d = Some (_create_empty_result (fst (fst d)) u).
Proof.
  unfold document_row, page_row. intros -> [H | H]; now rewrite H.
Qed.

Lemma document_row_doc_id (P : str -> Bs4.node) (w : World) (n : nat)
    (d : Document) (r : ResultRow) :
  document_row P w n d = Some r -> doc_id r = fst (fst d).
Proof.
  unfold document_row, page_row.
  destruct (normalize_arxiv_url (snd (fst d))) as [u|]; [|now intros [= <-]].
  destruct (http_get w n u) as [[|c html]|]; try now intros [= <-].
  destruct (extract_metadata P (c :: html)); [now intros [= <-] | discriminate].
Qed.

Lemma create_empty_result_all_empty (id u : str) :
  all_empty (_create_empty_result id u).
Proof. repeat split. Qed.

(** *** The source list *)

Lemma insert_by_key_length (x : Document) (l : list Document) :
  length (insert_by_key x l) = S (length l).
Proof.
  induction l as [|y l IH]; simpl; [reflexivity|].
  destruct (snd x <=? snd y)%Z; simpl; [reflexivity | now rewrite IH].
Qed.

Lemma sort_by_key_length (l : list Document) :
  length (sort_by_key l) = length l.
Proof.
  induction l as [|x l IH]; simpl; [reflexivity|].
  unfold sort_by_key in *. simpl. now rewrite insert_by_key_length, IH.
Qed.

(** The loaded list has one document for each row that has enough
    columns, a reference URL, and an identifier resolved into the
    configured range. *)
Lemma loaded_documents_length (cfg : Config) (rows : list (list str)) :
  length (loaded_documents cfg rows)
  = length (filter (fun row => match row_document cfg row with
                               | Some _ => true
                               | None => false
                               end) rows).
Proof.
  unfold loaded_documents. rewrite sort_by_key_length.
  induction rows as [|row rows IH]; simpl; [reflexivity|].
  destruct (row_document cfg row); simpl; now rewrite IH.
Qed.

Lemma paced_requests_requests (documents : list Document) :
  count is_request (paced_requests documents) = length (filter normalizes documents)
  /\ count is_sleep (paced_requests documents) = length (filter normalizes documents).
Proof.
  unfold count, paced_requests, normalizes.
  induction documents as [|d documents [IH1 IH2]]; [now split|].
  cbn [flat_map filter]. rewrite !filter_app, !length_app, IH1, IH2.
  destruct (normalize_arxiv_url (snd (fst d))); now split.
Qed.

(** *** Checkpoints when every URL normalises *)

Lemma div_mod_succ (K j : nat) :
  K <> 0 ->
  (S j mod K = 0 /\ S j / K = S (j / K))
  \/ (S j mod K = S (j mod K) /\ S j / K = j / K).
Proof.
  intros HK.
  pose proof (Nat.div_mod_eq j K) as Hj.
  pose proof (Nat.mod_upper_bound j K HK) as Hr.
  destruct (Nat.eq_dec (S (j mod K)) K) as [E | E].
  - left.
    assert (Hs : S j = 0 + S (j / K) * K) by nia.
    rewrite Hs. split.
    + rewrite Nat.Div0.mod_add. now apply Nat.Div0.mod_0_l.
    + rewrite Nat.div_add by exact HK. now rewrite Nat.Div0.div_0_l.
  - right.
    assert (Hs : S j = S (j mod K) + (j / K) * K) by nia.
    assert (Hlt : S (j mod K) < K) by lia.
    split.
    + rewrite Hs at 1. rewrite Nat.Div0.mod_add. now apply Nat.mod_small.
    + rewrite Hs at 1. rewrite Nat.div_add by exact HK.
      now rewrite (Nat.div_small _ _ Hlt).
Qed.

Lemma ceil_div (K n : nat) :
  K <> 0 ->
  (n + K - 1) / K = n / K + (if n mod K =? 0 then 0 else 1).
Proof.
  intros HK.
  pose proof (Nat.div_mod_eq n K) as Hn.
  pose proof (Nat.mod_upper_bound n K HK) as Hr.
  destruct (n mod K) as [|r] eqn:E; cbn [Nat.eqb].
  - replace (n + K - 1) with ((K - 1) + (n / K) * K) by nia.
    rewrite Nat.div_add by exact HK.
    rewrite Nat.div_small by lia. lia.
  - replace (n + K - 1) with (r + S (n / K) * K) by nia.
    rewrite Nat.div_add by exact HK.
    rewrite Nat.div_small by lia. lia.
Qed.

Section CheckpointFacts.

Variable cfg : Config.
Variable BeautifulSoup : str -> Bs4.node.
Variable w : World.

Lemma checkpoint_cases (total i : nat) (results res : list ResultRow) (s s1 : State) :
  checkpoint cfg w total i results s = (Ok res, s1) ->
  (i mod CHECKPOINT_INTERVAL cfg = 0 /\ res = []
   /\ obs_step s s1 [LedgerAppend results])
  \/ (i mod CHECKPOINT_INTERVAL cfg <> 0 /\ res = results /\ obs_step s s1 []).
Proof.
  unfold checkpoint. destruct (CHECKPOINT_INTERVAL cfg) as [|k]; [discriminate|].
  destruct (i mod S k =? 0) eqn:E.
  - apply Nat.eqb_eq in E.
    pose proof (save_results_step w results (lit "checkpoint_" ++ decimal i) s) as Hs.
    destruct (ledger_ok w (count is_append (trace s))).
    + destruct Hs as [s2 [Hs Ho]]. rewrite (bind_eq _ Hs).
      destruct (print_step (MsgCheckpoint i total) s2) as [s3 [Hp Ho3]].
      rewrite (bind_eq _ Hp). cbn [ret]. intros H. injection H as <- <-.
      left. split; [exact E|]. split; [reflexivity|].
      apply (obs_step_trans _ _ _ _ _ Ho Ho3).
    + rewrite (bind_raised _ Hs). discriminate.
  - apply Nat.eqb_neq in E.
    cbn [ret]. intros H. injection H as <- <-.
    right. split; [exact E|]. split; [reflexivity | apply obs_step_refl].
Qed.

(** When every URL normalises, the loop appends at each multiple of the
    interval and keeps the rows since the last multiple in the buffer. *)
Lemma process_loop_appends (documents : list Document) :
  CHECKPOINT_INTERVAL cfg <> 0 ->
  forallb normalizes documents = true ->
  forall (total j : nat) (results res : list ResultRow) (stats st : Stats)
         (s s' : State),
    length results = j mod CHECKPOINT_INTERVAL cfg ->
    process_loop cfg BeautifulSoup w total (S j) documents results stats s
      = (Ok (res, st), s') ->
    count is_append (trace s') + j / CHECKPOINT_INTERVAL cfg
      = count is_append (trace s)
        + (j + length documents) / CHECKPOINT_INTERVAL cfg
    /\ length res = (j + length documents) mod CHECKPOINT_INTERVAL cfg.
Proof.
  intros HK.
  induction documents as [|[[doc_id raw_url] numeric_id] documents IH];
    intros Hall total j results res stats st s s' Hlen H.
  - cbn [process_loop ret] in H. injection H as <- <- <-.
    cbn [length]. rewrite Nat.add_0_r. split; [lia | exact Hlen].
  - cbn [forallb] in Hall. apply andb_true_iff in Hall as [Hd Hall].
    unfold normalizes in Hd. cbn [fst snd] in Hd.
    cbn [process_loop] in H.
    destruct (normalize_arxiv_url raw_url) as [[|c u]|] eqn:En;
      [now apply normalize_arxiv_url_nonempty in En | | discriminate Hd].
    destruct (fetch_abstract_page_step w (c :: u) s) as [s1 [Hf Ho1]].
    rewrite (bind_eq _ Hf) in H.
    apply bind_ok_inv in H as [acc [s2 [Hr H]]].
    apply (record_page_inv BeautifulSoup w) in Hr as [row [_ [Hacc Ho2]]].
    rewrite Hacc in H.
    apply bind_ok_inv in H as [res1 [s3 [Hc H]]].
    destruct (sleep_step s3) as [s4 [Hs Ho4]].
    rewrite (bind_eq _ Hs) in H.
    pose proof (obs_step_trans _ _ _ _ _ Ho1 Ho2) as Ho12.
    cbn [length]. replace (j + S (length documents)) with (S j + length documents) by lia.
    apply checkpoint_cases in Hc as [[Hmod [-> Ho3]] | [Hmod [-> Ho3]]].
    + pose proof (obs_step_trans _ _ _ _ _ (obs_step_trans _ _ _ _ _ Ho12 Ho3) Ho4)
        as Ho.
      apply (obs_step_count is_append _ _ _ append_significant) in Ho.
      destruct (div_mod_succ (CHECKPOINT_INTERVAL cfg) j HK) as [[Hm Hq] | [Hm Hq]];
        [|rewrite Hm in Hmod; discriminate].
      apply IH in H; [| exact Hall | now rewrite Hm].
      destruct H as [H1 H2]. split; [|exact H2].
      rewrite Hq in H1. unfold count in Ho. simpl in Ho. unfold count in *. lia.
    + pose proof (obs_step_trans _ _ _ _ _ (obs_step_trans _ _ _ _ _ Ho12 Ho3) Ho4)
        as Ho.
      apply (obs_step_count is_append _ _ _ append_significant) in Ho.
      destruct (div_mod_succ (CHECKPOINT_INTERVAL cfg) j HK) as [[Hm Hq] | [Hm Hq]];
        [contradiction|].
      apply IH in H; [| exact Hall | rewrite length_app, Hm; simpl; lia].
      destruct H as [H1 H2]. split; [|exact H2].
      rewrite Hq in H1. unfold count in Ho. simpl in Ho. unfold count in *. lia.
Qed.

(** X21.  When the URL of every loaded document normalises, a run that
    returns has appended to the ledger ceil(N/K) times, for N loaded
    documents and the checkpoint interval K. *)
Lemma process_documents_appends_when_all_normalize
    (rows : list (list str)) (s s' : State) (stats : Stats) :
  input_rows w = Some rows ->
  CHECKPOINT_INTERVAL cfg <> 0 ->
  forallb normalizes (loaded_documents cfg rows) = true ->
  process_documents cfg BeautifulSoup w s = (Ok stats, s') ->
  count is_append (trace s')
  = count is_append (trace s)
    + (length (loaded_documents cfg rows) + CHECKPOINT_INTERVAL cfg - 1)
      / CHECKPOINT_INTERVAL cfg.
Proof.
  intros Hin HK Hall H. unfold process_documents, load_documents_to_process in H.
  rewrite Hin in H. cbn [bind ret] in H.
  rewrite ceil_div by exact HK.
  destruct (loaded_documents cfg rows) as [|d documents] eqn:E.
  - destruct (print_step MsgNoDocuments s) as [s1 [Hp Ho]].
    rewrite (bind_eq _ Hp) in H. cbn [ret] in H. injection H as <- <-.
    apply (obs_step_count is_append _ _ _ append_significant) in Ho.
    cbn [length]. rewrite Nat.Div0.div_0_l, Nat.Div0.mod_0_l. exact Ho.
  - destruct (print_step (MsgProcessing (length (d :: documents))) s)
      as [s1 [Hp Ho]].
    rewrite (bind_eq _ Hp) in H.
    apply (obs_step_count is_append _ _ _ append_significant) in Ho.
    apply bind_ok_inv in H as [[res st] [s2 [Hl H]]].
    apply (process_loop_appends (d :: documents) HK Hall) in Hl;
      [| cbn [length]; now rewrite Nat.Div0.mod_0_l].
    destruct Hl as [Hcount Hres].
    rewrite Nat.Div0.div_0_l in Hcount. cbn [Nat.add] in Hcount, Hres.
    cbn [fst snd] in H. destruct res as [|r res].
    + cbn [ret] in H. injection H as <- <-.
      rewrite <- Hres. cbn [length Nat.eqb] in *.
      unfold count in *. simpl in Ho. lia.
    + pose proof (save_results_step w (r :: res) (lit "final") s2) as Hs.
      destruct (ledger_ok w (count is_append (trace s2))).
      * destruct Hs as [s3 [Hs Ho3]]. rewrite (bind_eq _ Hs) in H.
        cbn [ret] in H. injection H as <- <-.
        apply (obs_step_count is_append _ _ _ append_significant) in Ho3.
        rewrite <- Hres. cbn [length Nat.eqb] in *.
        unfold count in *. simpl in Ho, Ho3. lia.
      * rewrite (bind_raised _ Hs) in H. discriminate.
Qed.

End CheckpointFacts.

(** ** The claims about the driver *)

(** C1 (one row per document).  Whenever [process_documents] returns,
    the rows it handed to the ledger during the run, which are the rows
    the ledger file grew by, are as many as the loaded documents, that
    is, as the source rows with a reference URL and an identifier
    resolved into the range; the row at each position carries the
    identifier of the document at that position, and is all empty when
    the URL of the document does not normalise or its request fails.
    And the run does return when the source list can be read, the
    checkpoint interval is not zero, the ledger can be opened and the
    extraction returns on every page served. *)
Theorem process_documents_one_row_per_document
    (cfg : Config) (BeautifulSoup : str -> Bs4.node) (w : World) :
  (forall (rows : list (list str)) (s s' : State) (stats : Stats),
      input_rows w = Some rows ->
      process_documents cfg BeautifulSoup w s = (Ok stats, s') ->
      exists new : list ResultRow,
        appended_rows (trace s') = appended_rows (trace s) ++ new
        /\ ledger_rows (ledger s') = ledger_rows (ledger s) ++ new
        /\ length new = length (loaded_documents cfg rows)
        /\ length new
           = length (filter (fun row => match row_document cfg row with
                                        | Some _ => true
                                        | None => false
                                        end) rows)
        /\ forall (j : nat) (d : Document),
             nth_error (loaded_documents cfg rows) j = Some d ->
             exists r : ResultRow,
               nth_error new j = Some r
               /\ doc_id r = fst (fst d)
               /\ (normalize_arxiv_url (snd (fst d)) = None -> all_empty r)
               /\ (forall u : str,
                     normalize_arxiv_url (snd (fst d)) = Some u ->
                     fetch_fails w
                       (requests_before (count is_request (trace s))
                          (loaded_documents cfg rows) j) u ->
                     all_empty r))
  /\ (forall (rows : list (list str)) (s : State),
        input_rows w = Some rows ->
        CHECKPOINT_INTERVAL cfg <> 0 ->
        (forall n, ledger_ok w n = true) ->
        pages_extract BeautifulSoup w ->
        exists (stats : Stats) (s' : State),
          process_documents cfg BeautifulSoup w s = (Ok stats, s')).
Proof.
  split.
  - intros rows s s' stats Hin Hrun.
    destruct (process_documents_spec cfg BeautifulSoup w rows s s' stats Hin Hrun)
      as [evs [new [Ho [_ [Hnew Hrows]]]]].
    exists new. rewrite <- Hrows. split; [now apply obs_step_appended|].
    split; [apply Ho|]. rewrite Hrows.
    rewrite (document_rows_length BeautifulSoup w _ _ _ Hnew).
    split; [reflexivity|]. split; [apply loaded_documents_length|].
    intros j d Hj.
    destruct (nth_error_document_rows BeautifulSoup w _ _ _ _ _ Hnew Hj)
      as [r [Hr Hd]].
    exists r. split; [exact Hr|].
    split; [now apply document_row_doc_id in Hd|]. split.
    + intros Hn. rewrite document_row_unnormalized in Hd by exact Hn.
      injection Hd as <-. apply create_empty_result_all_empty.
    + intros u Hn Hf. rewrite (document_row_unfetched _ _ _ _ u Hn Hf) in Hd.
      injection Hd as <-. apply create_empty_result_all_empty.
  - intros rows s Hin HK Hok Hx.
    now apply process_documents_total with (rows := rows).
Qed.

(** Three source rows: a foreign URL, an arXiv URL whose request fails,
    and a row outside the range, which is not loaded. *)
Lemma process_documents_one_row_per_document_witness :
  let rows :=
    [ [lit "PN0060988"; lit "x"; lit "y"; lit "https://arxiv.org/abs/0704.0001"];
      [lit "PN0060987"; lit "x"; lit "y"; lit "http://example.org/paper.pdf"];
      [lit "PN0000001"; lit "x"; lit "y"; lit "https://arxiv.org/abs/0704.0002"] ] in
  exists new : list ResultRow,
    appended_rows
      (trace (snd (process_documents class_config empty_page (offline rows)
                     initial_state))) = new
    /\ length new = 2.
Proof.
  intros rows.
  destruct (proj1 (process_documents_one_row_per_document
                     class_config empty_page (offline rows))
              rows initial_state
              (snd (process_documents class_config empty_page (offline rows)
                      initial_state))
              {| processed := 1; successful := 0 |}
              eq_refl eq_refl)
    as [new [Happ [_ [Hlen _]]]].
  exists new. split; [exact Happ | exact Hlen].
Defined.

Lemma document_row_abs_url (P : str -> Bs4.node) (w : World) (n : nat)
    (d : Document) (u : str) (r : ResultRow) :
  normalize_arxiv_url (snd (fst d)) = Some u ->
  document_row P w n d = Some r -> abs_url r = u.
Proof.
  unfold document_row, page_row. intros ->.
  destruct (http_get w n u) as [[|c html]|]; try now intros [= <-].
  destruct (extract_metadata P (c :: html)); [now intros [= <-] | discriminate].
Qed.

(** C10, counterexample.  A document whose URL normalises and whose
    request brings a page, one in which the extractors find nothing:
    the request does not fail, and yet the row written to the ledger
    is the empty row with the normalised URL. *)
Lemma empty_row_of_fetched_page :
  normalize_arxiv_url (lit "https://arxiv.org/abs/0704.1000")
  = Some (lit "https://arxiv.org/abs/0704.1000")
  /\ http_get (online (lit "<html></html>") true rows_one_arxiv_url) 0
       (lit "https://arxiv.org/abs/0704.1000")
     = Some (lit "<html></html>")
  /\ ~ fetch_fails (online (lit "<html></html>") true rows_one_arxiv_url) 0
         (lit "https://arxiv.org/abs/0704.1000")
  /\ fst (process_documents class_config empty_page
            (online (lit "<html></html>") true rows_one_arxiv_url) initial_state)
     = Ok {| processed := 1; successful := 1 |}
  /\ ledger_rows
       (ledger (snd (process_documents class_config empty_page
                       (online (lit "<html></html>") true rows_one_arxiv_url)
                       initial_state)))
     = [_create_empty_result (lit "PN0060987")
          (lit "https://arxiv.org/abs/0704.1000")].
Proof.
  split; [vm_compute; reflexivity|]. split; [reflexivity|]. split.
  - intros [H | H]; discriminate H.
  - split; vm_compute; reflexivity.
Qed.

(** C10, amended (URL column).  Whenever [process_documents] returns:
    for a document whose URL does not normalise, the row written to
    the ledger at its position is the empty row with the reference URL
    as read from the source list in the column [abs_url], no license
    URL and the license name ["Unknown"]; for a document whose URL
    normalises, the row carries the normalised URL, an arXiv abstract
    URL, in that column, and it is the empty row when the request
    fails.  The run returns when the checkpoint interval is not zero,
    the ledger can be opened and the extraction returns on every page
    served. *)
Theorem empty_row_url_column
    (cfg : Config) (BeautifulSoup : str -> Bs4.node) (w : World)
    (rows : list (list str)) :
  input_rows w = Some rows ->
  (forall (s s' : State) (stats : Stats),
      process_documents cfg BeautifulSoup w s = (Ok stats, s') ->
      exists new : list ResultRow,
        appended_rows (trace s') = appended_rows (trace s) ++ new
        /\ ledger_rows (ledger s') = ledger_rows (ledger s) ++ new
        /\ forall (j : nat) (doc_id raw_url : str) (numeric_id : Z),
             nth_error (loaded_documents cfg rows) j
               = Some (doc_id, raw_url, numeric_id) ->
             (normalize_arxiv_url raw_url = None ->
              exists r : ResultRow,
                nth_error new j = Some r
                /\ r = _create_empty_result doc_id raw_url
                /\ abs_url r = raw_url
                /\ license_url r = None /\ license_name r = lit "Unknown")
             /\ (forall u : str,
                   normalize_arxiv_url raw_url = Some u ->
                   exists r : ResultRow,
                     nth_error new j = Some r
                     /\ abs_url r = u
                     /\ (exists paper_id,
                            u = lit "https://arxiv.org/abs/" ++ paper_id)
                     /\ (fetch_fails w
                           (requests_before (count is_request (trace s))
                              (loaded_documents cfg rows) j) u ->
                         r = _create_empty_result doc_id u
                         /\ license_url r = None
                         /\ license_name r = lit "Unknown")))
  /\ (CHECKPOINT_INTERVAL cfg <> 0 -> (forall n, ledger_ok w n = true) ->
      pages_extract BeautifulSoup w ->
      forall s : State,
      exists (stats : Stats) (s' : State),
        process_documents cfg BeautifulSoup w s = (Ok stats, s')).
Proof.
  intros Hin. split;
    [| intros HK Hok Hx s; now apply process_documents_total with (rows := rows)].
  intros s s' stats Hrun.
  destruct (process_documents_spec cfg BeautifulSoup w rows s s' stats Hin Hrun)
    as [evs [new [Ho [_ [Hnew Hrows]]]]].
  exists new. rewrite <- Hrows. split; [now apply obs_step_appended|].
  split; [apply Ho|]. rewrite Hrows.
  intros j doc_id raw_url numeric_id Hj.
  destruct (nth_error_document_rows BeautifulSoup w _ _ _ _ _ Hnew Hj)
    as [r [Hr Hd]].
  split.
  - intros Hn. exists r. split; [exact Hr|].
    rewrite (document_row_unnormalized _ _ _ (doc_id, raw_url, numeric_id) Hn) in Hd.
    injection Hd as <-. repeat split.
  - intros u Hn. exists r. split; [exact Hr|].
    split; [exact (document_row_abs_url _ _ _ (doc_id, raw_url, numeric_id) u r Hn Hd)|].
    split.
    + rewrite normalize_arxiv_url_eq in Hn.
      now apply first_pattern_prefix in Hn.
    + intros Hf.
      rewrite (document_row_unfetched _ _ _ (doc_id, raw_url, numeric_id) u Hn Hf)
        in Hd.
      injection Hd as <-. repeat split.
Qed.

Lemma empty_row_url_column_witness :
  let rows :=
    [ [lit "PN0060988"; lit "x"; lit "y"; lit "arxiv.org/pdf/0704.0001.pdf"];
      [lit "PN0060987"; lit "x"; lit "y"; lit "http://example.org/paper.pdf"] ] in
  exists new : list ResultRow,
    appended_rows
      (trace (snd (process_documents class_config empty_page (offline rows)
                     initial_state))) = new
    /\ nth_error new 0
       = Some (_create_empty_result (lit "PN0060987")
                 (lit "http://example.org/paper.pdf"))
    /\ nth_error new 1
       = Some (_create_empty_result (lit "PN0060988")
                 (lit "https://arxiv.org/abs/0704.0001")).
Proof.
  intros rows.
  destruct (proj1 (empty_row_url_column class_config empty_page (offline rows)
                     rows eq_refl)
              initial_state
              (snd (process_documents class_config empty_page (offline rows)
                      initial_state))
              {| processed := 1; successful := 0 |}
              eq_refl)
    as [new [Happ [_ Hrow]]].
  exists new. split; [exact Happ|]. split.
  - destruct (proj1 (Hrow 0 (lit "PN0060987") (lit "http://example.org/paper.pdf")
                       60987%Z eq_refl) eq_refl)
      as [r [Hr [-> _]]].
    exact Hr.
  - destruct (proj2 (Hrow 1 (lit "PN0060988") (lit "arxiv.org/pdf/0704.0001.pdf")
                       60988%Z eq_refl)
                (lit "https://arxiv.org/abs/0704.0001") eq_refl)
      as [r [Hr [_ [_ Hempty]]]].
    destruct (Hempty (or_introl eq_refl)) as [-> _].
    exact Hr.
Defined.

Lemma filter_pacing (p : event -> bool) (t : list event) :
  (forall e, p e = true -> is_request e || is_sleep e = true) ->
  filter p (pacing t) = filter p t.
Proof.
  intros H. unfold pacing. induction t as [|e t IH]; [reflexivity|].
  simpl. destruct (is_request e || is_sleep e) eqn:E; simpl.
  - now rewrite IH.
  - destruct (p e) eqn:Ep; [|exact IH].
    apply H in Ep. rewrite Ep in E. discriminate.
Qed.

(** C5, counterexample.  A run over one loaded document whose URL does
    not normalise returns without any delay. *)
Lemma process_documents_no_delay_without_request :
  length (loaded_documents class_config rows_one_foreign_url) = 1
  /\ fst (process_documents class_config empty_page
            (offline rows_one_foreign_url) initial_state)
     = Ok {| processed := 0; successful := 0 |}
  /\ count is_sleep
       (trace (snd (process_documents class_config empty_page
                      (offline rows_one_foreign_url) initial_state))) = 0.
Proof. evaluate. Qed.

(** C5, amended.  Whenever [process_documents] returns, the requests
    and delays of the run are, in order, one request followed by one
    delay for each loaded document whose URL normalises, whatever the
    outcome of the request, and nothing for a document whose URL does
    not normalise; so the run has as many delays as requests, as many
    as there are documents whose URL normalises.  The run returns when
    the checkpoint interval is not zero, the ledger can be opened and
    the extraction returns on every page served. *)
Theorem process_documents_delay_after_each_request
    (cfg : Config) (BeautifulSoup : str -> Bs4.node) (w : World)
    (rows : list (list str)) :
  input_rows w = Some rows ->
  (forall (s s' : State) (stats : Stats),
      process_documents cfg BeautifulSoup w s = (Ok stats, s') ->
      pacing (trace s')
        = pacing (trace s) ++ paced_requests (loaded_documents cfg rows)
      /\ count is_sleep (trace s')
         = count is_sleep (trace s)
           + length (filter normalizes (loaded_documents cfg rows))
      /\ count is_request (trace s')
         = count is_request (trace s)
           + length (filter normalizes (loaded_documents cfg rows)))
  /\ (CHECKPOINT_INTERVAL cfg <> 0 -> (forall n, ledger_ok w n = true) ->
      pages_extract BeautifulSoup w ->
      forall s : State,
      exists (stats : Stats) (s' : State),
        process_documents cfg BeautifulSoup w s = (Ok stats, s')).
Proof.
  intros Hin. split;
    [| intros HK Hok Hx s; now apply process_documents_total with (rows := rows)].
  intros s s' stats Hrun.
  destruct (process_documents_spec cfg BeautifulSoup w rows s s' stats Hin Hrun)
    as [evs [new [Ho [Hpace _]]]].
  pose proof (obs_step_pacing _ _ _ Ho) as Hp. rewrite Hpace in Hp.
  destruct (paced_requests_requests (loaded_documents cfg rows)) as [Hreq Hsleep].
  split; [exact Hp|].
  assert (Hcount : forall p, (forall e, p e = true -> is_request e || is_sleep e = true) ->
                             count p (trace s')
                             = count p (trace s)
                               + count p (paced_requests (loaded_documents cfg rows))).
  { intros p Hpp. unfold count.
    rewrite <- (filter_pacing p (trace s')), <- (filter_pacing p (trace s)) by exact Hpp.
    now rewrite Hp, filter_app, length_app. }
  split.
  - rewrite <- Hsleep. apply Hcount. intros e He. now rewrite He, orb_true_r.
  - rewrite <- Hreq. apply Hcount. intros e He. now rewrite He.
Qed.

Lemma process_documents_delay_after_each_request_witness :
  let rows :=
    [ [lit "PN0060988"; lit "x"; lit "y"; lit "https://arxiv.org/abs/0704.0001"];
      [lit "PN0060987"; lit "x"; lit "y"; lit "http://example.org/paper.pdf"] ] in
  pacing (trace (snd (process_documents class_config empty_page (offline rows)
                        initial_state)))
  = [Request (lit "https://arxiv.org/abs/0704.0001"); Sleep].
Proof.
  intros rows.
  apply (proj1 (proj1 (process_documents_delay_after_each_request
                         class_config empty_page (offline rows) rows eq_refl)
                  initial_state
                  (snd (process_documents class_config empty_page (offline rows)
                          initial_state))
                  {| processed := 1; successful := 0 |}
                  eq_refl)).
Defined.

(** C2 (checkpoints, evaluated).  With the checkpoint interval 50 of
    the class and 51 loaded documents of which the 50th has a URL that
    does not normalise, the run returns after a single append of all 51
    rows, where 51 documents at interval 50 call for two appends: the
    checkpoint after the 50th document is not taken.  (When every URL
    normalises the count is right, see
    [process_documents_appends_when_all_normalize].) *)
Theorem process_documents_misses_checkpoint :
  let final :=
    process_documents class_config empty_page
      (offline rows_51_with_foreign_50th) initial_state in
  CHECKPOINT_INTERVAL class_config = 50
  /\ length (loaded_documents class_config rows_51_with_foreign_50th) = 51
  /\ option_map normalizes
       (nth_error (loaded_documents class_config rows_51_with_foreign_50th) 49)
     = Some false
  /\ fst final = Ok {| processed := 50; successful := 0 |}
  /\ count is_append (trace (snd final)) = 1
  /\ map (fun e => match e with LedgerAppend r => length r | _ => 0 end)
         (filter is_append (trace (snd final))) = [51]
  /\ (51 + 50 - 1) / 50 = 2.
Proof. evaluate. Qed.

(** C3 (no abort, evaluated).  A run over a source list with one
    in-range row whose URL does not normalise writes the row to the
    ledger and then raises [ZeroDivisionError]: no document was counted
    as processed, and the success rate divides by that count.  A ledger
    that cannot be opened ends the run with [OSError].  A source list
    that cannot be read ends it with [OSError] before any request, and
    an empty one ends it, also before any request, with the
    [ZeroDivisionError] of the success rate. *)
Theorem run_raises_when_nothing_is_counted :
  length (loaded_documents class_config rows_one_foreign_url) = 1
  /\ fst (run class_config empty_page (offline rows_one_foreign_url) initial_state)
     = Raised ZeroDivisionError
  /\ appended_rows
       (trace (snd (run class_config empty_page (offline rows_one_foreign_url)
                      initial_state)))
     = [_create_empty_result (lit "PN0060987") (lit "http://example.org/paper.pdf")]
  /\ fst (run class_config empty_page (locked_ledger rows_one_foreign_url)
            initial_state)
     = Raised OSError
  /\ fst (run class_config empty_page unreadable initial_state) = Raised OSError
  /\ count is_request
       (trace (snd (run class_config empty_page unreadable initial_state))) = 0
  /\ fst (run class_config empty_page (offline []) initial_state)
     = Raised ZeroDivisionError
  /\ count is_request
       (trace (snd (run class_config empty_page (offline []) initial_state))) = 0.
Proof. evaluate. Qed.

(** * Further properties of the extractor *)

(** ** What a match consumes *)

Lemma class_star_inv (R : Type) (p : ascii -> bool) (s : str)
    (k : str -> option R) (x : R) :
  Re.class_star p s k = Some x ->
  exists run rest, s = run ++ rest /\ forallb p run = true /\ k rest = Some x.
Proof.
  induction s as [|c s IH]; cbn [Re.class_star]; intros H.
  - now exists [], [].
  - destruct (p c) eqn:Ec.
    + destruct (Re.class_star p s k) as [y|] eqn:E.
      * cbn [Re.first_some] in H. injection H as ->.
        destruct (IH eq_refl) as [run [rest [-> [Hrun Hk]]]].
        exists (c :: run), rest. cbn [forallb app]. now rewrite Ec, Hrun.
      * cbn [Re.first_some] in H. now exists [], (c :: s).
    + now exists [], (c :: s).
Qed.

Lemma first_some_inv (R : Type) (a b : option R) (x : R) :
  Re.first_some a b = Some x -> a = Some x \/ b = Some x.
Proof. destruct a; cbn; intros H; [now left | now right]. Qed.

(** A successful match is a success of the rest of the pattern. *)
Lemma rmatch_cont (R : Type) (r : Re.regex) :
  forall (s : str) (cap : option str) (k : str -> option str -> option R) (x : R),
    Re.rmatch r s cap k = Some x ->
    exists s' cap', k s' cap' = Some x.
Proof.
  induction r as [ | c | p | r1 IH1 r2 IH2 | r1 IH1 r2 IH2 | p | p | r1 IH1 | r1 IH1 ];
    intros s cap k x H; cbn [Re.rmatch] in H.
  - now exists s, cap.
  - destruct s as [|a s]; [discriminate|].
    destruct (Ascii.eqb a c); [now exists s, cap | discriminate].
  - destruct s as [|a s]; [discriminate|].
    destruct (p a); [now exists s, cap | discriminate].
  - apply IH1 in H as [s1 [cap1 H]]. now apply IH2 in H.
  - apply first_some_inv in H as [H | H]; [now apply IH1 in H | now apply IH2 in H].
  - apply class_star_inv in H as [run [rest [_ [_ H]]]]. now exists rest, cap.
  - destruct s as [|a s]; [discriminate|].
    destruct (p a); [|discriminate].
    apply class_star_inv in H as [run [rest [_ [_ H]]]]. now exists rest, cap.
  - apply first_some_inv in H as [H | H]; [now apply IH1 in H | now exists s, cap].
  - apply IH1 in H as [s' [cap' H]]. eauto.
Qed.

Lemma rmatch_cat_inv (R : Type) (r1 r2 : Re.regex) (s : str) (cap : option str)
    (k : str -> option str -> option R) (x : R) :
  Re.rmatch (Re.Cat r1 r2) s cap k = Some x ->
  exists s1 cap1, Re.rmatch r2 s1 cap1 k = Some x.
Proof.
  intros H.
  now apply (rmatch_cont R r1 s cap (fun s1 cap1 => Re.rmatch r2 s1 cap1 k)) in H.
Qed.

Lemma search_inv (r : Re.regex) (s : str) (m : Re.match_obj) :
  Re.search r s = Some m -> exists a y, s = a ++ y /\ Re.match_at r y = Some m.
Proof.
  induction s as [|c s IH]; cbn [Re.search].
  - destruct (Re.match_at r []) eqn:E; [|discriminate].
    intros H. injection H as ->. now exists [], [].
  - destruct (Re.match_at r (c :: s)) eqn:E.
    + intros H. injection H as ->. now exists [], (c :: s).
    + intros H. destruct (IH H) as [a [y [-> Hy]]]. now exists (c :: a), y.
Qed.

(** ** The shape of a paper identifier *)

Lemma paper_id_shape_cons (c : ascii) (run1 run2 tail : str) :
  digit_or_dot c = true -> forallb digit_or_dot run1 = true ->
  forallb Py.islower_az run2 = true -> forallb id_char tail = true ->
  paper_id_shape (c :: run1 ++ run2 ++ tail) = true.
Proof.
  intros Hc H1 H2 H3. unfold paper_id_shape. cbn [andb]. rewrite Hc. cbn [andb].
  cbn [forallb]. rewrite !forallb_app, H3, andb_true_r.
  unfold id_char at 1. rewrite Hc. cbn [orb andb].
  apply andb_true_iff. split.
  - rewrite forallb_forall in *. intros x Hx. unfold id_char.
    now rewrite (H1 x Hx).
  - rewrite forallb_forall in *. intros x Hx. unfold id_char.
    rewrite (H2 x Hx). apply orb_true_r.
Qed.

Lemma digits_id_chars (run : str) :
  forallb Py.isdigit run = true -> forallb id_char run = true.
Proof.
  rewrite !forallb_forall. intros H x Hx. unfold id_char, digit_or_dot.
  now rewrite (H x Hx).
Qed.

(** What the group of the paper identifier captures. *)
Lemma rmatch_paper_id (R : Type) (s : str) (cap : option str)
    (k : str -> option str -> option R) (x : R) :
  Re.rmatch (Re.Group paper_id_re) s cap k = Some x ->
  exists paper_id rest,
    s = paper_id ++ rest /\ paper_id_shape paper_id = true
    /\ k rest (Some paper_id) = Some x.
Proof.
  unfold paper_id_re. cbn [Re.rmatch]. intros H.
  destruct s as [|c s]; [discriminate|].
  destruct (digit_or_dot c) eqn:Hc; [|discriminate].
  apply class_star_inv in H as [run1 [rest1 [-> [H1 H]]]].
  apply class_star_inv in H as [run2 [rest2 [-> [H2 H]]]].
  apply first_some_inv in H as [H | H].
  - destruct rest2 as [|v rest2]; [discriminate|].
    destruct (Ascii.eqb v "v") eqn:Ev; [|discriminate].
    apply Ascii.eqb_eq in Ev. subst v.
    destruct rest2 as [|d rest2]; [discriminate|].
    destruct (Py.isdigit d) eqn:Hd; [|discriminate].
    apply class_star_inv in H as [run3 [rest3 [-> [H3 H]]]].
    exists (c :: run1 ++ run2 ++ "v"%char :: d :: run3), rest3.
    assert (E : c :: run1 ++ run2 ++ "v"%char :: d :: run3 ++ rest3
                = (c :: run1 ++ run2 ++ "v"%char :: d :: run3) ++ rest3).
    { cbn [app]. now rewrite <- !app_assoc. }
    split; [exact E|]. split.
    + apply paper_id_shape_cons; auto.
      cbn [forallb]. rewrite (digits_id_chars _ H3).
      unfold id_char at 2, digit_or_dot. rewrite Hd. reflexivity.
    + rewrite <- H. do 2 f_equal. rewrite E. now rewrite firstn_app_exact.
  - exists (c :: run1 ++ run2), rest2.
    assert (E : c :: run1 ++ run2 ++ rest2 = (c :: run1 ++ run2) ++ rest2).
    { cbn [app]. now rewrite <- !app_assoc. }
    split; [exact E|]. split.
    + rewrite <- (app_nil_r run2). now apply paper_id_shape_cons.
    + rewrite <- H. do 2 f_equal. rewrite E. now rewrite firstn_app_exact.
Qed.

Lemma match_at_group1 (prefix : Re.regex) (y : str) (m : Re.match_obj) :
  Re.match_at (Re.Cat prefix (Re.Group paper_id_re)) y = Some m ->
  exists paper_id, Re.group1 m = Some paper_id /\ paper_id_shape paper_id = true.
Proof.
  unfold Re.match_at. intros H.
  apply rmatch_cat_inv in H as [s1 [cap1 H]].
  apply rmatch_paper_id in H as [paper_id [rest [_ [Hshape H]]]].
  injection H as <-. now exists paper_id.
Qed.

(** X1.  Whatever [normalize_arxiv_url] returns is the arXiv abstract
    prefix followed by an identifier that starts with a digit or a dot
    and holds digits, dots and lower-case letters only. *)
Theorem normalize_arxiv_url_shape (url r : str) :
  normalize_arxiv_url url = Some r ->
  exists paper_id,
    r = lit "https://arxiv.org/abs/" ++ paper_id
    /\ paper_id_shape paper_id = true.
Proof.
  rewrite normalize_arxiv_url_eq. unfold patterns. cbn [first_pattern].
  set (x := Py.strip (Py.replace url (lit ".pdf") [])).
  assert (Hgroup : forall p m,
             (p = Re.Cat (Re.chars (lit "arxiv.org/"))
                    (Re.Cat (Re.Alt (Re.chars (lit "abs")) (Re.chars (lit "pdf")))
                       (Re.Cat (Re.Chr "/") (Re.Group paper_id_re)))
              \/ p = Re.Cat (Re.chars (lit "arxiv.org/")) (Re.Group paper_id_re)) ->
             Re.search p x = Some m ->
             exists paper_id,
               Re.group1 m = Some paper_id /\ paper_id_shape paper_id = true).
  { intros p m Hp Hs. apply search_inv in Hs as [a [y [_ Hm]]].
    destruct Hp as [-> | ->].
    - unfold Re.match_at in Hm.
      apply rmatch_cat_inv in Hm as [s1 [cap1 Hm]].
      apply rmatch_cat_inv in Hm as [s2 [cap2 Hm]].
      apply rmatch_cat_inv in Hm as [s3 [cap3 Hm]].
      apply rmatch_paper_id in Hm as [paper_id [rest [_ [Hshape Hm]]]].
      injection Hm as <-. now exists paper_id.
    - now apply match_at_group1 in Hm. }
  destruct (Re.search _ x) as [m|] eqn:E1.
  - intros [= <-].
    destruct (Hgroup _ m (or_introl eq_refl) E1) as [paper_id [Hg Hshape]].
    exists paper_id. unfold fmt_group1. now rewrite Hg.
  - destruct (Re.search (Re.Cat (Re.chars (lit "arxiv.org/"))
                          (Re.Group paper_id_re)) x) as [m|] eqn:E2;
      [|discriminate].
    intros [= <-].
    destruct (Hgroup _ m (or_intror eq_refl) E2) as [paper_id [Hg Hshape]].
    exists paper_id. unfold fmt_group1. now rewrite Hg.
Qed.

Lemma normalize_arxiv_url_shape_witness :
  exists paper_id,
    lit "https://arxiv.org/abs/0704.0001" = lit "https://arxiv.org/abs/" ++ paper_id
    /\ paper_id_shape paper_id = true.
Proof.
  apply (normalize_arxiv_url_shape (lit " arxiv.org/pdf/0704.0001.pdf")).
  reflexivity.
Defined.

(** ** Fixed points of the normaliser *)

Lemma dot_letter_false (c : ascii) :
  Py.islower_az c = true -> Ascii.eqb "." c = false.
Proof. by_ascii_cases c. Qed.

Lemma p_digit_or_dot_false (c : ascii) :
  digit_or_dot c = true -> Ascii.eqb "p" c = false.
Proof. by_ascii_cases c. Qed.

Lemma letter_not_digit_or_dot (c : ascii) :
  Py.islower_az c = true -> digit_or_dot c = false.
Proof. by_ascii_cases c. Qed.

Lemma id_char_not_space (c : ascii) :
  id_char c = true -> Py.isspace c = false.
Proof. by_ascii_cases c. Qed.

Lemma replace_pdf_letters (letters : str) :
  forallb Py.islower_az letters = true ->
  Py.replace_from 0 letters (lit ".pdf") [] = letters.
Proof.
  induction letters as [|c letters IH]; [reflexivity|].
  intros H. cbn [forallb] in H. apply andb_true_iff in H as [Hc H].
  cbn [Py.replace_from lit list_ascii_of_string Py.startswith].
  rewrite (dot_letter_false c Hc). cbn [andb]. f_equal. now apply IH.
Qed.

Lemma replace_pdf_id_letters (digits letters : str) :
  forallb digit_or_dot digits = true ->
  forallb Py.islower_az letters = true ->
  Py.startswith letters (lit "pdf") = false ->
  Py.replace_from 0 (digits ++ letters) (lit ".pdf") [] = digits ++ letters.
Proof.
  intros Hd Hl Hpdf. induction digits as [|c digits IH].
  - now apply replace_pdf_letters.
  - cbn [forallb] in Hd. apply andb_true_iff in Hd as [Hc Hd].
    cbn [app Py.replace_from].
    assert (E : Py.startswith (c :: digits ++ letters) (lit ".pdf") = false).
    { change (lit ".pdf") with ("."%char :: lit "pdf").
      cbn [Py.startswith].
      destruct (Ascii.eqb "." c); [|reflexivity]. cbn [andb].
      destruct digits as [|d digits]; [exact Hpdf|].
      cbn [forallb] in Hd. apply andb_true_iff in Hd as [Hd' _].
      cbn [app lit list_ascii_of_string Py.startswith].
      now rewrite (p_digit_or_dot_false d Hd'). }
    rewrite E. f_equal. now apply IH.
Qed.

(** X2.  An arXiv abstract URL whose identifier is digits and dots
    followed by lower-case letters (none, or not starting with pdf) is
    returned unchanged. *)
Theorem normalize_arxiv_url_fixed_point (digits letters : str) :
  digits <> [] ->
  forallb digit_or_dot digits = true ->
  forallb Py.islower_az letters = true ->
  Py.startswith letters (lit "pdf") = false ->
  normalize_arxiv_url (lit "https://arxiv.org/abs/" ++ digits ++ letters)
  = Some (lit "https://arxiv.org/abs/" ++ digits ++ letters).
Proof.
  intros Hne Hd Hl Hpdf. rewrite normalize_arxiv_url_eq.
  assert (Hrep : Py.replace (lit "https://arxiv.org/abs/" ++ digits ++ letters)
                   (lit ".pdf") []
                 = lit "https://arxiv.org/abs/" ++ digits ++ letters).
  { unfold Py.replace.
    cbn [lit list_ascii_of_string app Py.replace_from Py.startswith
         Ascii.eqb Bool.eqb andb].
    now rewrite replace_pdf_id_letters. }
  rewrite Hrep. unfold Py.strip.
  rewrite strip_by_id.
  - destruct digits as [|c digits]; [contradiction|].
    cbn [forallb] in Hd. apply andb_true_iff in Hd as [Hc Hd].
    unfold patterns. cbn [first_pattern].
    cbn [lit list_ascii_of_string app Re.search Re.match_at Re.chars Re.rmatch
         Re.first_some Ascii.eqb Bool.eqb paper_id_re].
    rewrite Hc.
    assert (Hrest : match letters with
                    | [] => true
                    | l :: _ => negb (digit_or_dot l)
                    end = true).
    { destruct letters as [|l letters]; [reflexivity|].
      cbn [forallb] in Hl. apply andb_true_iff in Hl as [Hl' _].
      now rewrite (letter_not_digit_or_dot l Hl'). }
    erewrite class_star_run;
      [| exact Hd | exact Hrest
       | erewrite class_star_all; [reflexivity | exact Hl | reflexivity]].
    cbn [Re.first_some fmt_group1 Re.group1].
    replace (length (c :: digits ++ letters) - length (@nil ascii))
      with (length (c :: digits ++ letters)) by (cbn [length]; lia).
    now rewrite firstn_all.
  - reflexivity.
  - rewrite rev_app_distr.
    assert (Hid : forallb id_char (digits ++ letters) = true).
    { rewrite forallb_app. apply andb_true_iff. split.
      - rewrite forallb_forall in *. intros x Hx. unfold id_char.
        now rewrite (Hd x Hx).
      - rewrite forallb_forall in *. intros x Hx. unfold id_char.
        rewrite (Hl x Hx). apply orb_true_r. }
    destruct (rev (digits ++ letters)) as [|c r] eqn:E.
    + apply (f_equal (@rev ascii)) in E. rewrite rev_involutive in E.
      destruct digits; [contradiction | discriminate].
    + cbn [app]. rewrite <- forallb_rev, E in Hid.
      cbn [forallb] in Hid. apply andb_true_iff in Hid as [Hc _].
      now rewrite id_char_not_space.
Qed.

Lemma normalize_arxiv_url_fixed_point_witness :
  normalize_arxiv_url (lit "https://arxiv.org/abs/" ++ lit "0704.0001" ++ lit "ab")
  = Some (lit "https://arxiv.org/abs/" ++ lit "0704.0001" ++ lit "ab").
Proof.
  apply normalize_arxiv_url_fixed_point; (reflexivity || discriminate).
Defined.

(** ** The shape of an extracted version *)

Lemma rmatch_digits_group (R : Type) (s : str) (cap : option str)
    (k : str -> option str -> option R) (x : R) :
  Re.rmatch (Re.Group (Re.Plus Py.isdigit)) s cap k = Some x ->
  exists d rest,
    s = d ++ rest /\ d <> [] /\ all_digits d = true
    /\ k rest (Some d) = Some x.
Proof.
  cbn [Re.rmatch]. intros H.
  destruct s as [|c s]; [discriminate|].
  destruct (Py.isdigit c) eqn:Hc; [|discriminate].
  apply class_star_inv in H as [run [rest [-> [Hrun H]]]].
  exists (c :: run), rest. split; [reflexivity|]. split; [discriminate|].
  split.
  - unfold all_digits. cbn [forallb]. now rewrite Hc, Hrun.
  - rewrite <- H. do 2 f_equal.
    change (c :: run ++ rest) with ((c :: run) ++ rest).
    now rewrite firstn_app_exact.
Qed.

Lemma match_at_history_group (s : str) (m : Re.match_obj) :
  Re.match_at history_version_re s = Some m ->
  exists d, Re.group1 m = Some d /\ d <> [] /\ all_digits d = true.
Proof.
  unfold Re.match_at, history_version_re. intros H.
  apply rmatch_cat_inv in H as [s1 [cap1 H]].
  apply (rmatch_digits_group _ s1 cap1
           (fun s2 cap2 =>
              Re.rmatch (Re.Chr "]") s2 cap2
                (fun s' cap =>
                   Some (Re.MatchObj (firstn (length s - length s') s) cap s'))))
    in H as [d [rest [_ [Hne [Hd H]]]]].
  cbn [Re.rmatch] in H. destruct rest as [|c rest]; [discriminate|].
  destruct (Ascii.eqb c "]"); [|discriminate].
  injection H as <-. now exists d.
Qed.

Lemma match_at_meta_group (s : str) (m : Re.match_obj) :
  Re.match_at meta_version_re s = Some m ->
  exists d, Re.group1 m = Some d /\ d <> [] /\ all_digits d = true.
Proof.
  unfold Re.match_at, meta_version_re. intros H.
  apply rmatch_cat_inv in H as [s1 [cap1 H]].
  apply rmatch_digits_group in H as [d [rest [_ [Hne [Hd H]]]]].
  injection H as <-. now exists d.
Qed.

(** Every marker [findall] reports is a run of digits. *)
Lemma findall_history_items (s : str) :
  forall (k : nat) (x : str),
    In x (Re.findall_from k history_version_re s) ->
    x <> [] /\ all_digits x = true.
Proof.
  induction s as [|c s IH]; intros k x Hx.
  - cbn [Re.findall_from] in Hx. destruct k; [|contradiction].
    change (Re.match_at history_version_re []) with (@None Re.match_obj) in Hx.
    contradiction.
  - cbn [Re.findall_from] in Hx. destruct k as [|k]; [|now apply IH in Hx].
    destruct (Re.match_at history_version_re (c :: s)) as [m|] eqn:E;
      [|now apply IH in Hx].
    destruct Hx as [<- | Hx]; [|now apply IH in Hx].
    apply match_at_history_group in E as [d [Hg [Hne Hd]]].
    unfold Re.findall_item. rewrite Hg.
    change (Re.has_group history_version_re) with true. now split.
Qed.

Lemma max_by_from_inv (A : Type) (key : A -> option Z) (xs : list A) :
  forall (best : A) (best_key : Z),
    match Py.max_by_from key best best_key xs with
    | Some m => In m (best :: xs)
    | None => exists x, In x xs /\ key x = None
    end.
Proof.
  induction xs as [|y xs IH]; intros best best_key; cbn [Py.max_by_from].
  - now left.
  - destruct (key y) as [k|] eqn:Ey.
    + destruct (best_key <? k)%Z.
      * specialize (IH y k).
        destruct (Py.max_by_from key y k xs) as [m|].
        -- now right.
        -- destruct IH as [x [Hx Hk]]. exists x. split; [now right | exact Hk].
      * specialize (IH best best_key).
        destruct (Py.max_by_from key best best_key xs) as [m|].
        -- destruct IH as [<- | Hin]; [now left | right; now right].
        -- destruct IH as [x [Hx Hk]]. exists x. split; [now right | exact Hk].
    + exists y. split; [now left | exact Ey].
Qed.

(** What [max] returns is one of the elements; when it raises, the key
    function raised on one of them. *)
Lemma max_by_inv (A : Type) (key : A -> option Z) (v : A) (versions : list A) :
  match Py.max_by key v versions with
  | Some m => In m (v :: versions)
  | None => exists x, In x (v :: versions) /\ key x = None
  end.
Proof.
  unfold Py.max_by. destruct (key v) as [k|] eqn:Ev.
  - pose proof (max_by_from_inv A key versions v k) as H.
    destruct (Py.max_by_from key v k versions) as [m|]; [exact H|].
    destruct H as [x [Hx Hk]]. exists x. split; [now right | exact Hk].
  - exists v. split; [now left | exact Ev].
Qed.

Lemma int_digits_none (s : str) :
  s <> [] -> all_digits s = true -> Py.int s = None ->
  Py.max_str_digits < length s.
Proof.
  intros Hne Hd Hint.
  destruct (le_lt_dec (length s) Py.max_str_digits) as [Hle | Hlt]; [|exact Hlt].
  rewrite int_digits in Hint by assumption. discriminate.
Qed.

(** X3.  Whatever the page, [_extract_version] returns the empty string
    or the letter v followed by one or more digits, or it raises
    [ValueError]; it raises exactly when the page has a
    submission-history block with a version marker of more digits than
    [int] accepts. *)
Theorem extract_version_shape (soup : Bs4.node) :
  match _extract_version soup with
  | Ok version =>
      version = []
      \/ exists d : str, d <> [] /\ all_digits d = true /\ version = lit "v" ++ d
  | Raised e => e = ValueError
  end
  /\ ((exists e, _extract_version soup = Raised e)
      <-> exists (history : Bs4.node) (marker : str),
            Bs4.find soup (lit "div") (Bs4.has_class (lit "submission-history"))
              = Some history
            /\ In marker
                 (Re.findall history_version_re (Bs4.get_text history [] false))
            /\ Py.max_str_digits < length marker).
Proof.
  assert (Hmeta :
    match
      match Bs4.find soup (lit "meta")
              (Bs4.has_attr_value (lit "property") (lit "og:url")) with
      | Some meta_url =>
          match Bs4.get meta_url (lit "content") with
          | Some ((_ :: _) as content) =>
              match Re.search meta_version_re content with
              | Some version_match => Ok (lit "v" ++ fmt_group1 version_match)
              | None => Ok []
              end
          | _ => Ok []
          end
      | None => Ok []
      end
    with
    | Ok version =>
        version = []
        \/ exists d : str,
             d <> [] /\ all_digits d = true /\ version = lit "v" ++ d
    | Raised _ => False
    end).
  { destruct (Bs4.find soup (lit "meta") _) as [meta_url|]; [|now left].
    destruct (Bs4.get meta_url (lit "content")) as [[|c content]|];
      [now left | | now left].
    destruct (Re.search meta_version_re (c :: content)) as [m|] eqn:Es;
      [|now left].
    apply search_inv in Es as [a [y [_ Hm]]].
    apply match_at_meta_group in Hm as [d [Hg [Hne Hd]]].
    right. exists d. unfold fmt_group1. now rewrite Hg. }
  unfold _extract_version.
  destruct (Bs4.find soup (lit "div") _) as [history|].
  - destruct (Re.findall history_version_re _) as [|v versions] eqn:E.
    + cbv beta iota zeta.
      match goal with |- match ?r with Ok _ => _ | Raised _ => _ end /\ _ =>
        change (match r with
                | Ok version =>
                    version = []
                    \/ exists d : str,
                         d <> [] /\ all_digits d = true /\ version = lit "v" ++ d
                | Raised _ => False
                end) in Hmeta;
        destruct r as [version | e]
      end; [|contradiction].
      split; [exact Hmeta|]. split.
      * intros [e He]. discriminate He.
      * intros [h [m [Hh [Hin _]]]]. injection Hh as <-.
        rewrite E in Hin. contradiction.
    + pose proof (max_by_inv str Py.int v versions) as Hmax.
      assert (Hitems : forall x, In x (v :: versions) ->
                                 x <> [] /\ all_digits x = true).
      { intros x Hx. rewrite <- E in Hx.
        now apply findall_history_items in Hx. }
      destruct (Py.max_by Py.int v versions) as [latest|] eqn:Em.
      * split.
        -- right. exists latest. destruct (Hitems latest Hmax). now repeat split.
        -- split; [intros [e He]; discriminate He|].
           intros [h [m [Hh [Hin Hlen]]]]. injection Hh as <-.
           rewrite E in Hin. destruct (Hitems m Hin) as [_ Hd].
           rewrite (max_by_raises str Py.int v versions m Hin
                      (int_digits_over_limit m Hd Hlen)) in Em.
           discriminate.
      * split; [reflexivity|]. split; [|intros _; now eexists].
        intros _. destruct Hmax as [x [Hx Hint]].
        exists history, x. split; [reflexivity|].
        split; [now rewrite E|].
        destruct (Hitems x Hx). now apply int_digits_none.
  - cbv beta iota zeta.
    match goal with |- match ?r with Ok _ => _ | Raised _ => _ end /\ _ =>
      change (match r with
              | Ok version =>
                  version = []
                  \/ exists d : str,
                       d <> [] /\ all_digits d = true /\ version = lit "v" ++ d
              | Raised _ => False
              end) in Hmeta;
      destruct r as [version | e]
    end; [|contradiction].
    split; [exact Hmeta|]. split.
    + intros [e He]. discriminate He.
    + intros [h [m [Hh _]]]. discriminate Hh.
Qed.

Lemma extract_version_shape_witness :
  exists e, _extract_version long_marker_page = Raised e.
Proof.
  apply (proj2 (proj2 (extract_version_shape long_marker_page))).
  exists (Bs4.Tag (lit "div") [(lit "class", lit "submission-history")]
            [Bs4.NavigableString
               (lit "[v1] Mon [v" ++ repeat "1"%char 4301 ++ lit "] Tue")]),
    (repeat "1"%char 4301).
  split; [reflexivity|]. split.
  - vm_compute. right. left. reflexivity.
  - vm_compute. apply Nat.leb_le. vm_compute. reflexivity.
Defined.

(** X4.  A submission-history block in whose text no version marker
    starts counts as absent: the version is then the v-number of the
    [og:url] meta tag, and the empty string without such a tag. *)
Theorem extract_version_history_without_marker (soup history : Bs4.node) :
  Bs4.find soup (lit "div") (Bs4.has_class (lit "submission-history"))
    = Some history ->
  marker_free (Bs4.get_text history [] false) = true ->
  (forall (meta_url : Bs4.node) (pre d post : str),
      Bs4.find soup (lit "meta")
        (Bs4.has_attr_value (lit "property") (lit "og:url")) = Some meta_url ->
      Bs4.get meta_url (lit "content") = Some (pre ++ lit "v" ++ d ++ post) ->
      v_then_digit (pre ++ lit "v") = false ->
      d <> [] -> all_digits d = true -> starts_without_digit post = true ->
      _extract_version soup = Ok (lit "v" ++ d))
  /\ (Bs4.find soup (lit "meta")
        (Bs4.has_attr_value (lit "property") (lit "og:url")) = None ->
      _extract_version soup = Ok []).
Proof.
  intros Hfind Hfree. unfold _extract_version.
  rewrite Hfind, (findall_history_tail _ Hfree). split.
  - intros meta_url pre d post Hmeta Hcontent Hpre Hne Hd Hpost.
    rewrite Hmeta, Hcontent.
    rewrite search_meta_marker by assumption.
    destruct (pre ++ lit "v" ++ d ++ post) eqn:E; [|reflexivity].
    destruct pre; discriminate.
  - now intros ->.
Qed.

Lemma extract_version_history_without_marker_witness :
  _extract_version
    (Bs4.Tag (lit "[document]") []
       [Bs4.Tag (lit "meta")
          [(lit "property", lit "og:url");
           (lit "content", lit "https://arxiv.org/abs/0704.0001v3")] [];
        Bs4.Tag (lit "div") [(lit "class", lit "submission-history")]
          [Bs4.NavigableString (lit "From: A [view email]")]])
  = Ok (lit "v3").
Proof.
  match goal with |- _extract_version ?soup = _ =>
    apply (proj1 (extract_version_history_without_marker soup
                    (Bs4.Tag (lit "div") [(lit "class", lit "submission-history")]
                       [Bs4.NavigableString (lit "From: A [view email]")])
                    eq_refl eq_refl)
             (Bs4.Tag (lit "meta")
                [(lit "property", lit "og:url");
                 (lit "content", lit "https://arxiv.org/abs/0704.0001v3")] [])
             (lit "https://arxiv.org/abs/0704.0001") (lit "3") [])
  end; try reflexivity; discriminate.
Defined.

(** ** The license classifier, further *)

(** X5.  The license name is always one of the eight labels of the
    taxonomy: the two sentinels and the six names of the table. *)
Theorem map_license_taxonomy (license_url : option str) :
  In (map_license license_url)
     (lit "Unknown" :: lit "Other/Unmapped" :: map snd LICENSE_MAPPINGS).
Proof.
  destruct license_url as [[|c u]|]; [now left | | now left].
  rewrite map_license_nonempty by discriminate.
  destruct (first_mapping_range LICENSE_MAPPINGS (Py.strip (Py.lower (c :: u))))
    as [-> | H].
  - right. now left.
  - right. now right.
Qed.

Lemma lower_char_space (c : ascii) :
  Py.isspace c = true -> Py.isspace (Py.lower_char c) = true.
Proof. by_ascii_cases c. Qed.

Lemma lower_all_space (ws : str) :
  all_space ws = true -> all_space (Py.lower ws) = true.
Proof.
  unfold all_space, Py.lower. rewrite !forallb_forall. intros H c Hc.
  apply in_map_iff in Hc as [x [<- Hx]]. now apply lower_char_space, H.
Qed.

Lemma strip_all_space (ws : str) :
  all_space ws = true -> Py.strip ws = [].
Proof.
  intros H. unfold Py.strip, Py.strip_by.
  now rewrite (lstrip_by_all Py.isspace ws H).
Qed.

(** X6.  The classification does not depend on letter case or on white
    space around the URL; a URL of white space only is not absent: it
    is classified ["Other/Unmapped"]. *)
Theorem map_license_case_and_space :
  (forall a b ws1 ws2 : str,
      a <> [] -> Py.lower a = Py.lower b ->
      all_space ws1 = true -> all_space ws2 = true ->
      map_license (Some (ws1 ++ a ++ ws2)) = map_license (Some b))
  /\ (forall ws : str,
        ws <> [] -> all_space ws = true ->
        map_license (Some ws) = lit "Other/Unmapped").
Proof.
  split.
  - intros a b ws1 ws2 Ha Hlow H1 H2.
    assert (Hb : b <> []).
    { intros ->. destruct a; [contradiction | discriminate]. }
    rewrite !map_license_nonempty; [| exact Hb | destruct ws1, a; try discriminate; contradiction].
    f_equal. unfold Py.lower at 1. rewrite !map_app.
    fold (Py.lower ws1) (Py.lower a) (Py.lower ws2).
    unfold Py.strip. rewrite strip_by_surround by now apply lower_all_space.
    now rewrite Hlow.
  - intros ws Hne Hws. rewrite map_license_nonempty by exact Hne.
    now rewrite (strip_all_space _ (lower_all_space ws Hws)).
Qed.

Lemma map_license_case_and_space_witness :
  map_license (Some (lit " " ++ lit "HTTP://ARXIV.ORG/licenses/assumed-1991-2003/" ++ lit " "))
  = map_license (Some (lit "http://arxiv.org/licenses/assumed-1991-2003/"))
  /\ map_license (Some (lit "  ")) = lit "Other/Unmapped".
Proof.
  destruct map_license_case_and_space as [Hcase Hblank]. split.
  - apply Hcase; (reflexivity || discriminate).
  - apply Hblank; (reflexivity || discriminate).
Defined.

(** ** License links *)

Lemma startswith_slash (u : str) :
  Py.startswith u (lit "/") =
  match u with c :: _ => Ascii.eqb "/" c | [] => false end.
Proof. destruct u as [|c u]; [reflexivity|]. cbn. apply andb_true_r. Qed.

Lemma normalize_url_fixed (u : str) :
  Py.startswith u (lit "/") = false -> _normalize_url u = u.
Proof.
  intros H. unfold _normalize_url. rewrite H.
  rewrite startswith_slash in H.
  destruct u as [|a u]; [reflexivity|].
  cbn [lit list_ascii_of_string Py.startswith]. now rewrite H.
Qed.

Lemma normalize_url_no_slash (url : str) :
  Py.startswith (_normalize_url url) (lit "/") = false.
Proof.
  unfold _normalize_url.
  destruct (Py.startswith url (lit "//")); [reflexivity|].
  destruct (Py.startswith url (lit "/")) eqn:E; [reflexivity | exact E].
Qed.

Lemma normalize_url_nonempty (url : str) :
  url <> [] -> _normalize_url url <> [].
Proof.
  intros Hne. unfold _normalize_url.
  destruct (Py.startswith url (lit "//")); [discriminate|].
  destruct (Py.startswith url (lit "/")); [discriminate | exact Hne].
Qed.

(** X7.  [_normalize_url] only prepends: the scheme to a
    protocol-relative URL, the arXiv host to a path.  Its result never
    starts with a slash, it keeps a URL without a leading slash as it
    is, so applying it twice changes nothing, and it never returns the
    empty string for a URL that is not empty. *)
Theorem normalize_url_absolute (url : str) :
  (exists scheme_host, _normalize_url url = scheme_host ++ url)
  /\ Py.startswith (_normalize_url url) (lit "/") = false
  /\ (Py.startswith url (lit "/") = false -> _normalize_url url = url)
  /\ _normalize_url (_normalize_url url) = _normalize_url url
  /\ (url <> [] -> _normalize_url url <> []).
Proof.
  split; [|split; [apply normalize_url_no_slash
                  | split; [apply normalize_url_fixed | split]]].
  - unfold _normalize_url.
    destruct (Py.startswith url (lit "//")); [now exists (lit "https:")|].
    destruct (Py.startswith url (lit "/")); [now exists (lit "https://arxiv.org")|].
    now exists [].
  - apply normalize_url_fixed, normalize_url_no_slash.
  - apply normalize_url_nonempty.
Qed.

Lemma normalize_url_absolute_witness :
  _normalize_url (lit "https://creativecommons.org/licenses/by/4.0/")
  = lit "https://creativecommons.org/licenses/by/4.0/"
  /\ _normalize_url (lit "/licenses/by/4.0/") <> [].
Proof.
  split.
  - apply (proj1 (proj2 (proj2 (normalize_url_absolute
                                  (lit "https://creativecommons.org/licenses/by/4.0/"))))).
    reflexivity.
  - apply (proj2 (proj2 (proj2 (proj2 (normalize_url_absolute
                                         (lit "/licenses/by/4.0/")))))).
    discriminate.
Defined.

Lemma filter_head (A : Type) (p : A -> bool) (l : list A) (x : A) (tl : list A) :
  filter p l = x :: tl -> p x = true.
Proof.
  intros H. assert (Hin : In x (filter p l)) by (rewrite H; now left).
  now apply filter_In in Hin.
Qed.

(** A license URL, when one is found, is not empty and has no leading
    slash. *)
Lemma extract_license_url_absolute (soup : Bs4.node) (u : str) :
  _extract_license_url soup = Some u ->
  u <> [] /\ Py.startswith u (lit "/") = false.
Proof.
  unfold _extract_license_url.
  set (links := Bs4.find_all soup (lit "a") (Bs4.has_attr (lit "href"))).
  set (p := fun link : Bs4.node =>
              match Bs4.get link (lit "href") with
              | Some href => Py.contains (lit "/licenses/") href
              | None => false
              end).
  assert (Hfallback :
            match filter p links with
            | link :: _ => option_map _normalize_url (Bs4.get link (lit "href"))
            | [] => None
            end = Some u ->
            u <> [] /\ Py.startswith u (lit "/") = false).
  { destruct (filter p links) as [|link tl] eqn:E; [discriminate|].
    apply filter_head in E. unfold p in E.
    destruct (Bs4.get link (lit "href")) as [href|]; [|discriminate].
    cbn [option_map]. intros [= <-]. split.
    - apply normalize_url_nonempty. intros ->. discriminate E.
    - apply normalize_url_no_slash. }
  destruct (Bs4.find soup (lit "a") _) as [license_link|]; [|exact Hfallback].
  destruct (Bs4.get license_link (lit "href")) as [[|c href]|];
    [exact Hfallback | | exact Hfallback].
  intros [= <-]. split.
  - apply normalize_url_nonempty. discriminate.
  - apply normalize_url_no_slash.
Qed.

Lemma map_license_unknown_iff (license_url : option str) :
  map_license license_url = lit "Unknown"
  <-> license_url = None \/ license_url = Some [].
Proof.
  split.
  - destruct license_url as [[|c u]|]; [now right | | now left].
    rewrite map_license_nonempty by discriminate.
    intros H. exfalso.
    destruct (first_mapping_range LICENSE_MAPPINGS
                (Py.strip (Py.lower (c :: u)))) as [R | R];
      rewrite H in R; [discriminate R|].
    simpl in R. repeat (destruct R as [R | R]; [discriminate R|]).
    exact R.
  - intros [-> | ->]; reflexivity.
Qed.

Lemma extract_metadata_license (BeautifulSoup : str -> Bs4.node) (html : str)
    (metadata : Metadata) :
  extract_metadata BeautifulSoup html = Ok metadata ->
  md_license_url metadata = _extract_license_url (BeautifulSoup html).
Proof.
  unfold extract_metadata.
  destruct (_extract_version (BeautifulSoup html)); [|discriminate].
  now intros [= <-].
Qed.

(** X8.  In a row built from a fetched page, the license URL is absent
    or an absolute URL (not empty, no leading slash), and the license
    name is ["Unknown"] exactly when the license URL is absent. *)
Theorem fetched_row_license (BeautifulSoup : str -> Bs4.node)
    (doc_id abs_url html : str) (metadata : Metadata) :
  extract_metadata BeautifulSoup html = Ok metadata ->
  let row := create_result_row doc_id abs_url metadata in
  (forall u, license_url row = Some u ->
             u <> [] /\ Py.startswith u (lit "/") = false)
  /\ (license_name row = lit "Unknown" <-> license_url row = None).
Proof.
  intros Hmd.
  cbn [create_result_row license_url license_name].
  rewrite (extract_metadata_license _ _ _ Hmd).
  split; [apply extract_license_url_absolute|].
  rewrite map_license_unknown_iff. split; [|now left].
  intros [H | H]; [exact H|].
  apply extract_license_url_absolute in H. now destruct H.
Qed.

Lemma fetched_row_license_witness :
  let page (_ : str) :=
    Bs4.Tag (lit "[document]") []
      [Bs4.Tag (lit "a") [(lit "rel", lit "license");
                          (lit "href", lit "/licenses/nonexclusive-distrib/1.0/")]
         []] in
  exists metadata,
    extract_metadata page (lit "<html>") = Ok metadata
    /\ license_url (create_result_row (lit "PN0060987")
                      (lit "https://arxiv.org/abs/0704.0001") metadata)
       = Some (lit "https://arxiv.org/licenses/nonexclusive-distrib/1.0/")
    /\ Py.startswith (lit "https://arxiv.org/licenses/nonexclusive-distrib/1.0/")
         (lit "/")
       = false.
Proof.
  intros page. eexists. split; [reflexivity|]. split; [reflexivity|].
  apply (proj1 (fetched_row_license page (lit "PN0060987")
                  (lit "https://arxiv.org/abs/0704.0001") (lit "<html>") _ eq_refl)
           (lit "https://arxiv.org/licenses/nonexclusive-distrib/1.0/") eq_refl).
Defined.

(** ** Text fields *)

Lemma stripped_strip (s : str) : stripped (Py.strip s) = true.
Proof.
  unfold stripped, Py.strip, Py.strip_by.
  assert (Hl : forall x, match Py.lstrip_by Py.isspace x with
                         | [] => true
                         | c :: _ => negb (Py.isspace c)
                         end = true).
  { induction x as [|c x IH]; [reflexivity|].
    cbn [Py.lstrip_by]. destruct (Py.isspace c) eqn:E; [exact IH|].
    now rewrite E. }
  apply andb_true_iff. split.
  - set (t := Py.lstrip_by Py.isspace s).
    pose proof (Hl s) as Hs. fold t in Hs.
    destruct (lstrip_by_suffix Py.isspace (rev t)) as [a Ha].
    destruct (rev (Py.lstrip_by Py.isspace (rev t))) as [|c r] eqn:E; [reflexivity|].
    apply (f_equal (@rev ascii)) in Ha.
    rewrite rev_involutive, rev_app_distr, E in Ha.
    rewrite Ha in Hs. exact Hs.
  - rewrite rev_involutive. apply Hl.
Qed.

Lemma join_nonempty (sep : str) (parts : list str) :
  parts <> [] -> (forall p, In p parts -> p <> []) ->
  Py.join sep parts <> [].
Proof.
  destruct parts as [|p [|q parts]]; intros Hne H; [contradiction | |].
  - apply H. now left.
  - cbn [Py.join]. intros E. apply app_eq_nil in E as [E _].
    revert E. apply H. now left.
Qed.

Lemma stripped_parts (a b c : str) :
  a <> [] -> c <> [] -> stripped a = true -> stripped c = true ->
  stripped (a ++ b ++ c) = true.
Proof.
  intros Ha Hc Sa Sc. unfold stripped in *.
  apply andb_true_iff in Sa as [Sa _]. apply andb_true_iff in Sc as [_ Sc].
  apply andb_true_iff. split.
  - destruct a; [contradiction | exact Sa].
  - rewrite !rev_app_distr.
    destruct (rev c) as [|x r] eqn:E; [|exact Sc].
    apply (f_equal (@rev ascii)) in E. rewrite rev_involutive in E. contradiction.
Qed.

(** Joining pieces that are stripped and not empty gives a stripped
    string, whatever the separator. *)
Lemma stripped_join (sep : str) (parts : list str) :
  (forall p, In p parts -> p <> [] /\ stripped p = true) ->
  stripped (Py.join sep parts) = true.
Proof.
  induction parts as [|p parts IH]; intros H; [reflexivity|].
  destruct parts as [|q parts].
  - cbn [Py.join]. apply H. now left.
  - change (Py.join sep (p :: q :: parts))
      with (p ++ sep ++ Py.join sep (q :: parts)).
    apply stripped_parts.
    + apply H. now left.
    + apply join_nonempty; [discriminate|].
      intros x Hx. apply H. now right.
    + apply H. now left.
    + apply IH. intros x Hx. apply H. now right.
Qed.

Lemma stripped_get_text (n : Bs4.node) (sep : str) :
  stripped (Bs4.get_text n sep true) = true.
Proof.
  unfold Bs4.get_text. apply stripped_join. intros p Hp.
  apply filter_In in Hp as [Hp Hne].
  apply in_map_iff in Hp as [x [<- _]]. split.
  - intros E. rewrite E in Hne. discriminate Hne.
  - apply stripped_strip.
Qed.

(** X9.  Title, comments, subjects, journal reference and DOI, as
    extracted from any page, neither start nor end with white space. *)
Theorem text_fields_stripped (soup : Bs4.node) :
  stripped (_extract_title soup) = true
  /\ stripped (_extract_comments soup) = true
  /\ stripped (_extract_subjects soup) = true
  /\ stripped (_extract_journal_ref soup) = true
  /\ stripped (_extract_doi soup) = true.
Proof.
  unfold _extract_title, _extract_comments, _extract_subjects,
    _extract_journal_ref, _extract_doi.
  repeat split.
  - destruct (Bs4.find soup (lit "h1") _) as [title_tag|]; [|reflexivity].
    destruct (Py.startswith _ (lit "title:"));
      [apply stripped_strip | apply stripped_get_text].
  - destruct (Bs4.find soup (lit "td") _); [apply stripped_get_text | reflexivity].
  - destruct (Bs4.find soup (lit "td") _); [apply stripped_get_text | reflexivity].
  - destruct (Bs4.find soup (lit "td") _); [apply stripped_get_text | reflexivity].
  - destruct (Bs4.find soup (lit "td") _) as [doi_td|]; [|reflexivity].
    destruct (Bs4.find doi_td (lit "a") _); [apply stripped_get_text | reflexivity].
Qed.

(** ** Pages without metadata *)

Lemma find_all_absent (soup : Bs4.node) (name : str) (p : Bs4.node -> bool) :
  without_searched_tags soup = true -> In name searched_tags ->
  Bs4.find_all soup name p = [].
Proof.
  unfold without_searched_tags, Bs4.find_all. intros H Hname.
  rewrite forallb_forall in H.
  induction (Bs4.descendants soup) as [|d ds IH]; [reflexivity|].
  cbn [filter].
  assert (Hd : Bs4.named name d = false).
  { specialize (H d (or_introl eq_refl)). apply negb_true_iff in H.
    destruct (Bs4.named name d) eqn:E; [|reflexivity].
    assert (Hex : existsb (fun nm => Bs4.named nm d) searched_tags = true).
    { apply existsb_exists. now exists name. }
    rewrite Hex in H. discriminate. }
  rewrite Hd. cbn [andb]. apply IH. intros x Hx. apply H. now right.
Qed.

Lemma find_absent (soup : Bs4.node) (name : str) (p : Bs4.node -> bool) :
  without_searched_tags soup = true -> In name searched_tags ->
  Bs4.find soup name p = None.
Proof.
  intros H Hname. unfold Bs4.find. now rewrite find_all_absent.
Qed.

(** X10.  On a page that has none of the tags the extractors look for
    the extraction returns, and the row built from it is equal to the
    empty row of a failed request: in the ledger the two cannot be told
    apart. *)
Theorem fetched_row_without_metadata (BeautifulSoup : str -> Bs4.node)
    (doc_id abs_url html : str) :
  without_searched_tags (BeautifulSoup html) = true ->
  exists metadata,
    extract_metadata BeautifulSoup html = Ok metadata
    /\ create_result_row doc_id abs_url metadata
       = _create_empty_result doc_id abs_url.
Proof.
  intros H.
  assert (Hf : forall name p, In name searched_tags ->
                 Bs4.find (BeautifulSoup html) name p = None).
  { intros name p Hn. now apply find_absent. }
  assert (Hfa : forall name p, In name searched_tags ->
                  Bs4.find_all (BeautifulSoup html) name p = []).
  { intros name p Hn. now apply find_all_absent. }
  unfold extract_metadata.
  assert (Hv : _extract_version (BeautifulSoup html) = Ok []).
  { unfold _extract_version. now rewrite !Hf by (cbn; tauto). }
  rewrite Hv. eexists. split; [reflexivity|].
  unfold create_result_row, _create_empty_result.
  cbn [md_license_url md_version md_title md_authors md_comments md_subjects
       md_journal_ref md_related_doi].
  unfold _extract_license_url, _extract_title, _extract_authors,
    _extract_comments, _extract_subjects, _extract_journal_ref, _extract_doi.
  rewrite !Hf, !Hfa by (cbn; tauto).
  reflexivity.
Qed.

Lemma fetched_row_without_metadata_witness :
  let page (_ : str) :=
    Bs4.Tag (lit "[document]") []
      [Bs4.Tag (lit "p") [] [Bs4.NavigableString (lit "Not found")]] in
  exists metadata,
    extract_metadata page (lit "<p>Not found</p>") = Ok metadata
    /\ create_result_row (lit "PN0060987") (lit "https://arxiv.org/abs/0704.0001")
         metadata
       = _create_empty_result (lit "PN0060987")
           (lit "https://arxiv.org/abs/0704.0001").
Proof.
  intros page. apply fetched_row_without_metadata. reflexivity.
Defined.

(** ** The archive file name *)

Lemma unsafe_underscore : unsafe_char "_" = false.
Proof. reflexivity. Qed.

(** X11.  The archive file name of a document has none of the
    characters the file system refuses; it is as long as the
    identifier, equal to it when the identifier has no such character,
    and sanitising twice changes nothing. *)
Theorem safe_filename_safe (doc_id : str) :
  forallb (fun c => negb (unsafe_char c)) (safe_filename doc_id) = true
  /\ length (safe_filename doc_id) = length doc_id
  /\ safe_filename (safe_filename doc_id) = safe_filename doc_id
  /\ (forallb (fun c => negb (unsafe_char c)) doc_id = true ->
      safe_filename doc_id = doc_id).
Proof.
  unfold safe_filename. repeat split.
  - induction doc_id as [|c doc_id IH]; [reflexivity|].
    cbn [map forallb]. rewrite IH, andb_true_r.
    destruct (unsafe_char c) eqn:E; [reflexivity | now rewrite E].
  - apply length_map.
  - induction doc_id as [|c doc_id IH]; [reflexivity|].
    cbn [map]. rewrite IH. f_equal.
    destruct (unsafe_char c) eqn:E; [reflexivity | now rewrite E].
  - induction doc_id as [|c doc_id IH]; [reflexivity|].
    cbn [map forallb]. intros H. apply andb_true_iff in H as [Hc H].
    apply negb_true_iff in Hc. rewrite Hc. f_equal. now apply IH.
Qed.

Lemma safe_filename_safe_witness :
  safe_filename (lit "PN0060987") = lit "PN0060987".
Proof.
  apply (proj2 (proj2 (proj2 (safe_filename_safe (lit "PN0060987"))))).
  reflexivity.
Defined.

(** ** The loaded list *)

Lemma insert_by_key_perm (x : Document) (l : list Document) :
  Permutation (insert_by_key x l) (x :: l).
Proof.
  induction l as [|y l IH]; cbn [insert_by_key]; [reflexivity|].
  destruct (snd x <=? snd y)%Z; [reflexivity|].
  rewrite IH. apply perm_swap.
Qed.

Lemma sort_by_key_perm (l : list Document) : Permutation (sort_by_key l) l.
Proof.
  unfold sort_by_key. induction l as [|x l IH]; cbn [fold_right]; [reflexivity|].
  rewrite insert_by_key_perm. now constructor.
Qed.

Lemma insert_by_key_sorted (x : Document) (l : list Document) :
  StronglySorted key_le l -> StronglySorted key_le (insert_by_key x l).
Proof.
  induction 1 as [|y l Hl IH Hy]; cbn [insert_by_key].
  - repeat constructor.
  - destruct (snd x <=? snd y)%Z eqn:E.
    + apply Z.leb_le in E. constructor; [now constructor|].
      constructor; [exact E|].
      rewrite Forall_forall in *. intros z Hz. specialize (Hy z Hz).
      unfold key_le in *. lia.
    + apply Z.leb_gt in E. constructor; [exact IH|].
      rewrite Forall_forall in *. intros z Hz.
      apply (Permutation_in _ (insert_by_key_perm x l)) in Hz.
      destruct Hz as [<- | Hz]; [unfold key_le; lia | now apply Hy].
Qed.

Lemma sort_by_key_sorted (l : list Document) : StronglySorted key_le (sort_by_key l).
Proof.
  unfold sort_by_key. induction l as [|x l IH]; cbn [fold_right]; [constructor|].
  now apply insert_by_key_sorted.
Qed.

Lemma insert_by_key_stable (k : Z) (x : Document) (l : list Document) :
  filter (has_key k) (insert_by_key x l) = filter (has_key k) (x :: l).
Proof.
  induction l as [|y l IH]; cbn [insert_by_key]; [reflexivity|].
  destruct (snd x <=? snd y)%Z eqn:E; [reflexivity|].
  apply Z.leb_gt in E. cbn [filter] in *. rewrite IH.
  unfold has_key.
  destruct (snd x =? k)%Z eqn:Ex; [|reflexivity].
  apply Z.eqb_eq in Ex.
  destruct (snd y =? k)%Z eqn:Ey; [|reflexivity].
  apply Z.eqb_eq in Ey. lia.
Qed.

Lemma sort_by_key_stable (k : Z) (l : list Document) :
  filter (has_key k) (sort_by_key l) = filter (has_key k) l.
Proof.
  unfold sort_by_key. induction l as [|x l IH]; cbn [fold_right]; [reflexivity|].
  rewrite insert_by_key_stable. cbn [filter]. now rewrite IH.
Qed.

(** X12.  The loaded list is in ascending order of numeric key, holds
    exactly the documents collected from the source rows, and keeps
    documents with the same key in the order of the source list. *)
Theorem loaded_documents_sorted (cfg : Config) (rows : list (list str)) :
  StronglySorted key_le (loaded_documents cfg rows)
  /\ Permutation (loaded_documents cfg rows) (collect_documents cfg rows)
  /\ forall k : Z,
       filter (has_key k) (loaded_documents cfg rows)
       = filter (has_key k) (collect_documents cfg rows).
Proof.
  unfold loaded_documents. split; [apply sort_by_key_sorted|].
  split; [apply sort_by_key_perm | intros k; apply sort_by_key_stable].
Qed.

Lemma collect_documents_In (cfg : Config) (rows : list (list str)) (d : Document) :
  In d (collect_documents cfg rows)
  <-> exists row, In row rows /\ row_document cfg row = Some d.
Proof.
  induction rows as [|row rows IH]; cbn [collect_documents].
  - split; [contradiction | intros [row [[] _]]].
  - destruct (row_document cfg row) as [d0|] eqn:E.
    + cbn [In]. rewrite IH. split.
      * intros [<- | [r [Hr Hd]]]; [exists row; split; [now left | exact E]|].
        exists r. split; [now right | exact Hd].
      * intros [r [[<- | Hr] Hd]].
        -- left. congruence.
        -- right. now exists r.
    + rewrite IH. split.
      * intros [r [Hr Hd]]. exists r. split; [now right | exact Hd].
      * intros [r [[<- | Hr] Hd]]; [congruence | now exists r].
Qed.

Lemma row_document_facts (cfg : Config) (row : list str)
    (doc_id url : str) (key : Z) :
  row_document cfg row = Some (doc_id, url, key) ->
  (START_DOC_ID cfg <= key <= END_DOC_ID cfg)%Z
  /\ extract_numeric_id doc_id = Some key
  /\ url <> [] /\ stripped url = true /\ stripped doc_id = true
  /\ Nat.max (DOC_ID_COLUMN cfg) (ABSTRACT_URL_COLUMN cfg) < length row
  /\ doc_id = Py.strip (nth (DOC_ID_COLUMN cfg) row [])
  /\ url = Py.strip (nth (ABSTRACT_URL_COLUMN cfg) row []).
Proof.
  unfold row_document.
  destruct (length row <=? Nat.max _ _) eqn:El; [discriminate|].
  apply Nat.leb_gt in El.
  destruct (Py.strip (nth (ABSTRACT_URL_COLUMN cfg) row [])) as [|c u] eqn:Eu;
    [discriminate|].
  destruct (extract_numeric_id _) as [n|] eqn:En; [|discriminate].
  destruct ((START_DOC_ID cfg <=? n)%Z && (n <=? END_DOC_ID cfg)%Z) eqn:Er;
    [|discriminate].
  intros [= <- <- <-].
  apply andb_true_iff in Er as [E1 E2].
  apply Z.leb_le in E1. apply Z.leb_le in E2.
  repeat split; try assumption; try discriminate.
  - rewrite <- Eu. apply stripped_strip.
  - apply stripped_strip.
Qed.

(** X13.  A document is loaded exactly when some source row yields it;
    such a row has more columns than the larger of the two column
    indices, its identifier and URL are the stripped cells, the URL is
    not empty, and the numeric key is the resolved identifier and lies
    in the configured range. *)
Theorem loaded_documents_members (cfg : Config) (rows : list (list str)) :
  (forall d : Document,
      In d (loaded_documents cfg rows)
      <-> exists row, In row rows /\ row_document cfg row = Some d)
  /\ (forall (doc_id url : str) (key : Z),
        In (doc_id, url, key) (loaded_documents cfg rows) ->
        (START_DOC_ID cfg <= key <= END_DOC_ID cfg)%Z
        /\ extract_numeric_id doc_id = Some key
        /\ url <> [] /\ stripped url = true /\ stripped doc_id = true).
Proof.
  assert (Hin : forall d, In d (loaded_documents cfg rows)
                          <-> exists row, In row rows /\ row_document cfg row = Some d).
  { intros d. rewrite <- collect_documents_In. unfold loaded_documents. split.
    - apply Permutation_in, sort_by_key_perm.
    - apply Permutation_in, Permutation_sym, sort_by_key_perm. }
  split; [exact Hin|].
  intros doc_id url key Hd. apply Hin in Hd as [row [_ Hrow]].
  apply row_document_facts in Hrow. tauto.
Qed.

Lemma loaded_documents_members_witness :
  (START_DOC_ID class_config <= 60987 <= END_DOC_ID class_config)%Z
  /\ extract_numeric_id (lit "PN0060987") = Some 60987%Z
  /\ lit "http://example.org/paper.pdf" <> []
  /\ stripped (lit "http://example.org/paper.pdf") = true
  /\ stripped (lit "PN0060987") = true.
Proof.
  apply (proj2 (loaded_documents_members class_config rows_one_foreign_url)
           (lit "PN0060987") (lit "http://example.org/paper.pdf") 60987%Z).
  vm_compute. now left.
Defined.

(** ** The files and counters of a run *)

Lemma ledger_after_app (l : option (list ledger_line)) (a b : list ResultRow) :
  ledger_after (ledger_after l a) b = ledger_after l (a ++ b).
Proof.
  destruct a as [|x a]; [reflexivity|].
  destruct b as [|y b]; [now rewrite app_nil_r|].
  unfold ledger_after. cbn [app]. f_equal.
  rewrite <- app_assoc. f_equal.
  change (x :: a ++ y :: b) with ((x :: a) ++ y :: b). now rewrite map_app.
Qed.

Lemma count_fetched_le (w : World) (documents : list Document) :
  forall n, count_fetched w n documents <= length (filter normalizes documents).
Proof.
  induction documents as [|d documents IH]; intros n; [apply Nat.le_refl|].
  cbn [count_fetched filter]. unfold normalizes at 1.
  destruct (normalize_arxiv_url (snd (fst d))) as [u|]; [|apply IH].
  cbn [length]. specialize (IH (S n)).
  destruct (http_get w n u) as [[|c html]|]; lia.
Qed.

Lemma filter_length_le {A : Type} (p : A -> bool) (l : list A) :
  length (filter p l) <= length l.
Proof.
  induction l as [|x l IH]; [apply Nat.le_refl|].
  cbn [filter]. destruct (p x); cbn [length]; lia.
Qed.

Section FileFacts.

Variable cfg : Config.
Variable BeautifulSoup : str -> Bs4.node.
Variable w : World.

Lemma fetch_abstract_page_files (url : str) (s s1 : State) (r : result (option str)) :
  fetch_abstract_page w url s = (r, s1) ->
  ledger s1 = ledger s /\ archive s1 = archive s.
Proof.
  unfold fetch_abstract_page, bind, get_state, print, emit, ret.
  destruct (http_get w (count is_request (trace s)) url);
    intros [= <- <-]; now split.
Qed.

Lemma record_page_files (doc_id abs_url : str) (html_content : option str)
    (results : list ResultRow) (stats : Stats) (s s1 : State)
    (acc : list ResultRow * Stats) :
  record_page BeautifulSoup w doc_id abs_url html_content results stats s
    = (Ok acc, s1) ->
  ledger s1 = ledger s
  /\ archive s1 = archived_page w doc_id html_content ++ archive s
  /\ processed (snd acc) = processed stats
  /\ successful (snd acc)
     = successful stats + match html_content with
                          | Some (_ :: _) => 1
                          | _ => 0
                          end.
Proof.
  unfold record_page, archived_page.
  destruct html_content as [[|c html]|].
  - unfold ret. intros [= <- <-]. cbn [snd app]. now rewrite Nat.add_0_r.
  - rewrite bind_call.
    destruct (extract_metadata BeautifulSoup (c :: html)) as [metadata | e];
      [|discriminate].
    unfold save_abstract_page, write_archive, bind, print, emit, ret.
    destruct (archive_ok w (safe_filename doc_id ++ lit ".html"));
      intros [= <- <-]; cbn [snd ledger archive successful processed app];
      now repeat split.
  - unfold ret. intros [= <- <-]. cbn [snd app]. now rewrite Nat.add_0_r.
Qed.

Lemma checkpoint_files (total i : nat) (results : list ResultRow)
    (s s1 : State) (r : result (list ResultRow)) :
  results <> [] ->
  checkpoint cfg w total i results s = (r, s1) ->
  archive s1 = archive s
  /\ match r with
     | Ok res =>
         exists new,
           ledger s1 = ledger_after (ledger s) new /\ new ++ res = results
     | Raised e =>
         (e = ZeroDivisionError /\ CHECKPOINT_INTERVAL cfg = 0)
         \/ (e = OSError /\ ledger_ok w (count is_append (trace s1)) = false)
     end.
Proof.
  intros Hne. unfold checkpoint.
  destruct (CHECKPOINT_INTERVAL cfg) as [|k].
  - intros [= <- <-]. split; [reflexivity | now left].
  - destruct (i mod S k =? 0).
    + unfold save_results, write_ledger, bind, get_state, print, emit, ret, raise.
      destruct (ledger_ok w (count is_append (trace s))) eqn:Eok;
        intros [= <- <-]; cbn [ledger archive]; (split; [reflexivity|]).
      * exists results. split; [|apply app_nil_r].
        destruct results as [|x results]; [contradiction | reflexivity].
      * right. now split.
    + intros [= <- <-]. split; [reflexivity|]. now exists [].
Qed.

(** The loop, when it returns, has counted the documents whose URL
    normalises and the pages fetched, has written the page files of
    the latter, and has put the rows it no longer holds at the end of
    the ledger. *)
Lemma process_loop_files (documents : list Document) :
  forall (total i : nat) (results res : list ResultRow) (stats st : Stats)
         (s s' : State),
    process_loop cfg BeautifulSoup w total i documents results stats s
      = (Ok (res, st), s') ->
    processed st = processed stats + length (filter normalizes documents)
    /\ successful st
       = successful stats
         + count_fetched w (count is_request (trace s)) documents
    /\ archive s'
       = archived_pages w (count is_request (trace s)) documents ++ archive s
    /\ exists new rows,
         document_rows BeautifulSoup w (count is_request (trace s)) documents
         = Some rows
         /\ ledger s' = ledger_after (ledger s) new
         /\ new ++ res = results ++ rows.
Proof.
  induction documents as [|[[doc_id raw_url] numeric_id] documents IH];
    intros total i results res stats st s s' H.
  - cbn [process_loop ret] in H. injection H as <- <- <-.
    cbn [filter length count_fetched archived_pages document_rows app].
    rewrite !Nat.add_0_r. repeat split.
    exists [], []. split; [reflexivity|]. split; [reflexivity|].
    cbn [app]. now rewrite app_nil_r.
  - cbn [process_loop] in H.
    cbn [filter count_fetched archived_pages document_rows fst snd].
    unfold document_row. cbn [fst snd].
    destruct (normalize_arxiv_url raw_url) as [[|c u]|] eqn:En.
    + now apply normalize_arxiv_url_nonempty in En.
    + rewrite (normalizes_true (doc_id, raw_url, numeric_id) (c :: u) En).
      destruct (fetch_abstract_page_step w (c :: u) s) as [s1 [Hf Ho1]].
      rewrite (bind_eq _ Hf) in H.
      apply fetch_abstract_page_files in Hf as [Hl1 Ha1].
      apply bind_ok_inv in H as [acc [s2 [Hr H]]].
      pose proof Hr as Hr'.
      apply record_page_files in Hr' as [Hl2 [Ha2 [Hp2 Hs2]]].
      apply (record_page_inv BeautifulSoup w) in Hr as [row [Hrow [Hacc Ho2]]].
      rewrite Hrow. rewrite Hacc in H.
      apply bind_ok_inv in H as [res1 [s3 [Hc H]]].
      pose proof Hc as Hc'.
      apply checkpoint_files in Hc' as [Ha3 [new1 [Hl3 Hn3]]];
        [| now destruct results].
      apply (checkpoint_step cfg w) in Hc as [evs3 [Ho3 [Hp3 _]]].
      destruct (sleep_step s3) as [s4 [Hs Ho4]].
      rewrite (bind_eq _ Hs) in H.
      assert (Hf4 : ledger s4 = ledger s3 /\ archive s4 = archive s3).
      { unfold emit in Hs. injection Hs as <-. now split. }
      destruct Hf4 as [Hl4 Ha4].
      pose proof (obs_step_trans _ _ _ _ _ Ho1 Ho2) as Ho12.
      pose proof (obs_step_trans _ _ _ _ _ Ho12 Ho3) as Ho123.
      pose proof (obs_step_trans _ _ _ _ _ Ho123 Ho4) as Ho1234.
      assert (Hn : count is_request (trace s4) = S (count is_request (trace s))).
      { rewrite (obs_step_count is_request _ _ _ request_significant Ho1234).
        rewrite !count_app, (pacing_no_request evs3 Hp3).
        unfold count. simpl. lia. }
      apply IH in H. rewrite Hn in H. cbn [processed successful] in H.
      destruct H as [Hp [Hsu [Ha [new [rows [Hrows [Hl Hnew]]]]]]].
      split; [cbn [length]; lia|].
      split; [rewrite Hsu, Hs2; lia|].
      split.
      * rewrite Ha, Ha4, Ha3, Ha2, Ha1. now rewrite app_assoc.
      * rewrite Hrows. exists (new1 ++ new), (row :: rows).
        split; [reflexivity|]. split.
        -- rewrite Hl, Hl4, Hl3, Hl2, Hl1. apply ledger_after_app.
        -- rewrite <- app_assoc, Hnew, app_assoc, Hn3.
           now rewrite <- app_assoc.
    + rewrite (normalizes_false (doc_id, raw_url, numeric_id) En).
      apply IH in H.
      destruct H as [Hp [Hsu [Ha [new [rows [Hrows [Hl Hnew]]]]]]].
      repeat split; try assumption.
      rewrite Hrows.
      exists new, (_create_empty_result doc_id raw_url :: rows).
      split; [reflexivity|]. split; [exact Hl|].
      rewrite Hnew. now rewrite <- app_assoc.
Qed.

(** What a run of [process_documents] that returns leaves behind. *)
Lemma process_documents_files (rows : list (list str)) (s s' : State)
    (st : Stats) :
  input_rows w = Some rows ->
  process_documents cfg BeautifulSoup w s = (Ok st, s') ->
  processed st = length (filter normalizes (loaded_documents cfg rows))
  /\ successful st
     = count_fetched w (count is_request (trace s)) (loaded_documents cfg rows)
  /\ archive s'
     = archived_pages w (count is_request (trace s)) (loaded_documents cfg rows)
       ++ archive s
  /\ exists new,
       document_rows BeautifulSoup w (count is_request (trace s))
         (loaded_documents cfg rows) = Some new
       /\ ledger s' = ledger_after (ledger s) new.
Proof.
  intros Hin H. unfold process_documents, load_documents_to_process in H.
  rewrite Hin in H. cbn [bind ret] in H.
  destruct (loaded_documents cfg rows) as [|d documents] eqn:E.
  - unfold bind, print, emit, ret in H. injection H as <- <-.
    cbn [processed successful archive ledger]. repeat split.
    now exists [].
  - destruct (print_step (MsgProcessing (length (d :: documents))) s)
      as [s1 [Hp Ho]].
    rewrite (bind_eq _ Hp) in H.
    assert (Hf1 : ledger s1 = ledger s /\ archive s1 = archive s).
    { unfold print, emit in Hp. injection Hp as <-. now split. }
    destruct Hf1 as [Hl1 Ha1].
    assert (Hn : count is_request (trace s1) = count is_request (trace s)).
    { rewrite (obs_step_count is_request _ _ _ request_significant Ho).
      cbn [count filter length]. apply Nat.add_0_r. }
    apply bind_ok_inv in H as [[res st0] [s2 [Hloop H]]].
    cbn [fst snd] in H.
    apply process_loop_files in Hloop
      as [Hpr [Hsu [Ha [new [all [Hall [Hl Hnew]]]]]]].
    rewrite Hn in *. cbn [processed successful app] in *.
    destruct res as [|x res].
    + cbn [ret] in H. injection H as <- <-.
      rewrite app_nil_r in Hnew. subst new.
      rewrite Ha, Hl, Ha1, Hl1. repeat split; try assumption.
      now exists all.
    + unfold save_results, write_ledger, bind, get_state, ret, raise in H.
      destruct (ledger_ok w (count is_append (trace s2))) eqn:Eok;
        [|discriminate H].
      injection H as <- <-.
      cbn [archive ledger]. rewrite Ha, Ha1.
      repeat split; try assumption.
      exists all. split; [exact Hall|].
      rewrite <- Hnew, <- ledger_after_app, <- Hl1, <- Hl. reflexivity.
Qed.

End FileFacts.

(** ** What a run leaves behind *)

(** X14.  When [process_documents] returns, the processed counter is
    the number of loaded documents whose URL normalises (the others
    are not counted), the successful counter is the number of requests
    that brought a page that is not empty, and so successful is at most
    processed, which is at most the number of loaded documents. *)
Theorem process_documents_counters
    (cfg : Config) (BeautifulSoup : str -> Bs4.node) (w : World)
    (rows : list (list str)) (s s' : State) (stats : Stats) :
  input_rows w = Some rows ->
  process_documents cfg BeautifulSoup w s = (Ok stats, s') ->
  processed stats = length (filter normalizes (loaded_documents cfg rows))
  /\ successful stats
     = count_fetched w (count is_request (trace s)) (loaded_documents cfg rows)
  /\ successful stats <= processed stats
  /\ processed stats <= length (loaded_documents cfg rows).
Proof.
  intros Hin H.
  apply (process_documents_files cfg BeautifulSoup w rows _ _ _ Hin) in H
    as [Hp [Hs _]].
  split; [exact Hp|]. split; [exact Hs|]. rewrite Hp, Hs. split.
  - apply count_fetched_le.
  - apply filter_length_le.
Qed.

Lemma process_documents_counters_witness :
  processed {| processed := 50; successful := 0 |}
  = length (filter normalizes
              (loaded_documents class_config rows_51_with_foreign_50th))
  /\ successful {| processed := 50; successful := 0 |}
     = count_fetched (offline rows_51_with_foreign_50th)
         (count is_request (trace initial_state))
         (loaded_documents class_config rows_51_with_foreign_50th)
  /\ successful {| processed := 50; successful := 0 |}
     <= processed {| processed := 50; successful := 0 |}
  /\ processed {| processed := 50; successful := 0 |}
     <= length (loaded_documents class_config rows_51_with_foreign_50th).
Proof.
  apply (process_documents_counters class_config empty_page
           (offline rows_51_with_foreign_50th) rows_51_with_foreign_50th
           initial_state
           (snd (process_documents class_config empty_page
                   (offline rows_51_with_foreign_50th) initial_state))).
  - reflexivity.
  - vm_compute. reflexivity.
Defined.

(** X15.  When [process_documents] returns, the extraction returned on
    every page, and the ledger file is the file it found followed by
    one line for each loaded document, in their order, the line of a
    fetched page being the row built from its metadata; a file that
    did not exist starts with the header line, and is not created when
    no document is loaded.  No line that was in the file is changed,
    and no second header is written. *)
Theorem process_documents_ledger
    (cfg : Config) (BeautifulSoup : str -> Bs4.node) (w : World)
    (rows : list (list str)) (s s' : State) (stats : Stats) :
  input_rows w = Some rows ->
  process_documents cfg BeautifulSoup w s = (Ok stats, s') ->
  exists new : list ResultRow,
    document_rows BeautifulSoup w (count is_request (trace s))
      (loaded_documents cfg rows) = Some new
    /\ ledger s'
       = match loaded_documents cfg rows with
         | [] => ledger s
         | _ =>
             Some (match ledger s with
                   | Some lines => lines
                   | None => [HeaderLine CSV_COLUMNS]
                   end
                   ++ map DataLine new)
         end.
Proof.
  intros Hin H.
  apply (process_documents_files cfg BeautifulSoup w rows _ _ _ Hin) in H
    as [_ [_ [_ [new [Hnew Hl]]]]].
  exists new. split; [exact Hnew|]. rewrite Hl.
  pose proof (document_rows_length BeautifulSoup w _ _ _ Hnew) as Hlen.
  destruct (loaded_documents cfg rows) as [|d documents];
    destruct new as [|r new]; try discriminate Hlen; reflexivity.
Qed.

Lemma process_documents_ledger_witness :
  ledger (snd (process_documents class_config empty_page
                 (offline rows_one_foreign_url) initial_state))
  = Some [HeaderLine CSV_COLUMNS;
          DataLine (_create_empty_result (lit "PN0060987")
                      (lit "http://example.org/paper.pdf"))].
Proof.
  destruct (process_documents_ledger class_config empty_page
              (offline rows_one_foreign_url) rows_one_foreign_url initial_state
              (snd (process_documents class_config empty_page
                      (offline rows_one_foreign_url) initial_state))
              {| processed := 0; successful := 0 |} eq_refl eq_refl)
    as [new [Hnew Hl]].
  vm_compute in Hnew. injection Hnew as <-. rewrite Hl. reflexivity.
Defined.

Lemma requests_before_cons (n : nat) (d : Document) (documents : list Document)
    (j : nat) :
  requests_before n (d :: documents) (S j)
  = requests_before (if normalizes d then S n else n) documents j.
Proof.
  unfold requests_before. cbn [firstn filter].
  destruct (normalizes d); cbn [length]; lia.
Qed.

Lemma In_archived_pages (w : World) (documents : list Document) :
  forall (n : nat) (file : str * str),
    In file (archived_pages w n documents)
    <-> exists (j : nat) (d : Document) (u html : str),
          nth_error documents j = Some d
          /\ normalize_arxiv_url (snd (fst d)) = Some u
          /\ http_get w (requests_before n documents j) u = Some html
          /\ html <> []
          /\ archive_ok w (safe_filename (fst (fst d)) ++ lit ".html") = true
          /\ file = (safe_filename (fst (fst d)) ++ lit ".html", html).
Proof.
  induction documents as [|d documents IH]; intros n file.
  - split; [contradiction|]. intros [[|j] [d [u [html [H _]]]]]; discriminate.
  - cbn [archived_pages].
    destruct (normalize_arxiv_url (snd (fst d))) as [u0|] eqn:En.
    + rewrite in_app_iff, IH. split.
      * intros [[j [d' [u [html [Hj [Hu [Hg H]]]]]]] | Hin].
        -- exists (S j), d', u, html. rewrite requests_before_cons.
           rewrite (normalizes_true d u0 En). now repeat split.
        -- unfold archived_page in Hin.
           destruct (http_get w n u0) as [[|c html]|] eqn:Eg; try contradiction.
           destruct (archive_ok w (safe_filename (fst (fst d)) ++ lit ".html"))
             eqn:Eok; [|contradiction].
           destruct Hin as [<- | []].
           exists 0, d, u0, (c :: html). unfold requests_before.
           cbn [firstn filter length nth_error]. rewrite Nat.add_0_r.
           repeat split; try assumption. discriminate.
      * intros [[|j] [d' [u [html [Hj [Hu [Hg [Hne [Hok ->]]]]]]]]].
        -- right. cbn [nth_error] in Hj. injection Hj as <-.
           rewrite En in Hu. injection Hu as <-.
           unfold requests_before in Hg.
           cbn [firstn filter length] in Hg. rewrite Nat.add_0_r in Hg.
           unfold archived_page. rewrite Hg, Hok.
           destruct html as [|c html]; [contradiction | now left].
        -- left. rewrite requests_before_cons in Hg.
           rewrite (normalizes_true d u0 En) in Hg.
           exists j, d', u, html. now repeat split.
    + rewrite IH. split.
      * intros [j [d' [u [html [Hj [Hu [Hg H]]]]]]].
        exists (S j), d', u, html. rewrite requests_before_cons.
        rewrite (normalizes_false d En). now repeat split.
      * intros [[|j] [d' [u [html [Hj [Hu [Hg H]]]]]]].
        -- cbn [nth_error] in Hj. injection Hj as <-. congruence.
        -- rewrite requests_before_cons in Hg.
           rewrite (normalizes_false d En) in Hg.
           exists j, d', u, html. now repeat split.
Qed.

(** X16.  When [process_documents] returns, the page files it wrote
    are on top of the files that were there, the newest first, and a
    file was written exactly for each loaded document whose URL
    normalises, whose request brought a page that is not empty and
    whose file could be written: it is named by the sanitised
    identifier and holds the page as it was received. *)
Theorem process_documents_archive
    (cfg : Config) (BeautifulSoup : str -> Bs4.node) (w : World)
    (rows : list (list str)) (s s' : State) (stats : Stats) :
  input_rows w = Some rows ->
  process_documents cfg BeautifulSoup w s = (Ok stats, s') ->
  exists written : list (str * str),
    archive s' = written ++ archive s
    /\ forall file : str * str,
         In file written
         <-> exists (j : nat) (d : Document) (u html : str),
               nth_error (loaded_documents cfg rows) j = Some d
               /\ normalize_arxiv_url (snd (fst d)) = Some u
               /\ http_get w (requests_before (count is_request (trace s))
                                (loaded_documents cfg rows) j) u
                  = Some html
               /\ html <> []
               /\ archive_ok w (safe_filename (fst (fst d)) ++ lit ".html") = true
               /\ file = (safe_filename (fst (fst d)) ++ lit ".html", html).
Proof.
  intros Hin H.
  apply (process_documents_files cfg BeautifulSoup w rows _ _ _ Hin) in H
    as [_ [_ [Ha _]]].
  exists (archived_pages w (count is_request (trace s)) (loaded_documents cfg rows)).
  split; [exact Ha|]. intros file. apply In_archived_pages.
Qed.

Lemma existsb_filter {A : Type} (p : A -> bool) (l : list A) :
  existsb p l = negb (length (filter p l) =? 0).
Proof.
  induction l as [|x l IH]; [reflexivity|].
  cbn [existsb filter]. destruct (p x); [reflexivity | exact IH].
Qed.

(** X18.  With a source list that can be read, a checkpoint interval
    that is not zero, a ledger that can be opened and pages on which
    the extraction returns, [run] ends normally exactly when the URL of
    some loaded document normalises, and otherwise raises the
    [ZeroDivisionError] of the success rate. *)
Theorem run_outcome
    (cfg : Config) (BeautifulSoup : str -> Bs4.node) (w : World)
    (rows : list (list str)) (s : State) :
  input_rows w = Some rows ->
  CHECKPOINT_INTERVAL cfg <> 0 ->
  (forall n, ledger_ok w n = true) ->
  pages_extract BeautifulSoup w ->
  fst (run cfg BeautifulSoup w s)
  = if existsb normalizes (loaded_documents cfg rows)
    then Ok tt
    else Raised ZeroDivisionError.
Proof.
  intros Hin HK Hok Hx. unfold run.
  destruct (print_step MsgStarting s) as [s1 [H1 _]].
  rewrite (bind_eq _ H1).
  destruct (print_step (MsgRange (START_DOC_ID cfg) (END_DOC_ID cfg)) s1)
    as [s2 [H2 _]].
  rewrite (bind_eq _ H2).
  destruct (print_step MsgOutput s2) as [s3 [H3 _]].
  rewrite (bind_eq _ H3).
  destruct (process_documents_total cfg BeautifulSoup w rows s3 Hin HK Hok Hx)
    as [stats [s4 Hpd]].
  rewrite (bind_eq _ Hpd).
  apply (process_documents_files cfg BeautifulSoup w rows _ _ _ Hin) in Hpd
    as [Hp _].
  destruct (print_step MsgCompleted s4) as [s5 [H5 _]].
  rewrite (bind_eq _ H5).
  destruct (print_step (MsgProcessed (processed stats)) s5) as [s6 [H6 _]].
  rewrite (bind_eq _ H6).
  destruct (print_step (MsgSuccessful (successful stats)) s6) as [s7 [H7 _]].
  rewrite (bind_eq _ H7).
  rewrite existsb_filter, <- Hp.
  destruct (processed stats); reflexivity.
Qed.

Lemma run_outcome_witness :
  fst (run class_config empty_page (offline rows_51_with_foreign_50th)
         initial_state)
  = if existsb normalizes
         (loaded_documents class_config rows_51_with_foreign_50th)
    then Ok tt
    else Raised ZeroDivisionError.
Proof.
  apply (run_outcome class_config empty_page
           (offline rows_51_with_foreign_50th) rows_51_with_foreign_50th
           initial_state).
  - reflexivity.
  - vm_compute. discriminate.
  - reflexivity.
  - intros n url html H. discriminate H.
Defined.

Lemma document_rows_ext (P : str -> Bs4.node) (w1 w2 : World)
    (documents : list Document) :
  (forall n u, http_get w1 n u = http_get w2 n u) ->
  forall n, document_rows P w1 n documents = document_rows P w2 n documents.
Proof.
  intros Hget. induction documents as [|d documents IH]; intros n; [reflexivity|].
  cbn [document_rows]. rewrite IH. f_equal.
  unfold document_row. destruct (normalize_arxiv_url (snd (fst d))); [|reflexivity].
  now rewrite Hget.
Qed.

Lemma count_fetched_ext (w1 w2 : World) (documents : list Document) :
  (forall n u, http_get w1 n u = http_get w2 n u) ->
  forall n, count_fetched w1 n documents = count_fetched w2 n documents.
Proof.
  intros Hget. induction documents as [|d documents IH]; intros n; [reflexivity|].
  cbn [count_fetched]. destruct (normalize_arxiv_url (snd (fst d))); [|apply IH].
  now rewrite Hget, IH.
Qed.

(** X19.  The counters and the ledger of a run that returns depend on
    the source list and on the answers to the requests only: two runs
    that differ in which page files can be written (or in which of
    them could be archived at all) return the same counters and leave
    the same ledger. *)
Theorem process_documents_ignores_archive
    (cfg : Config) (BeautifulSoup : str -> Bs4.node) (w1 w2 : World)
    (rows : list (list str)) (s s1 s2 : State) (stats1 stats2 : Stats) :
  input_rows w1 = Some rows ->
  input_rows w2 = Some rows ->
  (forall n u, http_get w1 n u = http_get w2 n u) ->
  process_documents cfg BeautifulSoup w1 s = (Ok stats1, s1) ->
  process_documents cfg BeautifulSoup w2 s = (Ok stats2, s2) ->
  stats1 = stats2 /\ ledger s1 = ledger s2.
Proof.
  intros Hin1 Hin2 Hget H1 H2.
  apply (process_documents_files cfg BeautifulSoup w1 rows _ _ _ Hin1) in H1
    as [Hp1 [Hs1 [_ [new1 [Hnew1 Hl1]]]]].
  apply (process_documents_files cfg BeautifulSoup w2 rows _ _ _ Hin2) in H2
    as [Hp2 [Hs2 [_ [new2 [Hnew2 Hl2]]]]].
  split.
  - destruct stats1 as [p1 q1], stats2 as [p2 q2].
    cbn [processed successful] in *. f_equal.
    + congruence.
    + rewrite Hs1, Hs2. now apply count_fetched_ext.
  - rewrite Hl1, Hl2. f_equal.
    rewrite (document_rows_ext BeautifulSoup w1 w2 _ Hget) in Hnew1.
    congruence.
Qed.

(** X20.  Every request of a run of [process_documents] that returns
    goes to an address that starts with the arXiv abstract prefix. *)
Theorem process_documents_requests_arxiv_only
    (cfg : Config) (BeautifulSoup : str -> Bs4.node) (w : World)
    (rows : list (list str)) (s s' : State) (stats : Stats) :
  input_rows w = Some rows ->
  process_documents cfg BeautifulSoup w s = (Ok stats, s') ->
  forall url : str,
    In (Request url) (trace s') ->
    In (Request url) (trace s)
    \/ exists paper_id, url = lit "https://arxiv.org/abs/" ++ paper_id.
Proof.
  intros Hin H url Hu.
  apply (process_documents_spec cfg BeautifulSoup w rows _ _ _ Hin) in H
    as [evs [new [[Ht _] [Hp _]]]].
  assert (Hsig : In (Request url) (sig (trace s'))).
  { unfold sig. apply filter_In. now split. }
  rewrite Ht in Hsig. apply in_app_or in Hsig as [Hold | Hnew].
  - left. unfold sig in Hold. now apply filter_In in Hold.
  - right.
    assert (Hpace : In (Request url) (pacing evs)).
    { unfold pacing. apply filter_In. now split. }
    rewrite Hp in Hpace. unfold paced_requests in Hpace.
    apply in_flat_map in Hpace as [d [_ Hd]].
    destruct (normalize_arxiv_url (snd (fst d))) as [u|] eqn:En; [|contradiction].
    destruct Hd as [[= ->] | [Hd | []]]; [|discriminate].
    rewrite normalize_arxiv_url_eq in En.
    now apply first_pattern_prefix in En.
Qed.

(** ** Evaluated runs *)

Lemma process_documents_archive_witness :
  In (lit "PN0060987.html", lit "<html></html>")
     (archive (snd (process_documents class_config empty_page
                      (online (lit "<html></html>") true rows_one_arxiv_url)
                      initial_state))).
Proof.
  destruct (process_documents_archive class_config empty_page
              (online (lit "<html></html>") true rows_one_arxiv_url)
              rows_one_arxiv_url initial_state
              (snd (process_documents class_config empty_page
                      (online (lit "<html></html>") true rows_one_arxiv_url)
                      initial_state))
              {| processed := 1; successful := 1 |})
    as [written [Ha Hw]].
  - reflexivity.
  - vm_compute. reflexivity.
  - rewrite Ha. apply in_or_app. left. apply Hw.
    exists 0, (lit "PN0060987", lit "https://arxiv.org/abs/0704.1000", 60987%Z),
      (lit "https://arxiv.org/abs/0704.1000"), (lit "<html></html>").
    repeat split; try (vm_compute; reflexivity). discriminate.
Defined.

Lemma process_documents_ignores_archive_witness :
  {| processed := 1; successful := 1 |} = {| processed := 1; successful := 1 |}
  /\ ledger (snd (process_documents class_config empty_page
                    (online (lit "<html></html>") true rows_one_arxiv_url)
                    initial_state))
     = ledger (snd (process_documents class_config empty_page
                      (online (lit "<html></html>") false rows_one_arxiv_url)
                      initial_state)).
Proof.
  apply (process_documents_ignores_archive class_config empty_page
           (online (lit "<html></html>") true rows_one_arxiv_url)
           (online (lit "<html></html>") false rows_one_arxiv_url)
           rows_one_arxiv_url initial_state).
  - reflexivity.
  - reflexivity.
  - reflexivity.
  - vm_compute. reflexivity.
  - vm_compute. reflexivity.
Defined.

Lemma process_documents_requests_arxiv_only_witness :
  In (Request (lit "https://arxiv.org/abs/0704.1000")) (trace initial_state)
  \/ exists paper_id,
       lit "https://arxiv.org/abs/0704.1000"
       = lit "https://arxiv.org/abs/" ++ paper_id.
Proof.
  apply (process_documents_requests_arxiv_only class_config empty_page
           (online (lit "<html></html>") true rows_one_arxiv_url)
           rows_one_arxiv_url initial_state
           (snd (process_documents class_config empty_page
                   (online (lit "<html></html>") true rows_one_arxiv_url)
                   initial_state))
           {| processed := 1; successful := 1 |}).
  - reflexivity.
  - vm_compute. reflexivity.
  - vm_compute. right. left. reflexivity.
Defined.

Lemma process_documents_appends_when_all_normalize_witness :
  count is_append
    (trace (snd (process_documents class_config empty_page (offline rows_51)
                   initial_state)))
  = count is_append (trace initial_state)
    + (length (loaded_documents class_config rows_51)
       + CHECKPOINT_INTERVAL class_config - 1)
      / CHECKPOINT_INTERVAL class_config.
Proof.
  apply (process_documents_appends_when_all_normalize class_config empty_page
           (offline rows_51) rows_51 initial_state
           (snd (process_documents class_config empty_page (offline rows_51)
                   initial_state))
           {| processed := 51; successful := 0 |}).
  - reflexivity.
  - vm_compute. discriminate.
  - vm_compute. reflexivity.
  - vm_compute. reflexivity.
Defined.

(** * The distribution analyzer *)

(** ** The version key *)

Lemma match_at_digit_group (d post : str) :
  d <> [] -> all_digits d = true -> starts_without_digit post = true ->
  Re.match_at (Re.Group digits_re) (d ++ post)
  = Some (Re.MatchObj d (Some d) post).
Proof.
  intros Hne Hd Hpost. destruct d as [|c d]; [contradiction|].
  simpl in Hd. apply andb_true_iff in Hd as [Hc Hd].
  unfold Re.match_at, digits_re. cbn [app Re.rmatch]. rewrite Hc.
  erewrite class_star_run; [| exact Hd | exact Hpost | reflexivity].
  change (c :: d ++ post) with ((c :: d) ++ post).
  now rewrite firstn_app_exact.
Qed.

Lemma match_at_digit_group_none (s : str) :
  starts_without_digit s = true -> Re.match_at (Re.Group digits_re) s = None.
Proof.
  unfold Re.match_at, digits_re. destruct s as [|c s]; [reflexivity|].
  cbn [starts_without_digit Re.rmatch]. intros H.
  apply negb_true_iff in H. now rewrite H.
Qed.

Lemma search_digits_none (s : str) :
  no_digit s = true -> Re.search (Re.Group digits_re) s = None.
Proof.
  induction s as [|c s IH]; [reflexivity|].
  intros H. cbn [Re.search].
  rewrite match_at_digit_group_none by now apply no_digit_starts.
  apply IH. simpl in H. now apply andb_true_iff in H as [_ H].
Qed.

Lemma search_digits (a d post : str) :
  no_digit a = true ->
  d <> [] -> all_digits d = true -> starts_without_digit post = true ->
  Re.search (Re.Group digits_re) (a ++ d ++ post)
  = Some (Re.MatchObj d (Some d) post).
Proof.
  intros Ha Hne Hd Hpost. induction a as [|c a IH].
  - cbn [app]. destruct d as [|x d]; [contradiction|].
    cbn [app Re.search].
    change (x :: d ++ post) with ((x :: d) ++ post).
    now rewrite match_at_digit_group.
  - simpl in Ha. apply andb_true_iff in Ha as [Hc Ha].
    cbn [app Re.search].
    rewrite match_at_digit_group_none by exact Hc. now apply IH.
Qed.

(** X22.  The key of the version sort is the number the first run of
    digits of the version denotes, whatever surrounds it, and 0 for a
    version without digits: v10 has key 10 and Unknown has key 0.  The
    key function raises [ValueError] when that run has more digits
    than [int] accepts. *)
Theorem version_key_first_digits :
  (forall (a d b : str) (n : nat),
      no_digit a = true -> d <> [] -> all_digits d = true ->
      starts_without_digit b = true ->
      Analyzer.version_key (a ++ d ++ b, n)
      = if length d <=? Py.max_str_digits
        then Some (decimal_value d)
        else None)
  /\ (forall (v : str) (n : nat),
        no_digit v = true -> Analyzer.version_key (v, n) = Some 0%Z).
Proof.
  split.
  - intros a d b n Ha Hne Hd Hb. unfold Analyzer.version_key. cbn [fst].
    rewrite search_digits by assumption. cbn [Re.group1].
    destruct (length d <=? Py.max_str_digits) eqn:El.
    + apply Nat.leb_le in El. now apply int_digits.
    + apply Nat.leb_gt in El. now apply int_digits_over_limit.
  - intros v n Hv. unfold Analyzer.version_key. cbn [fst].
    now rewrite search_digits_none.
Qed.

Lemma version_key_first_digits_witness :
  Analyzer.version_key (lit "v" ++ lit "10" ++ [], 3)
  = Some (decimal_value (lit "10"))
  /\ Analyzer.version_key (lit "v" ++ repeat "1"%char 4301 ++ [], 3) = None
  /\ Analyzer.version_key (lit "Unknown", 7) = Some 0%Z.
Proof.
  split; [|split].
  - apply (proj1 version_key_first_digits (lit "v") (lit "10") [] 3);
      try reflexivity. discriminate.
  - apply (proj1 version_key_first_digits (lit "v") (repeat "1"%char 4301) [] 3);
      try (vm_compute; reflexivity). discriminate.
  - apply (proj2 version_key_first_digits (lit "Unknown") 7). reflexivity.
Defined.

(** ** Sorting *)

Section SortedFacts.

Variable A : Type.
Variable key : A -> Z.
Variable reverse : bool.

Lemma goes_first_total (x y : A) :
  Analyzer.goes_first key reverse x y = false ->
  Analyzer.goes_first key reverse y x = true.
Proof.
  unfold Analyzer.goes_first. destruct reverse; intros H;
    apply Z.leb_gt in H; apply Z.leb_le; lia.
Qed.

Lemma goes_first_trans (x y z : A) :
  Analyzer.goes_first key reverse x y = true ->
  Analyzer.goes_first key reverse y z = true ->
  Analyzer.goes_first key reverse x z = true.
Proof.
  unfold Analyzer.goes_first. destruct reverse; intros H1 H2;
    apply Z.leb_le in H1; apply Z.leb_le in H2; apply Z.leb_le; lia.
Qed.

Lemma goes_first_strict (x y : A) :
  Analyzer.goes_first key reverse x y = false -> key x <> key y.
Proof.
  unfold Analyzer.goes_first. destruct reverse; intros H;
    apply Z.leb_gt in H; lia.
Qed.

Lemma insert_perm (x : A) (l : list A) :
  Permutation (Analyzer.insert key reverse x l) (x :: l).
Proof.
  induction l as [|y l IH]; cbn [Analyzer.insert]; [reflexivity|].
  destruct (Analyzer.goes_first key reverse x y); [reflexivity|].
  rewrite IH. apply perm_swap.
Qed.

Lemma sorted_perm (l : list A) : Permutation (Analyzer.sorted key reverse l) l.
Proof.
  unfold Analyzer.sorted.
  induction l as [|x l IH]; cbn [fold_right]; [reflexivity|].
  rewrite insert_perm. now constructor.
Qed.

Lemma insert_sorted (x : A) (l : list A) :
  StronglySorted (fun a b => Analyzer.goes_first key reverse a b = true) l ->
  StronglySorted (fun a b => Analyzer.goes_first key reverse a b = true)
    (Analyzer.insert key reverse x l).
Proof.
  induction 1 as [|y l Hl IH Hy]; cbn [Analyzer.insert].
  - repeat constructor.
  - destruct (Analyzer.goes_first key reverse x y) eqn:E.
    + constructor; [now constructor|]. constructor; [exact E|].
      rewrite Forall_forall in *. intros z Hz.
      apply (goes_first_trans _ _ _ E). now apply Hy.
    + constructor; [exact IH|].
      rewrite Forall_forall in *. intros z Hz.
      apply (Permutation_in _ (insert_perm x l)) in Hz.
      destruct Hz as [<- | Hz]; [now apply goes_first_total | now apply Hy].
Qed.

Lemma sorted_sorted (l : list A) :
  StronglySorted (fun a b => Analyzer.goes_first key reverse a b = true)
    (Analyzer.sorted key reverse l).
Proof.
  unfold Analyzer.sorted.
  induction l as [|x l IH]; cbn [fold_right]; [constructor|].
  now apply insert_sorted.
Qed.

Lemma insert_stable (k : Z) (x : A) (l : list A) :
  filter (fun a => (key a =? k)%Z) (Analyzer.insert key reverse x l)
  = filter (fun a => (key a =? k)%Z) (x :: l).
Proof.
  induction l as [|y l IH]; cbn [Analyzer.insert]; [reflexivity|].
  destruct (Analyzer.goes_first key reverse x y) eqn:E; [reflexivity|].
  apply goes_first_strict in E. cbn [filter] in *. rewrite IH.
  destruct (key x =? k)%Z eqn:Ex; [|reflexivity].
  apply Z.eqb_eq in Ex.
  destruct (key y =? k)%Z eqn:Ey; [|reflexivity].
  apply Z.eqb_eq in Ey. congruence.
Qed.

Lemma sorted_stable (k : Z) (l : list A) :
  filter (fun a => (key a =? k)%Z) (Analyzer.sorted key reverse l)
  = filter (fun a => (key a =? k)%Z) l.
Proof.
  unfold Analyzer.sorted.
  induction l as [|x l IH]; cbn [fold_right]; [reflexivity|].
  rewrite insert_stable. cbn [filter]. now rewrite IH.
Qed.

End SortedFacts.

Lemma StronglySorted_impl {A : Type} (R1 R2 : A -> A -> Prop) (l : list A) :
  (forall a b, R1 a b -> R2 a b) -> StronglySorted R1 l -> StronglySorted R2 l.
Proof.
  intros H. induction 1 as [|x l Hl IH Hx]; constructor; [exact IH|].
  rewrite Forall_forall in *. intros y Hy. now apply H, Hx.
Qed.

(** *** A key function that may raise *)

Lemma keys_of_spec (A : Type) (key : A -> option Z) (l : list A) :
  forall keyed : list (A * Z),
    Analyzer.keys_of key l = Some keyed ->
    map fst keyed = l
    /\ forall p, In p keyed -> key (fst p) = Some (snd p).
Proof.
  induction l as [|x l IH]; intros keyed; cbn [Analyzer.keys_of].
  - intros [= <-]. split; [reflexivity | contradiction].
  - destruct (key x) as [k|] eqn:Ex; [|discriminate].
    destruct (Analyzer.keys_of key l) as [keyed'|]; [|discriminate].
    intros [= <-]. destruct (IH keyed' eq_refl) as [Hmap Hkeys].
    split; [cbn [map fst]; now rewrite Hmap|].
    intros p [<- | Hp]; [exact Ex | now apply Hkeys].
Qed.

Lemma keys_of_total (A : Type) (key : A -> option Z) (l : list A) :
  (forall x, In x l -> key x <> None) ->
  exists keyed, Analyzer.keys_of key l = Some keyed.
Proof.
  induction l as [|x l IH]; intros H; cbn [Analyzer.keys_of]; [now eexists|].
  destruct (key x) as [k|] eqn:Ex; [|now destruct (H x (or_introl eq_refl))].
  destruct IH as [keyed ->]; [|now eexists].
  intros y Hy. apply H. now right.
Qed.

Lemma keys_of_raises (A : Type) (key : A -> option Z) (l : list A) (x : A) :
  In x l -> key x = None -> Analyzer.keys_of key l = None.
Proof.
  induction l as [|y l IH]; intros Hin Hx; [contradiction|].
  cbn [Analyzer.keys_of]. destruct (key y) as [k|] eqn:Ey; [|reflexivity].
  destruct Hin as [-> | Hin]; [congruence|].
  now rewrite (IH Hin Hx).
Qed.

Lemma StronglySorted_map_in {A B : Type} (f : A -> B) (R1 : A -> A -> Prop)
    (R2 : B -> B -> Prop) (l : list A) :
  (forall a b, In a l -> In b l -> R1 a b -> R2 (f a) (f b)) ->
  StronglySorted R1 l -> StronglySorted R2 (map f l).
Proof.
  intros H Hs. induction Hs as [|x l Hl IH Hx]; cbn [map]; constructor.
  - apply IH. intros a b Ha Hb. apply H; now right.
  - rewrite Forall_forall in *. intros y Hy.
    apply in_map_iff in Hy as [a [<- Ha]].
    apply H; [now left | now right | now apply Hx].
Qed.

Lemma filter_map_fst {A B : Type} (p : A -> bool) (q : A * B -> bool)
    (l : list (A * B)) :
  (forall x, In x l -> p (fst x) = q x) ->
  filter p (map fst l) = map fst (filter q l).
Proof.
  induction l as [|x l IH]; intros H; [reflexivity|].
  cbn [map filter]. rewrite <- (H x) by now left.
  rewrite IH by (intros y Hy; apply H; now right).
  now destruct (p (fst x)).
Qed.

(** [sorted] with a key function that returned on every item: the
    result is in ascending order of key, holds the items given, and
    keeps items of equal key in the order given. *)
Lemma sorted_by_spec (A : Type) (key : A -> option Z) (l out : list A) :
  Analyzer.sorted_by key false l = Some out ->
  StronglySorted
    (fun a b => match key a, key b with
                | Some x, Some y => (x <= y)%Z
                | _, _ => False
                end) out
  /\ Permutation out l
  /\ forall k : Z,
       filter (fun x => match key x with
                        | Some n => (n =? k)%Z
                        | None => false
                        end) out
       = filter (fun x => match key x with
                          | Some n => (n =? k)%Z
                          | None => false
                          end) l.
Proof.
  unfold Analyzer.sorted_by.
  destruct (Analyzer.keys_of key l) as [keyed|] eqn:E; [|discriminate].
  intros [= <-]. destruct (keys_of_spec A key l keyed E) as [Hmap Hkeys].
  pose proof (sorted_perm (A * Z) snd false keyed) as Hperm.
  assert (Hkeys' : forall p, In p (Analyzer.sorted snd false keyed) ->
                             key (fst p) = Some (snd p)).
  { intros p Hp. apply Hkeys. now apply (Permutation_in _ Hperm). }
  split; [|split].
  - apply (StronglySorted_map_in fst
             (fun a b => Analyzer.goes_first snd false a b = true)).
    + intros a b Ha Hb Hab. rewrite (Hkeys' a Ha), (Hkeys' b Hb).
      unfold Analyzer.goes_first in Hab. now apply Z.leb_le.
    + apply sorted_sorted.
  - rewrite <- Hmap. now apply Permutation_map.
  - intros k. rewrite <- Hmap.
    rewrite (filter_map_fst _ (fun p => (snd p =? k)%Z)
               (Analyzer.sorted snd false keyed))
      by (intros p Hp; now rewrite (Hkeys' p Hp)).
    rewrite (filter_map_fst _ (fun p => (snd p =? k)%Z) keyed)
      by (intros p Hp; now rewrite (Hkeys p Hp)).
    f_equal. apply (sorted_stable (A * Z)%type snd false k).
Qed.

(** X23.  The version distribution is returned when the key function
    returns on every counted version, and is a [ValueError] when it
    raises on one of them.  When returned, it lists the counted
    versions in ascending order of their number (v2 before v10, and
    versions without digits first); it holds the pairs pandas counted
    and no others, and versions with the same number stay in the order
    pandas gave them. *)
Theorem get_version_distribution_sorted
    (value_counts : list Analyzer.cell -> list (str * nat))
    (rows : list Analyzer.record) :
  ((forall x, In x (value_counts (map Analyzer.version rows)) ->
              Analyzer.version_key x <> None) ->
   exists distribution,
     Analyzer.get_version_distribution value_counts (Some rows)
     = Ok distribution)
  /\ ((exists x, In x (value_counts (map Analyzer.version rows))
                 /\ Analyzer.version_key x = None) ->
      Analyzer.get_version_distribution value_counts (Some rows)
      = Raised ValueError)
  /\ forall distribution : list (str * nat),
       Analyzer.get_version_distribution value_counts (Some rows)
       = Ok distribution ->
       StronglySorted version_before distribution
       /\ Permutation distribution (value_counts (map Analyzer.version rows))
       /\ forall k : Z,
            filter (has_version_key k) distribution
            = filter (has_version_key k)
                (value_counts (map Analyzer.version rows)).
Proof.
  unfold Analyzer.get_version_distribution. cbv zeta. split; [|split].
  - intros H. unfold Analyzer.sorted_by.
    destruct (keys_of_total _ Analyzer.version_key _ H) as [keyed ->].
    now eexists.
  - intros [x [Hx Hk]]. unfold Analyzer.sorted_by.
    now rewrite (keys_of_raises _ Analyzer.version_key _ x Hx Hk).
  - intros distribution H.
    destruct (Analyzer.sorted_by Analyzer.version_key false
                (value_counts (map Analyzer.version rows))) as [out|] eqn:E;
      [|discriminate].
    injection H as <-.
    exact (sorted_by_spec _ Analyzer.version_key _ _ E).
Qed.

Lemma get_version_distribution_sorted_witness :
  Analyzer.get_version_distribution
    (fun _ => [(lit "v10", 1); (lit "Unknown", 4); (lit "v2", 7)])
    (Some two_rows_frame)
  = Ok [(lit "Unknown", 4); (lit "v2", 7); (lit "v10", 1)]
  /\ Analyzer.get_version_distribution
       (fun _ => [(lit "v1", 1); (lit "v" ++ repeat "1"%char 4301, 1)])
       (Some two_rows_frame)
     = Raised ValueError.
Proof.
  split.
  - destruct (proj1 (get_version_distribution_sorted
                       (fun _ => [(lit "v10", 1); (lit "Unknown", 4); (lit "v2", 7)])
                       two_rows_frame))
      as [distribution H].
    + intros x Hx. vm_compute in Hx.
      destruct Hx as [<- | [<- | [<- | []]]]; vm_compute; discriminate.
    + rewrite H. vm_compute in H. exact (eq_sym H).
  - apply (proj1 (proj2 (get_version_distribution_sorted
                           (fun _ => [(lit "v1", 1);
                                      (lit "v" ++ repeat "1"%char 4301, 1)])
                           two_rows_frame))).
    exists (lit "v" ++ repeat "1"%char 4301, 1). split.
    + right. left. reflexivity.
    + vm_compute. reflexivity.
Defined.

(** X24.  The license distribution lists the counted licenses from the
    most to the least frequent; it holds the pairs pandas counted and
    no others, and licenses with the same count stay in the order
    pandas gave them. *)
Theorem get_license_distribution_sorted
    (value_counts : list Analyzer.cell -> list (str * nat))
    (rows : list Analyzer.record) :
  StronglySorted (fun a b => snd b <= snd a)
    (Analyzer.get_license_distribution value_counts (Some rows))
  /\ Permutation (Analyzer.get_license_distribution value_counts (Some rows))
       (value_counts (map Analyzer.license_name rows))
  /\ forall n : nat,
       filter (fun x => snd x =? n)
         (Analyzer.get_license_distribution value_counts (Some rows))
       = filter (fun x => snd x =? n)
           (value_counts (map Analyzer.license_name rows)).
Proof.
  unfold Analyzer.get_license_distribution. split; [|split].
  - eapply StronglySorted_impl; [|apply sorted_sorted].
    intros a b H. unfold Analyzer.goes_first in H.
    apply Z.leb_le in H. lia.
  - apply sorted_perm.
  - intros n.
    assert (E : forall l : list (str * nat),
               filter (fun x => snd x =? n) l
               = filter (fun x => (Z.of_nat (snd x) =? Z.of_nat n)%Z) l).
    { intros l. apply filter_ext. intros x.
      destruct (snd x =? n) eqn:E1.
      - apply Nat.eqb_eq in E1. symmetry. apply Z.eqb_eq. lia.
      - apply Nat.eqb_neq in E1. symmetry. apply Z.eqb_neq. lia. }
    rewrite !E. apply (sorted_stable (str * nat)%type (fun x => Z.of_nat (snd x))).
Qed.

(** ** Cleaning *)

Lemma clean_cell (c : Analyzer.cell) :
  filled (Analyzer.replace [] (lit "Unknown") (Analyzer.fillna (lit "Unknown") c))
  = true
  /\ (filled c = true ->
      Analyzer.replace [] (lit "Unknown") (Analyzer.fillna (lit "Unknown") c) = c)
  /\ (filled c = false ->
      Analyzer.replace [] (lit "Unknown") (Analyzer.fillna (lit "Unknown") c)
      = Some (lit "Unknown")).
Proof.
  destruct c as [[|x s]|]; cbn; repeat split; try discriminate; reflexivity.
Qed.

Lemma preprocess_data_rows (rows : list Analyzer.record) :
  Analyzer.preprocess_data (Some rows)
  = Some (map (fun r =>
                 {| Analyzer.license_name :=
                      Analyzer.replace [] (lit "Unknown")
                        (Analyzer.fillna (lit "Unknown") (Analyzer.license_name r));
                    Analyzer.version :=
                      Analyzer.replace [] (lit "Unknown")
                        (Analyzer.fillna (lit "Unknown") (Analyzer.version r)) |})
              rows).
Proof.
  unfold Analyzer.preprocess_data, Analyzer.set_license_name, Analyzer.set_version.
  cbv zeta. rewrite !map_map. reflexivity.
Qed.

(** X25.  Cleaning keeps the rows and their order, leaves every cell
    of the two columns that holds a string that is not empty as it is,
    and puts Unknown in the others, so that afterwards no cell of the
    two columns is missing or empty; cleaning a second time changes
    nothing. *)
Theorem preprocess_data_clean (rows : list Analyzer.record) :
  exists cleaned : list Analyzer.record,
    Analyzer.preprocess_data (Some rows) = Some cleaned
    /\ Analyzer.preprocess_data (Some cleaned) = Some cleaned
    /\ length cleaned = length rows
    /\ forall (i : nat) (r : Analyzer.record),
         nth_error rows i = Some r ->
         exists r' : Analyzer.record,
           nth_error cleaned i = Some r'
           /\ filled (Analyzer.license_name r') = true
           /\ filled (Analyzer.version r') = true
           /\ Analyzer.license_name r'
              = (if filled (Analyzer.license_name r)
                 then Analyzer.license_name r else Some (lit "Unknown"))
           /\ Analyzer.version r'
              = (if filled (Analyzer.version r)
                 then Analyzer.version r else Some (lit "Unknown")).
Proof.
  eexists. split; [apply preprocess_data_rows|]. split; [|split].
  - rewrite preprocess_data_rows, map_map. f_equal.
    apply map_ext. intros r. cbn [Analyzer.license_name Analyzer.version].
    f_equal.
    + apply (proj1 (proj2 (clean_cell _))), (proj1 (clean_cell _)).
    + apply (proj1 (proj2 (clean_cell _))), (proj1 (clean_cell _)).
  - apply length_map.
  - intros i r Hr. eexists.
    split; [erewrite map_nth_error by exact Hr; reflexivity|].
    cbn [Analyzer.license_name Analyzer.version].
    destruct (clean_cell (Analyzer.license_name r)) as [L1 [L2 L3]].
    destruct (clean_cell (Analyzer.version r)) as [V1 [V2 V3]].
    split; [exact L1|]. split; [exact V1|]. split.
    + destruct (filled (Analyzer.license_name r)); auto.
    + destruct (filled (Analyzer.version r)); auto.
Qed.

Lemma preprocess_data_clean_witness :
  exists cleaned r',
    Analyzer.preprocess_data (Some two_rows_frame) = Some cleaned
    /\ nth_error cleaned 1 = Some r'
    /\ Analyzer.license_name r' = Some (lit "Unknown")
    /\ Analyzer.version r' = Some (lit "Unknown").
Proof.
  destruct (preprocess_data_clean two_rows_frame) as [cleaned [H1 [_ [_ H4]]]].
  destruct (H4 1 {| Analyzer.license_name := None; Analyzer.version := Some [] |}
              eq_refl) as [r' [Hn [_ [_ [Hl Hv]]]]].
  exists cleaned, r'. now repeat split.
Defined.

(** ** The summary *)

Lemma differs_informative (c : Analyzer.cell) :
  Analyzer.differs (lit "Unknown")
    (Analyzer.replace [] (lit "Unknown") (Analyzer.fillna (lit "Unknown") c))
  = informative c.
Proof.
  unfold informative.
  destruct (clean_cell c) as [_ [H1 H2]].
  destruct (filled c) eqn:E.
  - now rewrite H1.
  - now rewrite H2.
Qed.

Lemma filter_map_length {A B : Type} (f : A -> B) (p : B -> bool) (l : list A) :
  length (filter p (map f l)) = length (filter (fun x => p (f x)) l).
Proof.
  induction l as [|x l IH]; [reflexivity|].
  cbn [map filter]. destruct (p (f x)); cbn [length]; now rewrite IH.
Qed.

(** X26.  On a loaded frame the summary raises [ZeroDivisionError]
    exactly when the frame has no rows.  Otherwise it counts all rows
    and, of those, the rows whose license and whose version differ
    from Unknown, lists at most five licenses, and on a cleaned frame
    the rows counted are those whose cell held a string other than the
    empty one and Unknown. *)
Theorem generate_summary_statistics_counts
    (value_counts : list Analyzer.cell -> list (str * nat))
    (rows : list Analyzer.record) :
  (Analyzer.generate_summary_statistics value_counts (Some rows)
   = Raised ZeroDivisionError <-> rows = [])
  /\ (forall sm : Analyzer.summary,
        Analyzer.generate_summary_statistics value_counts (Some rows)
        = Ok (Some sm) ->
        Analyzer.total_records sm = length rows
        /\ Analyzer.records_with_license sm <= Analyzer.total_records sm
        /\ Analyzer.records_with_version sm <= Analyzer.total_records sm
        /\ length (Analyzer.top_licenses sm) <= 5)
  /\ (forall sm : Analyzer.summary,
        Analyzer.generate_summary_statistics value_counts
          (Analyzer.preprocess_data (Some rows))
        = Ok (Some sm) ->
        Analyzer.records_with_license sm
        = length (filter (fun r => informative (Analyzer.license_name r)) rows)
        /\ Analyzer.records_with_version sm
           = length (filter (fun r => informative (Analyzer.version r)) rows)).
Proof.
  split; [|split].
  - unfold Analyzer.generate_summary_statistics.
    destruct rows as [|r rows]; cbn [length]; split; try reflexivity; discriminate.
  - intros sm. unfold Analyzer.generate_summary_statistics. cbv zeta.
    destruct (length rows) as [|n] eqn:E; [discriminate|].
    intros H. injection H as <-.
    cbn [Analyzer.total_records Analyzer.records_with_license
         Analyzer.records_with_version Analyzer.top_licenses].
    rewrite <- E.
    split; [reflexivity|].
    split; [apply filter_length_le|].
    split; [apply filter_length_le|].
    exact (firstn_le_length 5 (value_counts (map Analyzer.license_name rows))).
  - intros sm. rewrite preprocess_data_rows.
    unfold Analyzer.generate_summary_statistics. cbv zeta.
    rewrite length_map. destruct (length rows); [discriminate|].
    intros H. injection H as <-.
    cbn [Analyzer.records_with_license Analyzer.records_with_version].
    rewrite !filter_map_length.
    cbn [Analyzer.license_name Analyzer.version]. split.
    + f_equal. apply filter_ext. intros r. apply differs_informative.
    + f_equal. apply filter_ext. intros r. apply differs_informative.
Qed.

Lemma generate_summary_statistics_counts_witness :
  Analyzer.records_with_license
    {| Analyzer.total_records := 2;
       Analyzer.records_with_license := 1;
       Analyzer.records_with_version := 1;
       Analyzer.top_licenses := [] |}
  = length (filter (fun r => informative (Analyzer.license_name r)) two_rows_frame)
  /\ Analyzer.records_with_version
       {| Analyzer.total_records := 2;
          Analyzer.records_with_license := 1;
          Analyzer.records_with_version := 1;
          Analyzer.top_licenses := [] |}
     = length (filter (fun r => informative (Analyzer.version r)) two_rows_frame).
Proof.
  apply (proj2 (proj2 (generate_summary_statistics_counts
                         (fun _ => []) two_rows_frame))).
  vm_compute. reflexivity.
Defined.
